(** * Steinbot: the web routes around retrieval, ingestion and chat

    A shallow embedding of the TypeScript sources of the Next.js
    frontend (API routes, prompt storage, chat clients, input
    sanitisation) together with the properties proved about them.

    Part I holds the definitions, one module per source file.
    Part II holds the lemmas and theorems. *)

From Stdlib Require Import List String Ascii Bool NArith ZArith Lia.
From Stdlib Require Import DecimalString.
From Equations.Prop Require Import Equations Logic.
Import ListNotations.

Set Implicit Arguments.
Set Warnings "-register-all".

(* ===================================================================== *)
(** * Part I. Definitions                                                 *)
(* ===================================================================== *)

(** ** JavaScript data as the routes see it *)

Module JS.

(** A JavaScript string is a sequence of UTF-16 code units. *)
Definition codeunit := N.
Definition jsstring := list codeunit.

(** Source literals are ASCII; [lit] turns one into code units. *)
Definition lit (s : string) : jsstring :=
  map N_of_ascii (list_ascii_of_string s).

Definition str_eqb (a b : jsstring) : bool :=
  if list_eq_dec N.eq_dec a b then true else false.

(** [s.length] *)
Definition length_ (s : jsstring) : Z := Z.of_nat (List.length s).

(** [s.substring(a, b)]: both indices are clamped to [0, s.length] and
    swapped when [a > b]. *)
Definition substring (s : jsstring) (a b : Z) : jsstring :=
  let clamp i := Z.to_nat (Z.min (Z.max i 0) (length_ s)) in
  let lo := Nat.min (clamp a) (clamp b) in
  let hi := Nat.max (clamp a) (clamp b) in
  firstn (hi - lo) (skipn lo s).

(** WhiteSpace and LineTerminator code units, as removed by
    [String.prototype.trim]. *)
Definition is_ws (c : codeunit) : bool :=
  ((9 <=? c) && (c <=? 13) || (c =? 32) || (c =? 160) || (c =? 5760)
   || (8192 <=? c) && (c <=? 8202) || (c =? 8232) || (c =? 8233)
   || (c =? 8239) || (c =? 8287) || (c =? 12288) || (c =? 65279))%N.

Fixpoint trimStart (s : jsstring) : jsstring :=
  match s with
  | [] => []
  | c :: r => if is_ws c then trimStart r else s
  end.

Definition trimEnd (s : jsstring) : jsstring := rev (trimStart (rev s)).

(** [s.startsWith(p)] and [s.includes(p)] *)
Fixpoint startsWith (p s : jsstring) : bool :=
  match p, s with
  | [], _ => true
  | _ :: _, [] => false
  | a :: p', b :: s' => (a =? b)%N && startsWith p' s'
  end.

Fixpoint includes (p s : jsstring) : bool :=
  startsWith p s || match s with [] => false | _ :: s' => includes p s' end.

(** [s.trim()] *)
Definition trim (s : jsstring) : jsstring := trimEnd (trimStart s).

(** The first code unit of [s], if any, is not whitespace. *)
Definition head_clean (s : jsstring) : Prop :=
  match s with [] => True | c :: _ => is_ws c = false end.

(** A number is an integer or, when it has a fractional part, is carried
    by the text [Number.prototype.toString] gives for it; the routes only
    count, print and compare numbers with zero.  [Int] stands for the
    integers a double holds exactly and prints in full (below 2^53 in
    size); any other number is carried as [Frac] with its text. *)
Inductive number : Type :=
| Int (z : Z)
| Frac (text : jsstring).

(** Runtime values. *)
Inductive value : Type :=
| Undefined
| Null
| Bool (b : bool)
| Num (n : number)
| Str (s : jsstring)
| Arr (items : list value)
| Obj (fields : list (string * value)).

(** [typeof v === 'string'] *)
Definition is_string (v : value) : bool :=
  match v with Str _ => true | _ => false end.

(** [Array.isArray(v)] *)
Definition isArray (v : value) : bool :=
  match v with Arr _ => true | _ => false end.

(** ToBoolean *)
Definition truthy (v : value) : bool :=
  match v with
  | Undefined | Null => false
  | Bool b => b
  | Num (Int z) => negb (z =? 0)%Z
  | Num (Frac _) => true
  | Str s => match s with [] => false | _ => true end
  | Arr _ | Obj _ => true
  end.

Fixpoint lookup (k : string) (fields : list (string * value)) : value :=
  match fields with
  | [] => Undefined
  | (k', v) :: rest => if String.eqb k k' then v else lookup k rest
  end.

(** Errors thrown by the runtime or by library calls; [String(e)] is
    [error_text e]. *)
Inductive JsError : Type :=
| TypeError (message : jsstring)
| SyntaxError (message : jsstring)
| Error (message : jsstring).

Definition message_of (e : JsError) : jsstring :=
  match e with TypeError m | SyntaxError m | Error m => m end.

Definition error_text (e : JsError) : jsstring :=
  match e with
  | TypeError m => lit "TypeError: " ++ m
  | SyntaxError m => lit "SyntaxError: " ++ m
  | Error m => lit "Error: " ++ m
  end.

(** A computation that may throw. *)
Inductive result (A : Type) : Type :=
| Ok (a : A)
| Throw (e : JsError).
Arguments Ok {A} a.
Arguments Throw {A} e.

Definition bind {A B} (m : result A) (k : A -> result B) : result B :=
  match m with Ok a => k a | Throw e => Throw e end.

Notation "'let*' x ':=' m 'in' k" := (bind m (fun x => k))
  (at level 10, x name, m at level 100, k at level 200).

(** [v.k] for a data key [k] of a value that is neither null nor
    undefined (none of the keys read by the routes is a built-in member
    of strings, arrays, numbers or booleans). *)
Definition get (v : value) (k : string) : value :=
  match v with
  | Obj fields => lookup k fields
  | _ => Undefined
  end.

(** [v.k] *)
Definition prop (v : value) (k : string) : result value :=
  match v with
  | Undefined =>
      Throw (TypeError (lit "Cannot read properties of undefined (reading '"
                          ++ lit k ++ lit "')"))
  | Null =>
      Throw (TypeError (lit "Cannot read properties of null (reading '"
                          ++ lit k ++ lit "')"))
  | _ => Ok (get v k)
  end.

(** [v === 'text'] *)
Definition is_text (v : value) (text : string) : bool :=
  match v with Str s => str_eqb s (lit text) | _ => false end.

(** Decimal text of an integer, as in template literals. *)
Definition Z_to_string (z : Z) : jsstring :=
  lit (NilZero.string_of_int (Z.to_int z)).

Definition number_text (n : number) : jsstring :=
  match n with Int z => Z_to_string z | Frac text => text end.

(** [v.toString()] on a parsed JSON value.  Array elements that are null
    contribute the empty text; an object whose own [toString] entry
    shadows the inherited method cannot be converted. *)
Fixpoint toString (v : value) : result jsstring :=
  match v with
  | Undefined => Throw (TypeError (lit "Cannot read properties of undefined (reading 'toString')"))
  | Null => Throw (TypeError (lit "Cannot read properties of null (reading 'toString')"))
  | Bool true => Ok (lit "true")
  | Bool false => Ok (lit "false")
  | Num n => Ok (number_text n)
  | Str s => Ok s
  | Arr items =>
      (fix join (l : list value) : result jsstring :=
         match l with
         | [] => Ok []
         | x :: rest =>
             let* a := match x with
                       | Undefined | Null => Ok []
                       | _ => toString x
                       end in
             match rest with
             | [] => Ok a
             | _ => let* b := join rest in Ok (a ++ lit "," ++ b)
             end
         end) items
  | Obj fields =>
      match lookup "toString" fields with
      | Undefined => Ok (lit "[object Object]")
      | _ => Throw (TypeError (lit "toString is not a function"))
      end
  end.

(** [String(v)], the conversion applied to a value where a text is
    needed.  A parsed JSON object has no callable [toString] or
    [valueOf] of its own, so one that shadows the inherited [toString]
    cannot be converted. *)
Fixpoint String_ (v : value) : result jsstring :=
  match v with
  | Undefined => Ok (lit "undefined")
  | Null => Ok (lit "null")
  | Bool true => Ok (lit "true")
  | Bool false => Ok (lit "false")
  | Num n => Ok (number_text n)
  | Str s => Ok s
  | Arr items =>
      (fix join (l : list value) : result jsstring :=
         match l with
         | [] => Ok []
         | x :: rest =>
             let* a := match x with
                       | Undefined | Null => Ok []
                       | _ => String_ x
                       end in
             match rest with
             | [] => Ok a
             | _ => let* b := join rest in Ok (a ++ lit "," ++ b)
             end
         end) items
  | Obj fields =>
      match lookup "toString" fields with
      | Undefined => Ok (lit "[object Object]")
      | _ => Throw (TypeError (lit "Cannot convert object to primitive value"))
      end
  end.

(** [const { first, ... } = v]: destructuring throws on null and
    undefined, where [name] is the text of the expression. *)
Definition destructure (v : value) (first name : string) : result value :=
  match v with
  | Undefined =>
      Throw (TypeError (lit "Cannot destructure property '" ++ lit first ++ lit "' of '"
                          ++ lit name ++ lit "' as it is undefined."))
  | Null =>
      Throw (TypeError (lit "Cannot destructure property '" ++ lit first ++ lit "' of '"
                          ++ lit name ++ lit "' as it is null."))
  | _ => Ok v
  end.

(** [a || b] on strings *)
Definition or_else (a b : jsstring) : jsstring :=
  match a with [] => b | _ => a end.

Definition nl : jsstring := [10%N].
Definition dquote : jsstring := [34%N].

(** HTTP responses built by the route handlers.  A streamed body yields
    its chunks and is then closed ([BStream]), fails ([BStreamBroken]) or
    stays open for ever ([BStreamOpen]). *)
Inductive Body : Type :=
| BText (text : jsstring)
| BJson (v : value)
| BStream (chunks : list jsstring)
| BStreamBroken (chunks : list jsstring)
| BStreamOpen (chunks : list jsstring).

Record Response : Type := mkResponse { status : Z; body : Body }.

Definition json (v : value) (st : Z) : Response := mkResponse st (BJson v).

(** One entry of an object literal. *)
Definition fld (k : string) (v : value) : string * value := (k, v).

(** A field of a JSON response body ([Undefined] when the body is not a
    JSON object or has no such field). *)
Definition field (r : Response) (k : string) : value :=
  match body r with
  | BJson (Obj fields) => lookup k fields
  | _ => Undefined
  end.

End JS.
Import JS.

Notation "'let*' x ':=' m 'in' k" := (bind m (fun x => k))
  (at level 10, x name, m at level 100, k at level 200).

(** ** [utils/sanitization.ts] *)

Module Sanitization.

Definition NUL : codeunit := 0%N.
Definition LT : codeunit := 60%N.   (* '<' *)
Definition GT : codeunit := 62%N.   (* '>' *)

(** [s.replace(/[class]/g, '')] for a one-character class. *)
Definition remove_class (cls : codeunit -> bool) (s : jsstring) : jsstring :=
  filter (fun c => negb (cls c)) s.

(** [/\0/] *)
Definition is_nul (c : codeunit) : bool := (c =? NUL)%N.

(** [/[\x01-\x08\x0B\x0C\x0E-\x1F\x7F-\x9F]/] *)
Definition is_control (c : codeunit) : bool :=
  ((1 <=? c) && (c <=? 8) || (c =? 11) || (c =? 12)
   || (14 <=? c) && (c <=? 31) || (127 <=? c) && (c <=? 159))%N.

(** Where [[^>]*>] ends when matched at the start of [s]: the text after
    the first '>' of [s], if there is one. *)
Fixpoint tag_end (s : jsstring) : option jsstring :=
  match s with
  | [] => None
  | c :: r => if (c =? GT)%N then Some r else tag_end r
  end.

(** The match of [/<[^>]*>/] at the start of [s], as the remainder after
    it. *)
Definition tag_match (s : jsstring) : option jsstring :=
  match s with
  | [] => None
  | c :: r => if (c =? LT)%N then tag_end r else None
  end.

(** [s.replace(/<[^>]*>/g, '')]: scanning left to right, a match is
    dropped and the scan resumes after it; otherwise the code unit is
    kept. *)
Equations? remove_tags (s : jsstring) : jsstring by wf (List.length s) lt :=
  remove_tags [] := [];
  remove_tags (c :: r) with inspect (tag_match (c :: r)) := {
    | exist _ (Some rest) E := remove_tags rest;
    | exist _ None E := c :: remove_tags r }.
Proof.
  simpl in E. destruct (c =? LT)%N; [|discriminate].
  clear remove_tags. revert rest E.
  induction r as [|d r IH]; simpl; intros rest E; [discriminate|].
  destruct (d =? GT)%N.
  - injection E as <-. lia.
  - specialize (IH _ E). lia.
Qed.

(** No '<' of [s] is followed by a '>': [/<[^>]*>/] matches nowhere. *)
Fixpoint tagfree (s : jsstring) : Prop :=
  match s with
  | [] => True
  | c :: r => tag_match (c :: r) = None /\ tagfree r
  end.

(** The string branch of [sanitizeUserInput]. *)
Definition sanitize_string (input : jsstring) : jsstring :=
  trim (remove_tags (remove_class is_control (remove_class is_nul input))).

(** [sanitizeUserInput(input)], for any runtime value passed as input. *)
Definition sanitizeUserInput (input : value) : jsstring :=
  if negb (truthy input) || negb (is_string input) then []
  else match input with
       | Str s => sanitize_string s
       | _ => []
       end.

(** [sanitizeUserInputTyping(input)] *)
Definition sanitizeUserInputTyping (input : value) : jsstring :=
  if negb (truthy input) || negb (is_string input) then []
  else match input with
       | Str s => remove_class is_nul s
       | _ => []
       end.

End Sanitization.

(** ** [lib/prompts-data.ts] *)

Module PromptsData.

Record SystemPrompt : Type := mkPrompt {
  id : jsstring;
  name : jsstring;
  content : jsstring;
  createdAt : jsstring;
  updatedAt : jsstring
}.

(** [data/system-prompts.json] and the directory it lies in.  The file is
    written by the functions below and by nothing else, so its text is
    the array written last or, after a write that was cut short, text
    that does not parse. *)
Inductive Store : Type :=
| NoDirectory                             (* [data/] does not exist *)
| NoFile                                  (* the directory exists, the file does not *)
| Stored (prompts : list SystemPrompt)    (* the file holds the array written last *)
| Corrupt.                                (* the file holds text [JSON.parse] rejects *)

(** How a call of [fs.writeFileSync] ends: the file is written, or the
    call throws and leaves the file as it was or cut short. *)
Inductive Write : Type :=
| Written
| WriteThrows (e : JsError) (truncated : bool).

(** What the file system does to the calls one store function makes, in
    the order in which the source makes them. *)
Record Disk : Type := mkDisk {
  mkdir_reading : option JsError;   (* mkdirSync in readPrompts: the error thrown, if any *)
  create_default : Write;           (* writeFileSync in readPrompts *)
  read_file : option JsError;       (* readFileSync in readPrompts *)
  mkdir_writing : option JsError;   (* mkdirSync in writePrompts *)
  write_file : Write                (* writeFileSync in writePrompts *)
}.

(** No call fails. *)
Definition steady : Disk := mkDisk None Written None None Written.

(** What one call reads from the clock and the random generator, and
    what the file system does during it. *)
Record Tick : Type := mkTick {
  now_ms : Z;            (* Date.now() *)
  now_iso : jsstring;    (* new Date().toISOString() *)
  random36 : jsstring;   (* Math.random().toString(36).substr(2, 9) *)
  disk : Disk
}.

(** No file operation of the call throws. *)
Definition quiet (t : Tick) : bool :=
  match disk t with
  | mkDisk None Written None None Written => true
  | _ => false
  end.

(** Code that reads and writes the file and may throw. *)
Definition Fs (A : Type) : Type := Store -> result A * Store.

Definition ret {A} (a : A) : Fs A := fun st => (Ok a, st).

Definition seq {A B} (m : Fs A) (k : A -> Fs B) : Fs B :=
  fun st => match m st with
            | (Ok a, st') => k a st'
            | (Throw e, st') => (Throw e, st')
            end.

Notation "x <- m ;; k" := (seq m (fun x => k))
  (at level 61, m at next level, right associativity).

(** [try { body } catch (error) { return fallback }] *)
Definition catch {A} (body : Fs A) (fallback : A) (st : Store) : A * Store :=
  match body st with
  | (Ok a, st') => (a, st')
  | (Throw _, st') => (fallback, st')
  end.

Definition no_entry : JsError := Error (lit "ENOENT: no such file or directory").

(** [fs.existsSync(dataDir)] and [fs.existsSync(PROMPTS_DATA_PATH)] *)
Definition dir_exists : Fs bool :=
  fun st => (Ok match st with NoDirectory => false | _ => true end, st).

Definition file_exists : Fs bool :=
  fun st => (Ok match st with NoDirectory | NoFile => false | _ => true end, st).

(** [fs.mkdirSync(dataDir, { recursive: true })] *)
Definition mkdirSync (outcome : option JsError) : Fs unit :=
  fun st => match outcome with
            | Some e => (Throw e, st)
            | None => (Ok tt, match st with NoDirectory => NoFile | _ => st end)
            end.

(** [fs.writeFileSync(PROMPTS_DATA_PATH, JSON.stringify(prompts, null, 2))] *)
Definition writeFileSync (outcome : Write) (prompts : list SystemPrompt) : Fs unit :=
  fun st => match st, outcome with
            | NoDirectory, _ => (Throw no_entry, st)
            | _, Written => (Ok tt, Stored prompts)
            | _, WriteThrows e truncated => (Throw e, if truncated then Corrupt else st)
            end.

(** [JSON.parse(fs.readFileSync(PROMPTS_DATA_PATH, 'utf8'))] *)
Definition read_and_parse (outcome : option JsError) : Fs (list SystemPrompt) :=
  fun st => match st, outcome with
            | (NoDirectory | NoFile), _ => (Throw no_entry, st)
            | _, Some e => (Throw e, st)
            | Stored prompts, None => (Ok prompts, st)
            | Corrupt, None => (Throw (SyntaxError (lit "Unexpected end of JSON input")), st)
            end.

(** [ensureDataDirectory()] *)
Definition ensureDataDirectory (mkdir : option JsError) : Fs unit :=
  there <- dir_exists ;;
  if negb there then mkdirSync mkdir else ret tt.

Definition default_content : jsstring :=
  lit "# Default System Prompt" ++ nl ++ nl
  ++ lit "This is a default system prompt. You can create and manage multiple system prompts from the UI."
  ++ nl ++ nl
  ++ lit "## Usage" ++ nl
  ++ lit "- Create new prompts for different use cases" ++ nl
  ++ lit "- Switch between prompts in conversations" ++ nl
  ++ lit "- Edit and delete prompts as needed" ++ nl.

Definition defaultPrompt (t : Tick) : SystemPrompt :=
  {| id := lit "default";
     name := lit "Default System Prompt";
     content := default_content;
     createdAt := now_iso t;
     updatedAt := now_iso t |}.

(** [readPrompts()]: creates the file with the default prompt when it
    does not exist; whatever is thrown on the way is logged and the
    empty array is returned. *)
Definition readPrompts (t : Tick) (st : Store) : list SystemPrompt * Store :=
  catch (_ <- ensureDataDirectory (mkdir_reading (disk t)) ;;
         there <- file_exists ;;
         if negb there then
           _ <- writeFileSync (create_default (disk t)) [defaultPrompt t] ;;
           ret [defaultPrompt t]
         else read_and_parse (read_file (disk t)))
        [] st.

(** [writePrompts(prompts)]: what is thrown is logged and thrown again. *)
Definition writePrompts (t : Tick) (prompts : list SystemPrompt) : Fs unit :=
  _ <- ensureDataDirectory (mkdir_writing (disk t)) ;;
  writeFileSync (write_file (disk t)) prompts.

(** [getPromptById(id)] *)
Definition getPromptById (t : Tick) (i : jsstring) (st : Store)
  : option SystemPrompt * Store :=
  let '(prompts, st) := readPrompts t st in
  (find (fun p => str_eqb (id p) i) prompts, st).

(** [createPrompt(name, content)] *)
Definition createPrompt (t : Tick) (n c : jsstring) : Fs SystemPrompt :=
  fun st =>
    let '(prompts, st) := readPrompts t st in
    let newPrompt :=
      {| id := Z_to_string (now_ms t) ++ random36 t;
         name := n;
         content := c;
         createdAt := now_iso t;
         updatedAt := now_iso t |} in
    (_ <- writePrompts t (prompts ++ [newPrompt]) ;; ret newPrompt) st.

(** [prompts.findIndex(p => p.id === id)] followed by the assignment
    [prompts[index] = f(prompts[index])]; [None] stands for index -1. *)
Fixpoint update_at_id (i : jsstring) (f : SystemPrompt -> SystemPrompt)
  (prompts : list SystemPrompt) : option (SystemPrompt * list SystemPrompt) :=
  match prompts with
  | [] => None
  | p :: rest =>
      if str_eqb (id p) i then Some (f p, f p :: rest)
      else match update_at_id i f rest with
           | Some (u, rest') => Some (u, p :: rest')
           | None => None
           end
  end.

(** [updatePrompt(id, name, content)] *)
Definition updatePrompt (t : Tick) (i n c : jsstring) : Fs (option SystemPrompt) :=
  fun st =>
    let '(prompts, st) := readPrompts t st in
    let f p := {| id := id p; name := n; content := c;
                  createdAt := createdAt p; updatedAt := now_iso t |} in
    match update_at_id i f prompts with
    | None => (Ok None, st)
    | Some (u, prompts') => (_ <- writePrompts t prompts' ;; ret (Some u)) st
    end.

(** [deletePrompt(id)] *)
Definition deletePrompt (t : Tick) (i : jsstring) : Fs bool :=
  fun st =>
    let '(prompts, st) := readPrompts t st in
    let filteredPrompts := filter (fun p => negb (str_eqb (id p) i)) prompts in
    if (List.length filteredPrompts =? List.length prompts)%nat then (Ok false, st)
    else (_ <- writePrompts t filteredPrompts ;; ret true) st.

Definition to_json (p : SystemPrompt) : value :=
  Obj [("id", Str (id p)); ("name", Str (name p)); ("content", Str (content p));
       ("createdAt", Str (createdAt p)); ("updatedAt", Str (updatedAt p))]%string.

End PromptsData.

(** ** [app/api/system-prompts/route.ts] and
       [app/api/system-prompts/[id]/route.ts] *)

Module SystemPromptsRoute.
Import PromptsData.

Definition error_json (msg : string) (st : Z) : Response :=
  json (Obj [("error"%string, Str (lit msg))]) st.

(** The checks on [{ name, content }] shared by POST and PUT; the request
    body is [None] when [request.json()] rejects. *)
Definition read_name_content (req_body : option value)
  : result (Response + jsstring * jsstring) :=
  match req_body with
  | None => Throw (SyntaxError (lit "Unexpected end of JSON input"))
  | Some b =>
      let* n := prop b "name" in
      let* c := prop b "content" in
      match n, c with
      | Str ((_ :: _) as n'), Str ((_ :: _) as c') => Ok (inr (n', c'))
      | Str (_ :: _), _ =>
          Ok (inl (error_json "Content is required and must be a string" 400))
      | _, _ =>
          Ok (inl (error_json "Name is required and must be a string" 400))
      end
  end.

(** GET /api/system-prompts *)
Definition GET (t : Tick) (st : Store) : Response * Store :=
  let '(prompts, st) := readPrompts t st in
  (json (Obj [("prompts"%string, Arr (map to_json prompts))]) 200, st).

(** POST /api/system-prompts *)
Definition POST (req_body : option value) (t : Tick) (st : Store)
  : Response * Store :=
  match read_name_content req_body with
  | Throw _ => (error_json "Failed to create system prompt" 500, st)
  | Ok (inl r) => (r, st)
  | Ok (inr (n, c)) =>
      match createPrompt t n c st with
      | (Ok newPrompt, st) => (json (Obj [("prompt"%string, to_json newPrompt)]) 201, st)
      | (Throw _, st) => (error_json "Failed to create system prompt" 500, st)
      end
  end.

End SystemPromptsRoute.

Module SystemPromptsIdRoute.
Import PromptsData.
Import SystemPromptsRoute (error_json, read_name_content).

(** GET /api/system-prompts/[id] *)
Definition GET (i : jsstring) (t : Tick) (st : Store) : Response * Store :=
  match getPromptById t i st with
  | (None, st) => (error_json "System prompt not found" 404, st)
  | (Some p, st) => (json (Obj [("prompt"%string, to_json p)]) 200, st)
  end.

(** PUT /api/system-prompts/[id] *)
Definition PUT (i : jsstring) (req_body : option value) (t : Tick) (st : Store)
  : Response * Store :=
  match read_name_content req_body with
  | Throw _ => (error_json "Failed to update system prompt" 500, st)
  | Ok (inl r) => (r, st)
  | Ok (inr (n, c)) =>
      match updatePrompt t i n c st with
      | (Ok None, st) => (error_json "System prompt not found" 404, st)
      | (Ok (Some u), st) => (json (Obj [("prompt"%string, to_json u)]) 200, st)
      | (Throw _, st) => (error_json "Failed to update system prompt" 500, st)
      end
  end.

(** DELETE /api/system-prompts/[id] *)
Definition DELETE (i : jsstring) (t : Tick) (st : Store) : Response * Store :=
  if str_eqb i (lit "default") then
    (error_json "Cannot delete the default system prompt" 400, st)
  else
    match deletePrompt t i st with
    | (Ok false, st) => (error_json "System prompt not found" 404, st)
    | (Ok true, st) => (json (Obj [("success"%string, Bool true)]) 200, st)
    | (Throw _, st) => (error_json "Failed to delete system prompt" 500, st)
    end.

End SystemPromptsIdRoute.

(** The public interface of the prompt store: the five route handlers. *)
Module PromptApi.
Import PromptsData.

Inductive Request : Type :=
| List_
| Create (req_body : option value)
| Get (i : jsstring)
| Update (i : jsstring) (req_body : option value)
| Delete (i : jsstring).

Definition handle (r : Request) (t : Tick) (st : Store) : Response * Store :=
  match r with
  | List_ => SystemPromptsRoute.GET t st
  | Create b => SystemPromptsRoute.POST b t st
  | Get i => SystemPromptsIdRoute.GET i t st
  | Update i b => SystemPromptsIdRoute.PUT i b t st
  | Delete i => SystemPromptsIdRoute.DELETE i t st
  end.

(** The store after a sequence of requests, each with its own tick. *)
Fixpoint run (reqs : list (Request * Tick)) (st : Store) : Store :=
  match reqs with
  | [] => st
  | (r, t) :: rest => run rest (snd (handle r t st))
  end.

(** The prompts a reader sees hold one whose id is ['default']. *)
Definition has_default (prompts : list SystemPrompt) : bool :=
  existsb (fun p => str_eqb (id p) (lit "default")) prompts.

(** A reader whose file operations succeed is served the default
    prompt. *)
Definition serves_default (st : Store) : Prop :=
  forall t, quiet t = true -> has_default (fst (readPrompts t st)) = true.

(** No file operation fails during any of the requests. *)
Definition all_quiet (reqs : list (Request * Tick)) : Prop :=
  Forall (fun rt => quiet (snd rt) = true) reqs.

End PromptApi.

(** ** Child processes, as [spawn] and its events show them *)

Module ChildProcess.

(** The event that ends a run; [Out] is what the handler makes of the
    collected standard output. *)
Inductive Exit (Out : Type) : Type :=
| ErrorEvent (message : jsstring)
| CloseEvent (code : option Z) (stdout : Out) (stderr : jsstring).

(** A run of [spawn('python3', args)]: the call throws, or the first
    event arrives [at_ms] milliseconds later, or no event ever arrives. *)
Inductive Run (Out : Type) : Type :=
| SpawnThrows (e : JsError)
| Ends (at_ms : Z) (e : Exit Out)
| Hangs.

Arguments ErrorEvent {Out} message.
Arguments CloseEvent {Out} code stdout stderr.
Arguments SpawnThrows {Out} e.
Arguments Ends {Out} at_ms e.
Arguments Hangs {Out}.

(** [`${code}`] for an exit code, which is null after a signal. *)
Definition code_text (code : option Z) : jsstring :=
  match code with Some z => Z_to_string z | None => lit "null" end.

Definition exited_zero (code : option Z) : bool :=
  match code with Some z => (z =? 0)%Z | None => false end.

(** [path.join(process.cwd(), 'scripts', 'chat_history_manager.py')] *)
Definition script_path (cwd : jsstring) : jsstring :=
  cwd ++ lit "/scripts/chat_history_manager.py".

End ChildProcess.

(** ** Results of [chat_history_manager.py search] *)

Module Search.

(** One entry of the array printed by the search command. *)
Record SearchResult : Type := mkResult {
  session_id : jsstring;
  session_title : jsstring;
  message_index : number;
  role : jsstring;
  content : jsstring;
  relevance_score : number;
  (** the text of [(relevance_score * 100).toFixed(1)], which the runtime
      computes in floating point *)
  relevance_pct : jsstring;
  conversation_created : jsstring
}.

(** What [JSON.parse(stdout)] and the formatting loop make of the output:
    entries to format, or the error thrown on the way. *)
Inductive Parsed : Type :=
| Unparseable (e : JsError)
| Results (results : list SearchResult).

Record Stdout : Type := mkStdout { raw : jsstring; parsed : Parsed }.

(** The character budget of one context item and its marker. *)
Definition budget : Z := 400.
Definition marker : jsstring := lit "...".

(** The [Content:] part of a formatted item:
    [content.substring(0, 400)] and ['...'] when [content.length > 400]. *)
Definition shown_content (c : jsstring) : jsstring :=
  substring c 0 budget ++ (if (length_ c >? budget)%Z then marker else []).

(** The template literal [formatted_context], the same in both routes. *)
Definition formatted_context (r : SearchResult) : jsstring :=
  lit "From conversation " ++ dquote ++ session_title r ++ dquote ++ lit ":"
  ++ nl ++ nl
  ++ lit "Role: " ++ role r ++ nl
  ++ lit "Content: " ++ shown_content (content r)
  ++ nl ++ nl
  ++ lit "Relevance: " ++ relevance_pct r ++ lit "%".

(** The same entry under another [session_id]. *)
Definition with_session_id (r : SearchResult) (i : jsstring) : SearchResult :=
  mkResult i (session_title r) (message_index r) (role r) (content r)
           (relevance_score r) (relevance_pct r) (conversation_created r).

(** The same entry with another [content]. *)
Definition with_content (r : SearchResult) (c : jsstring) : SearchResult :=
  mkResult (session_id r) (session_title r) (message_index r) (role r) c
           (relevance_score r) (relevance_pct r) (conversation_created r).

End Search.

(** ** [app/api/graph-rag/route.ts] *)

Module GraphRagRoute.
Import ChildProcess Search.

Record Env : Type := mkEnv {
  cwd : jsstring;
  spawn : list jsstring -> Run Stdout
}.

(** The resolved value of [runPythonScript]. *)
Record ScriptResult : Type := mkScriptResult {
  context : option (list jsstring);
  error : option jsstring;
  metadata : option (list value)
}.

Definition failed (msg : jsstring) : ScriptResult :=
  mkScriptResult None (Some msg) None.

Definition timeout_ms : Z := 30000.

(** The entry pushed onto [metadata] for one result. *)
Definition metadata_entry (r : SearchResult) : value :=
  Obj [fld "session_id" (Str (session_id r));
       fld "session_title" (Str (session_title r));
       fld "message_index" (Num (message_index r));
       fld "role" (Str (role r));
       fld "content_preview" (Str (substring (content r) 0 100 ++ lit "..."));
       fld "relevance_score" (Num (relevance_score r));
       fld "conversation_created" (Str (conversation_created r))].

(** What the ['close'] and ['error'] handlers resolve with. *)
Definition on_exit (e : Exit Stdout) : ScriptResult :=
  match e with
  | ErrorEvent message => failed message
  | CloseEvent code stdout stderr =>
      if exited_zero code then
        match parsed stdout with
        | Results results =>
            mkScriptResult (Some (map formatted_context results)) None
                           (Some (map metadata_entry results))
        | Unparseable parseError =>
            failed (lit "Failed to parse Python script output: "
                      ++ error_text parseError)
        end
      else
        failed (or_else stderr
                  (lit "Python script failed with code " ++ code_text code
                     ++ lit ". stdout: " ++ raw stdout))
  end.

(** [runPythonScript(scriptPath, query, limit)]: the promise settles with
    whichever comes first, the timer or the end of the run; it rejects
    when building the arguments or [spawn] throws. *)
Definition runPythonScript (env : Env) (scriptPath query : jsstring)
  (limit : value) : result ScriptResult :=
  let* limit_text := toString limit in
  match spawn env [scriptPath; lit "search"; query; limit_text] with
  | SpawnThrows e => Throw e
  | Hangs => Ok (failed (lit "Python script timed out after 30 seconds"))
  | Ends at_ms e =>
      if (at_ms <? timeout_ms)%Z then Ok (on_exit e)
      else Ok (failed (lit "Python script timed out after 30 seconds"))
  end.

(** The timer fires before the run ends. *)
Definition timed_out (r : Run Stdout) : bool :=
  match r with
  | Hangs => true
  | Ends at_ms _ => negb (at_ms <? timeout_ms)%Z
  | SpawnThrows _ => false
  end.

Definition error_json (msg : string) (st : Z) : Response :=
  json (Obj [fld "error" (Str (lit msg))]) st.

(** [JSON.stringify] leaves out a field whose value is undefined. *)
Definition context_field (c : option (list jsstring)) : list (string * value) :=
  match c with
  | Some items => [fld "context" (Arr (map Str items))]
  | None => []
  end.

(** [limit = 5] in the destructuring of the body *)
Definition limit_of (b : value) : value :=
  match get b "limit" with Undefined => Num (Int 5) | l => l end.

(** POST /api/graph-rag; [req_body] is [None] when [request.json()]
    rejects. *)
Definition POST (req_body : option value) (env : Env) : Response :=
  let attempt : result Response :=
    match req_body with
    | None => Throw (SyntaxError (lit "Unexpected end of JSON input"))
    | Some b =>
        let* query := prop b "query" in
        let limit := limit_of b in
        match query with
        | Str ((_ :: _) as q) =>
            let scriptPath := script_path (cwd env) in
            let* res := runPythonScript env scriptPath q limit in
            match error res with
            | Some (_ :: _) => Ok (error_json "Failed to retrieve chat context" 500)
            | _ =>
                Ok (json (Obj (context_field (context res)
                                 ++ [fld "query" (Str q); fld "limit" limit]))
                         200)
            end
        | _ => Ok (error_json "Query is required and must be a string" 400)
        end
    end in
  match attempt with
  | Ok r => r
  | Throw _ => error_json "Internal server error" 500
  end.

End GraphRagRoute.

(** ** [app/api/ingest-chat-history/route.ts] *)

Module IngestChatHistoryRoute.
Import ChildProcess.

(** Standard output of the ingest command, with what the library calls
    make of it. *)
Record Stdout : Type := mkStdout {
  raw : jsstring;
  json_parse : option value;   (* JSON.parse(stdout.trim()); None when it throws *)
  parse_int : option Z         (* parseInt(stdout); None for NaN *)
}.

Record Env : Type := mkEnv {
  cwd : jsstring;
  script_exists : bool;                           (* existsSync(scriptPath) *)
  writeFileSync : jsstring -> value -> option JsError;
  (** the run of the script, given its arguments and the data found in
      the temporary file *)
  spawn : list jsstring -> value -> Run Stdout;
  temp_exists : bool;                             (* existsSync(tempDataPath) *)
  unlinkSync : jsstring -> option JsError;
  body_error : JsError   (* what request.json() rejects with when the body cannot be read *)
}.

Definition timeout_ms : Z := 60000.

Definition timed_out : value :=
  Obj [fld "error" (Str (lit "Python script timed out after 60 seconds"))].

(** [JSON.stringify] of a path that holds no character to escape. *)
Definition json_quote (s : jsstring) : jsstring := dquote ++ s ++ dquote.

(** What the ['close'] and ['error'] handlers resolve with. *)
Definition on_exit (e : Exit Stdout) : value :=
  match e with
  | ErrorEvent message => Obj [fld "error" (Str message)]
  | CloseEvent code stdout stderr =>
      if exited_zero code then
        match trim (raw stdout) with
        | [] => Obj [fld "processed_count" (Num (Int 0))]
        | _ :: _ =>
            match json_parse stdout with
            | Some res => res
            | None =>
                let n := match parse_int stdout with Some z => z | None => 0%Z end in
                Obj [fld "processed_count" (Num (Int n));
                     fld "message" (Str (trim (raw stdout)))]
            end
        end
      else
        Obj [fld "error"
               (Str (or_else stderr
                       (lit "Python script failed with code " ++ code_text code
                          ++ lit ". stdout: " ++ raw stdout)))]
  end.

(** [runPythonScript(scriptPath, command, data)] *)
Definition runPythonScript (env : Env) (scriptPath command : jsstring)
  (data : jsstring) (file : value) : result value :=
  let args := [scriptPath; command]
              ++ match data with [] => [] | _ => [json_quote data] end in
  match spawn env args file with
  | SpawnThrows e => Throw e
  | Hangs => Ok timed_out
  | Ends at_ms e => if (at_ms <? timeout_ms)%Z then Ok (on_exit e) else Ok timed_out
  end.

(** The callback of [session.messages.filter]:
    [message.role && message.content && message.content.trim().length > 0] *)
Definition valid_message (message : value) : result bool :=
  let* r := prop message "role" in
  if truthy r then
    let c := get message "content" in
    if truthy c then
      match c with
      | Str text => Ok (0 <? length_ (trim text))%Z
      | _ => Throw (TypeError (lit "message.content.trim is not a function"))
      end
    else Ok false
  else Ok false.

Fixpoint filter_messages (messages : list value) : result (list value) :=
  match messages with
  | [] => Ok []
  | m :: rest =>
      let* keep := valid_message m in
      let* rest' := filter_messages rest in
      Ok (if keep then m :: rest' else rest')
  end.

(** [{ ...session, messages: validMessages }] on the fields of [session] *)
Fixpoint set_field (k : string) (v : value) (fields : list (string * value))
  : list (string * value) :=
  match fields with
  | [] => [(k, v)]
  | (k', v') :: rest =>
      if String.eqb k k' then (k, v) :: rest else (k', v') :: set_field k v rest
  end.

Definition with_messages (session : value) (validMessages : list value) : value :=
  match session with
  | Obj fields => Obj (set_field "messages" (Arr validMessages) fields)
  | _ => Obj [fld "messages" (Arr validMessages)]
  end.

(** One turn of the loop over [chatSessions]: [None] when the session is
    passed over with [continue], the entry pushed onto [validSessions]
    otherwise. *)
Definition check_session (session : value) : result (option value) :=
  let* i := prop session "id" in
  if negb (truthy i) then Ok None
  else
    match get session "messages" with
    | Arr [] => Ok None
    | Arr messages =>
        let* validMessages := filter_messages messages in
        match validMessages with
        | [] => Ok None
        | _ => Ok (Some (with_messages session validMessages))
        end
    | _ => Ok None
    end.

(** The array [validSessions] after the loop. *)
Fixpoint validSessions (chatSessions : list value) : result (list value) :=
  match chatSessions with
  | [] => Ok []
  | session :: rest =>
      let* kept := check_session session in
      let* rest' := validSessions rest in
      Ok (match kept with Some v => v :: rest' | None => rest' end)
  end.

Definition count (l : list value) : value := Num (Int (Z.of_nat (List.length l))).

Definition nothing_valid (chatSessions : list value) : Response :=
  json (Obj [fld "error" (Str (lit "No valid chat history to ingest - please ensure chat sessions include their message arrays for proper persistence"));
             fld "details" (Str (lit "All provided sessions contained empty or invalid message arrays"));
             fld "processed_count" (Num (Int 0));
             fld "sessions_processed" (count chatSessions)]) 400.

Definition report (valid chatSessions : list value) : Response :=
  json (Obj [fld "success" (Bool true);
             fld "message" (Str (lit "Chat history stored as JSON and embeddings generated successfully"));
             fld "processed_count" (count valid);
             fld "sessions_processed" (count chatSessions)]) 200.

Definition error_json (msg : string) (details : option value) (st : Z) : Response :=
  json (Obj (fld "error" (Str (lit msg))
               :: match details with Some d => [fld "details" d] | None => [] end)) st.

(** The inner [try] block: write the temporary file, run the script,
    remove the file, look at [result.error].  [Ok None] lets the handler
    go on to the report. *)
Definition store_and_run (env : Env) (valid : list value) : result (option Response) :=
  let scriptPath := script_path (cwd env) in
  let tempDataPath := cwd env ++ lit "/temp_chat_sessions.json" in
  match writeFileSync env tempDataPath (Arr valid) with
  | Some e => Throw e
  | None =>
      let* res := runPythonScript env scriptPath (lit "ingest") tempDataPath (Arr valid) in
      let* _ := if temp_exists env
                then match unlinkSync env tempDataPath with
                     | Some e => Throw e
                     | None => Ok tt
                     end
                else Ok tt in
      let* err := prop res "error" in
      if truthy err
      then Ok (Some (error_json "Failed to ingest chat history" (Some err) 500))
      else Ok None
  end.

(** The handler after the loop over [chatSessions]. *)
Definition ingest (env : Env) (valid chatSessions : list value) : Response :=
  match valid with
  | [] => nothing_valid chatSessions
  | _ =>
      if negb (script_exists env)
      then error_json "Chat history manager script not found" None 500
      else
        match store_and_run env valid with
        | Throw fsError =>
            error_json "Failed to process chat sessions"
                       (Some (Str (error_text fsError))) 500
        | Ok (Some r) => r
        | Ok None => report valid chatSessions
        end
  end.

(** POST /api/ingest-chat-history; [req_body] is [None] when
    [request.json()] rejects. *)
Definition POST (req_body : option value) (env : Env) : Response :=
  let attempt : result Response :=
    match req_body with
    | None => Throw (body_error env)
    | Some Null | Some Undefined =>
        Throw (TypeError (lit "Cannot convert undefined or null to object"))
    | Some requestBody =>
        match get requestBody "chatSessions" with
        | Arr chatSessions =>
            let* valid := validSessions chatSessions in
            Ok (ingest env valid chatSessions)
        | _ => Ok (error_json "chatSessions array is required" None 400)
        end
    end in
  match attempt with
  | Ok r => r
  | Throw e => error_json "Internal server error" (Some (Str (error_text e))) 500
  end.

(** The keys a response of the handler can hold. *)
Definition report_keys : list string :=
  ["error"; "details"; "processed_count"; "sessions_processed"; "success"; "message"]%string.

(** The request body [{ chatSessions }]. *)
Definition batch (chatSessions : list value) : value :=
  Obj [fld "chatSessions" (Arr chatSessions)].



(** A session object without an [id] or without [messages]. *)
Definition lacks_field (session : value) : bool :=
  match session with
  | Obj fields =>
      match lookup "id" fields, lookup "messages" fields with
      | Undefined, _ | _, Undefined => true
      | _, _ => false
      end
  | _ => false
  end.

End IngestChatHistoryRoute.

(** ** [app/api/chat/route.ts] *)

Module ChatRoute.
Import ChildProcess Search.

(** How the reader of a response body ends after its chunks:
    [reader.read()] reports [done], rejects, or never settles. *)
Inductive ReadEnd : Type :=
| ReadDone
| ReadRejects (e : JsError)
| ReadPending.

Record ModelBody : Type := mkBody {
  chunks : list jsstring;
  ending : ReadEnd
}.

(** A body that is read to its end. *)
Definition whole (chunks : list jsstring) : ModelBody := mkBody chunks ReadDone.

(** The outcome of [fetch('http://localhost:11434/api/chat', ...)]; the
    body is [None] when the response has none. *)
Inductive Fetch : Type :=
| FetchRejects (e : JsError)
| FetchPending
| FetchResponse (ok : bool) (statusText : jsstring) (body : option ModelBody).

Record Env : Type := mkEnv {
  cwd : jsstring;
  tick : PromptsData.Tick;
  spawn : list jsstring -> Run Stdout;
  fetch_ollama : value -> Fetch
}.

Definition text_response (msg : string) (st : Z) : Response :=
  mkResponse st (BText (lit msg)).

Definition message_of_role (r : string) (c : value) : value :=
  Obj [fld "role" (Str (lit r)); fld "content" c].

(** [conversationMessages], or [None] when neither [messages] nor
    [message] is usable. *)
Definition conversationMessages (message messages : value) : option (list value) :=
  match messages with
  | Arr items => Some items
  | _ => if truthy message then Some [message_of_role "user" message] else None
  end.

(** [messages && Array.isArray(messages)] *)
Definition isConversationMode (messages : value) : bool := isArray messages.

(** [list.find(m => m.role === 'user')] *)
Fixpoint find_user (l : list value) : result (option value) :=
  match l with
  | [] => Ok None
  | m :: rest =>
      let* r := prop m "role" in
      if is_text r "user" then Ok (Some m) else find_user rest
  end.

(** [[...conversationMessages].reverse().find(...)?.content || ''] *)
Definition lastUserMessage (conversation : list value) : result value :=
  let* found := find_user (rev conversation) in
  match found with
  | None => Ok (Str [])
  | Some m => let c := get m "content" in Ok (if truthy c then c else Str [])
  end.

(** The value of [graphResult], or how the awaited promise ends. *)
Record GraphResult : Type := mkGraphResult {
  context : option (list jsstring);
  error : option jsstring
}.

Inductive Settled : Type :=
| Resolved (graphResult : GraphResult)
| Rejected (e : JsError)
| Pending.

(** The promise around [spawn('python3', [script, 'search',
    lastUserMessage, '3'])].  [spawn] turns each argument into text; no
    timer is set. *)
Definition graph_search (env : Env) (lastUserMessage : value) : Settled :=
  match String_ lastUserMessage with
  | Ok query =>
      match spawn env [script_path (cwd env); lit "search"; query; lit "3"] with
      | SpawnThrows e => Rejected e
      | Hangs => Pending
      | Ends _ (ErrorEvent message) => Resolved (mkGraphResult None (Some message))
      | Ends _ (CloseEvent code stdout stderr) =>
          if exited_zero code then
            match parsed stdout with
            | Results results =>
                Resolved (mkGraphResult (Some (map formatted_context results)) None)
            | Unparseable _ =>
                Resolved (mkGraphResult None
                            (Some (lit "Failed to parse chat history search output")))
            end
          else
            Resolved (mkGraphResult None
                        (Some (or_else stderr (lit "Chat history search script failed"))))
      end
  | Throw e => Rejected e
  end.

(** [context.map((ctx, i) => `[${i+1}] ${ctx}`)], counting from [i]. *)
Fixpoint numbered (i : Z) (ctxs : list jsstring) : list jsstring :=
  match ctxs with
  | [] => []
  | ctx :: rest =>
      (lit "[" ++ Z_to_string (i + 1) ++ lit "] " ++ ctx) :: numbered (i + 1) rest
  end.

(** [items.join(sep)] *)
Fixpoint join (sep : jsstring) (items : list jsstring) : jsstring :=
  match items with
  | [] => []
  | [x] => x
  | x :: rest => x ++ sep ++ join sep rest
  end.

Definition with_context (content : jsstring) (ctxs : list jsstring) : jsstring :=
  content ++ nl ++ nl
  ++ lit "You have access to relevant context from previous conversations:"
  ++ nl ++ nl
  ++ join (nl ++ nl) (numbered 0 ctxs)
  ++ nl ++ nl
  ++ lit "Use this context to maintain continuity and reference previous discussions when relevant.".

Definition note_no_context : jsstring :=
  nl ++ nl ++ lit "(Note: No relevant conversation context found for this query.)".

Definition note_retrieval_failed : jsstring :=
  nl ++ nl
  ++ lit "(Note: Conversation context retrieval failed, proceeding without additional context.)".

(** [enhancedSystemPrompt] after the [if (graphRAG)] block; [None] while
    the search promise never settles. *)
Definition enhancedSystemPrompt (content : jsstring) (s : Settled) : option jsstring :=
  match s with
  | Resolved graphResult =>
      match context graphResult with
      | Some ((_ :: _) as ctxs) => Some (with_context content ctxs)
      | _ => Some (content ++ note_no_context)
      end
  | Rejected _ => Some (content ++ note_retrieval_failed)
  | Pending => None
  end.

(** [ollamaMessages] *)
Definition ollamaMessages (conversationMode : bool) (enhanced : jsstring)
  (conversation : list value) (lastUserMessage : value) : list value :=
  if conversationMode then
    message_of_role "system" (Str enhanced) :: conversation
  else
    [message_of_role "system" (Str enhanced); message_of_role "user" lastUserMessage].

(** [ollamaRequestBody] *)
Definition ollamaRequestBody (model : value) (msgs : list value) : value :=
  Obj [fld "model" (if truthy model then model else Str (lit "mistral-small3.2:latest"));
       fld "messages" (Arr msgs);
       fld "stream" (Bool true)].

(** [getPromptById(selectedPromptId)]; an id that is not a string equals
    no stored id. *)
Definition getPromptById (t : PromptsData.Tick) (i : value) (st : PromptsData.Store)
  : option PromptsData.SystemPrompt * PromptsData.Store :=
  match i with
  | Str s => PromptsData.getPromptById t s st
  | _ => (None, snd (PromptsData.readPrompts t st))
  end.

(** [promptId || 'default'] *)
Definition selectedPromptId (b : value) : value :=
  if truthy (get b "promptId") then get b "promptId" else Str (lit "default").

(** [graphRAG = false] in the destructuring of the body *)
Definition graphRAG (b : value) : value :=
  match get b "graphRAG" with Undefined => Bool false | g => g end.

(** How far the handler gets before it calls the language model. *)
Inductive Prepared : Type :=
| Respond (r : Response)
| Thrown (e : JsError)
| Stuck
| Request (requestBody : value).

Definition prepare (req_body : option value) (env : Env) (st : PromptsData.Store)
  : Prepared * PromptsData.Store :=
  match req_body with
  | None => (Thrown (SyntaxError (lit "Unexpected end of JSON input")), st)
  | Some Null | Some Undefined =>
      (Thrown (TypeError (lit "Cannot destructure property 'message' of 'body' as it is null.")), st)
  | Some b =>
      let message := get b "message" in
      let messages := get b "messages" in
      let model := get b "model" in
      match conversationMessages message messages with
      | None =>
          (Respond (text_response "Either message or messages array is required" 400), st)
      | Some conversation =>
          let '(systemPromptData, st) := getPromptById (tick env) (selectedPromptId b) st in
          match systemPromptData with
          | None => (Respond (text_response "System prompt not found" 500), st)
          | Some p =>
              match lastUserMessage conversation with
              | Throw e => (Thrown e, st)
              | Ok last =>
                  let enhanced :=
                    if truthy (graphRAG b)
                    then enhancedSystemPrompt (PromptsData.content p) (graph_search env last)
                    else Some (PromptsData.content p) in
                  match enhanced with
                  | None => (Stuck, st)
                  | Some e =>
                      (Request (ollamaRequestBody model
                                  (ollamaMessages (isConversationMode messages) e
                                     conversation last)), st)
                  end
              end
          end
      end
  end.

(** The stream built around [pump()]: each chunk read is enqueued; the
    stream is closed when the reader is done, and nothing catches a
    rejected [reader.read()]. *)
Definition piped (b : ModelBody) : Body :=
  match ending b with
  | ReadDone => BStream (chunks b)
  | ReadRejects _ => BStreamBroken (chunks b)
  | ReadPending => BStreamOpen (chunks b)
  end.

(** What the handler answers once the language model call has ended; the
    response with the stream is returned before the body is read. *)
Definition respond (f : Fetch) : option Response :=
  match f with
  | FetchRejects _ => Some (text_response "Internal server error" 500)
  | FetchPending => None
  | FetchResponse false _ _ =>
      Some (text_response "Failed to get response from Ollama" 500)
  | FetchResponse true _ None => Some (mkResponse 200 (BStream []))
  | FetchResponse true _ (Some b) => Some (mkResponse 200 (piped b))
  end.

(** POST /api/chat: the response and the prompt store afterwards, or
    [None] when the handler never settles. *)
Definition POST (req_body : option value) (env : Env) (st : PromptsData.Store)
  : option (Response * PromptsData.Store) :=
  match prepare req_body env st with
  | (Respond r, st) => Some (r, st)
  | (Thrown _, st) => Some (text_response "Internal server error" 500, st)
  | (Stuck, _) => None
  | (Request requestBody, st) =>
      match respond (fetch_ollama env requestBody) with
      | Some r => Some (r, st)
      | None => None
      end
  end.

(** The search step fails: the promise rejects, or resolves with an
    [error]. *)
Definition retrieval_failed (s : Settled) : bool :=
  match s with
  | Rejected _ => true
  | Resolved graphResult =>
      match error graphResult with Some _ => true | None => false end
  | Pending => false
  end.

(** The language model call fails before an answer is begun: [fetch]
    rejects, or the response is not ok. *)
Definition fetch_failed (f : Fetch) : bool :=
  match f with
  | FetchRejects _ => true
  | FetchResponse ok _ _ => negb ok
  | FetchPending => false
  end.

(** The language model call fails in the middle of its answer: the
    response is ok and reading its body is rejected. *)
Definition stream_failed (f : Fetch) : bool :=
  match f with
  | FetchResponse true _ (Some (mkBody _ (ReadRejects _))) => true
  | _ => false
  end.

End ChatRoute.

(** ** The chat clients *)

Module Clients.

Inductive Role : Type := user | assistant.

Record Message : Type := mkMessage {
  id : jsstring;
  role : Role;
  content : jsstring
}.

Definition role_text (r : Role) : jsstring :=
  match r with user => lit "user" | assistant => lit "assistant" end.

(** [m => ({ role: m.role, content: m.content })] *)
Definition turn (m : Message) : value :=
  Obj [fld "role" (Str (role_text (role m))); fld "content" (Str (content m))].

(** [list.slice(-n)] *)
Definition slice_last {A} (n : nat) (l : list A) : list A :=
  skipn (List.length l - n) l.

(** [list.slice(0, -1)] *)
Definition slice_but_last {A} (l : list A) : list A :=
  firstn (List.length l - 1) l.

Definition request (query : jsstring) (chat_history : list value) : value :=
  Obj [fld "query" (Str query); fld "chat_history" (Arr chat_history)].

(** The [chat_history] of a posted body. *)
Definition chat_history (posted : value) : list value :=
  match get posted "chat_history" with Arr h => h | _ => [] end.

(** [ChatInterface.handleSubmit]: the body posted to the chat endpoint,
    or [None] when the handler returns at its guard. *)
Definition handleSubmit (messages : list Message) (input : jsstring)
  (isLoading : bool) (now : jsstring) : option value :=
  match trim input with
  | [] => None
  | _ :: _ =>
      if isLoading then None
      else
        let userMessage := mkMessage now user (trim input) in
        Some (request (content userMessage) (map turn (slice_last 4 messages)))
  end.

(** [Chat.sendMessage]: the body posted to the chat endpoint, or [None]
    when the handler returns at its guard. *)
Definition sendMessage (messages : list Message) (input : jsstring)
  (isLoading : bool) (now : jsstring) : option value :=
  match trim input with
  | [] => None
  | _ :: _ =>
      if isLoading then None
      else
        let userMessage := mkMessage (lit "user-" ++ now) user (trim input) in
        let currentMessages := map turn (messages ++ [userMessage]) in
        let chatHistory := slice_but_last currentMessages in
        Some (request (content userMessage) chatHistory)
  end.

(** [SystemPromptManager.deletePromptFromStore]: the calls it makes. *)
Inductive Call : Type :=
| StoreDeletePrompt (i : jsstring)
| FetchSystemPrompts
| OnPromptSelect (i : jsstring).

Definition deletePromptFromStore (selectedPromptId i : jsstring) : list Call :=
  if str_eqb i (lit "default") then []
  else
    [StoreDeletePrompt i; FetchSystemPrompts]
    ++ (if str_eqb selectedPromptId i then [OnPromptSelect (lit "default")] else []).

End Clients.

(** ** [app/api/tts/route.ts] *)

Module TtsRoute.

Record Env : Type := mkEnv {
  now_ms : Z;
  (** [ttsService.generateSpeech({ text, model, outputPath })] *)
  generateSpeech : value -> result jsstring;
  body_error : JsError   (* what request.json() rejects with when the body cannot be read *)
}.

(** The options handed to [generateSpeech]. *)
Definition speech_options (b : value) (env : Env) : value :=
  let model := get b "model" in
  let outputPath := get b "outputPath" in
  let filename :=
    if truthy outputPath then outputPath
    else Str (lit "tts_" ++ Z_to_string (now_ms env) ++ lit ".wav") in
  Obj [fld "text" (get b "text");
       fld "model" (if truthy model then model
                    else Str (lit "tts_models/en/ljspeech/tacotron2-DDC"));
       fld "outputPath" filename].

(** POST /api/tts; every thrown value here is an [Error] instance, so the
    handler answers with its message. *)
Definition POST (req_body : option value) (env : Env) : Response :=
  let attempt : result Response :=
    match req_body with
    | None => Throw (body_error env)
    | Some body =>
        let* b := destructure body "text" "body" in
        let text := get b "text" in
        if negb (truthy text) then Ok (mkResponse 400 (BText (lit "Text is required")))
        else
          let* generatedFilename := generateSpeech env (speech_options b env) in
          Ok (json (Obj [fld "success" (Bool true);
                         fld "audioUrl" (Str (lit "/audio/" ++ generatedFilename));
                         fld "message" (Str (lit "TTS audio generated successfully"))])
                   200)
    end in
  match attempt with
  | Ok r => r
  | Throw e =>
      json (Obj [fld "success" (Bool false); fld "error" (Str (message_of e))]) 500
  end.

End TtsRoute.

(** ** Concrete requests and environments used in the examples *)

Module Scenario.

Definition hit (sid title text pct : string) (score : string) : Search.SearchResult :=
  Search.mkResult (lit sid) (lit title) (Int 0) (lit "user") (lit text)
                  (Frac (lit score)) (lit pct) (lit "2024-05-01T10:00:00Z").

Definition three_hits : list Search.SearchResult :=
  [hit "s-1" "Budget" "one" "90.0" "0.9";
   hit "s-2" "Hiring" "two" "80.0" "0.8";
   hit "s-3" "Roadmap" "three" "70.0" "0.7"].

Definition search_request : value :=
  Obj [fld "query" (Str (lit "quarterly revenue")); fld "limit" (Num (Int 3))].

(** A result whose content is one code unit over the budget. *)
Definition long_hit : Search.SearchResult :=
  Search.mkResult (lit "s-1") (lit "Budget") (Int 0) (lit "user") (repeat 97%N 401)
                  (Frac (lit "0.875")) (lit "87.5") (lit "2024-05-01T10:00:00Z").

(** The search script closes after a tenth of a second with that result. *)
Definition quick_search : GraphRagRoute.Env :=
  GraphRagRoute.mkEnv (lit "/app")
    (fun _ => ChildProcess.Ends 100
                (ChildProcess.CloseEvent (Some 0%Z)
                   (Search.mkStdout (lit "[...]") (Search.Results [long_hit])) [])).

(** The search script never ends. *)
Definition hanging_search : GraphRagRoute.Env :=
  GraphRagRoute.mkEnv (lit "/app") (fun _ => ChildProcess.Hangs).

(** The search script closes after 31 seconds with three results. *)
Definition late_search : GraphRagRoute.Env :=
  GraphRagRoute.mkEnv (lit "/app")
    (fun _ => ChildProcess.Ends 31000
                (ChildProcess.CloseEvent (Some 0%Z)
                   (Search.mkStdout (lit "[...]") (Search.Results three_hits)) [])).

Definition said (who text : string) : value :=
  Obj [fld "role" (Str (lit who)); fld "content" (Str (lit text))].

Definition good_session : value :=
  Obj [fld "id" (Str (lit "s-1")); fld "title" (Str (lit "Budget"));
       fld "messages" (Arr [said "user" "hello"; said "assistant" "hi there"])].

(** A session whose only message is whitespace. *)
Definition blank_session : value :=
  Obj [fld "id" (Str (lit "s-2")); fld "title" (Str (lit "Empty"));
       fld "messages" (Arr [said "user" "   "])].

(** A session without an id. *)
Definition anonymous_session : value :=
  Obj [fld "title" (Str (lit "No id"));
       fld "messages" (Arr [said "user" "who am I"])].

(** The ingest script runs for 1.2 seconds and prints plain text. *)
Definition working_ingest : IngestChatHistoryRoute.Env :=
  IngestChatHistoryRoute.mkEnv (lit "/app") true (fun _ _ => None)
    (fun _ _ => ChildProcess.Ends 1200
                  (ChildProcess.CloseEvent (Some 0%Z)
                     (IngestChatHistoryRoute.mkStdout (lit "stored") None None) []))
    true (fun _ => None) (SyntaxError (lit "Unexpected end of JSON input")).



(** A chat turn with retrieval switched on. *)
Definition chat_request : value :=
  Obj [fld "messages" (Arr [said "user" "What did we decide about the budget?"]);
       fld "graphRAG" (Bool true)].

Definition clock : PromptsData.Tick :=
  PromptsData.mkTick 1700000000000 (lit "2023-11-14T22:13:20.000Z") (lit "k3j9x0a1b")
    PromptsData.steady.

(** A language model that answers with the system prompt it was given. *)
Definition echo_model (requestBody : value) : ChatRoute.Fetch :=
  ChatRoute.FetchResponse true (lit "OK")
    (Some (ChatRoute.whole
             match get requestBody "messages" with
             | Arr (m :: _) => match get m "content" with Str text => [text] | _ => [] end
             | _ => []
             end)).

(** The search script exits with code 1. *)
Definition broken_search (_ : list jsstring) : ChildProcess.Run Search.Stdout :=
  ChildProcess.Ends 50
    (ChildProcess.CloseEvent (Some 1%Z)
       (Search.mkStdout [] (Search.Unparseable (SyntaxError (lit "Unexpected end of JSON input"))))
       (lit "ModuleNotFoundError: No module named chromadb")).

(** The search script succeeds and finds nothing. *)
Definition empty_search (_ : list jsstring) : ChildProcess.Run Search.Stdout :=
  ChildProcess.Ends 50
    (ChildProcess.CloseEvent (Some 0%Z) (Search.mkStdout (lit "[]") (Search.Results [])) []).

Definition chat_with_broken_search : ChatRoute.Env :=
  ChatRoute.mkEnv (lit "/app") clock broken_search echo_model.

Definition chat_with_empty_search : ChatRoute.Env :=
  ChatRoute.mkEnv (lit "/app") clock empty_search echo_model.

(** The language model answers with status 503. *)
Definition chat_with_model_down : ChatRoute.Env :=
  ChatRoute.mkEnv (lit "/app") clock empty_search
    (fun _ => ChatRoute.FetchResponse false (lit "Service Unavailable")
                (Some (ChatRoute.whole [lit "model is loa"]))).

End Scenario.

(** ** [utils/sanitization.ts]: message content *)

Module MessageContent.
Import Sanitization.

(** [[a-z]] under the [i] flag: the ASCII letters. *)
Definition is_letter (c : codeunit) : bool :=
  ((65 <=? c) && (c <=? 90) || (97 <=? c) && (c <=? 122))%N.

(** [/<[a-z][\s\S]*>/i.test(s)]: somewhere a '<' is followed by a letter
    and, at any distance after the letter, by a '>'. *)
Fixpoint html_like (s : jsstring) : bool :=
  match s with
  | [] => false
  | c :: r =>
      ((c =? LT)%N
       && match r with
          | d :: r' => is_letter d && existsb (fun x => (x =? GT)%N) r'
          | [] => false
          end)
      || html_like r
  end.

(** [sanitizeMessageContent(content)]; [sanitizeHTML] is the call into
    DOMPurify. *)
Definition sanitizeMessageContent (sanitizeHTML : jsstring -> jsstring)
  (content : value) : jsstring :=
  let sanitizedText := sanitizeUserInput content in
  if html_like sanitizedText then sanitizeHTML sanitizedText else sanitizedText.

End MessageContent.

(** ** [app/api/ingest-chat-history/route.ts]: the script call *)

Module IngestScript.
Import ChildProcess IngestChatHistoryRoute.

(** [tempDataPath] *)
Definition temp_path (env : Env) : jsstring := cwd env ++ lit "/temp_chat_sessions.json".

(** The arguments [python3] is spawned with. *)
Definition ingest_args (env : Env) : list jsstring :=
  [script_path (cwd env); lit "ingest"; json_quote (temp_path env)].

End IngestScript.

(** ** [lib/tts-service.ts] *)

Module TtsService.

(** The outcome of [fetch(`${ttsServerUrl}/api/tts`, ...)] and of reading
    the response. *)
Inductive Fetch : Type :=
| FetchRejects (e : JsError)
| FetchResponse (ok : bool) (status : Z) (contentType : option jsstring)
                (errorText : jsstring) (blobSize : Z).

Record Env : Type := mkEnv {
  now_ms : Z;                                   (* Date.now() *)
  audio_dir_exists : jsstring -> bool;          (* existsSync(audioDir), per file name *)
  mkdirSync : option JsError;
  server_available : bool;                      (* checkServerHealth() *)
  fetch_tts : value -> Fetch;                   (* per text *)
  writeFileSync : option JsError;
  join_rejects : value -> JsError               (* what path.join throws for a part that is no string *)
}.

(** The body of the [try] block: the file name, or what is thrown. *)
Definition synthesise (env : Env) (text model : value) (filename : jsstring)
  : result jsstring :=
  if negb (server_available env) || is_text model "browser-tts" then Ok filename
  else
    match fetch_tts env text with
    | FetchRejects e => Throw e
    | FetchResponse ok st contentType errorText blobSize =>
        if negb ok then
          Throw (Error (lit "TTS server responded with status: " ++ Z_to_string st))
        else
          match contentType with
          | Some ((_ :: _) as ct) =>
              if includes (lit "audio") ct then
                if (blobSize =? 0)%Z then
                  Throw (Error (lit "TTS server returned empty audio file"))
                else
                  match writeFileSync env with
                  | Some e => Throw e
                  | None => Ok filename
                  end
              else Throw (Error (lit "TTS server returned non-audio response: " ++ errorText))
          | _ => Throw (Error (lit "TTS server returned non-audio response: " ++ errorText))
          end
    end.

(** [generateSpeech(options)]: the directory is prepared outside the
    [try] block; whatever the block throws is logged and the file name is
    returned all the same. *)
Definition generateSpeech (env : Env) (options : value) : result jsstring :=
  let text := get options "text" in
  let model := match get options "model" with
               | Undefined => Str (lit "tts_models/en/ljspeech/tacotron2-DDC")
               | m => m
               end in
  let outputPath := get options "outputPath" in
  let filename :=
    if truthy outputPath then outputPath
    else Str (lit "tts_" ++ Z_to_string (now_ms env) ++ lit ".wav") in
  match filename with
  | Str name =>
      let* _ := if audio_dir_exists env name then Ok tt
                else match mkdirSync env with
                     | Some e => Throw e
                     | None => Ok tt
                     end in
      match synthesise env text model name with
      | Ok f => Ok f
      | Throw _ => Ok name
      end
  | _ => Throw (join_rejects env filename)
  end.

End TtsService.

(** ** [components/SystemPromptManager.tsx] *)

Module PromptManager.

(** [truncateContent(content, maxLength = 100)] *)
Definition truncateContent (content : jsstring) (maxLength : Z) : jsstring :=
  if (length_ content <=? maxLength)%Z then content
  else substring content 0 maxLength ++ lit "...".

End PromptManager.

(** ** [lib/stores/chat-store.ts]: sessions *)

Module ChatStore.
Import Clients.

Record ChatSession : Type := mkSession {
  session_id : jsstring;
  title : jsstring;
  session_messages : list Message;
  model : jsstring;
  promptId : jsstring;
  createdAt : Z;
  updatedAt : Z
}.

(** The part of the store the session actions read and write. *)
Record State : Type := mkState {
  messages : list Message;
  sessions : list ChatSession;
  currentSessionId : option jsstring;
  selectedModel : jsstring;
  selectedPromptId : jsstring
}.

(** The three readings of [Date.now()] a new session takes. *)
Record Clock : Type := mkClock { id_ms : Z; created_ms : Z; updated_ms : Z }.

(** [s.id === currentSessionId] *)
Definition is_current (cur : option jsstring) (s : ChatSession) : bool :=
  match cur with Some c => str_eqb (session_id s) c | None => false end.

Definition new_session (now : Clock) (st : State) : ChatSession :=
  mkSession (lit "session-" ++ Z_to_string (id_ms now)) (lit "New Chat") []
            (selectedModel st) (selectedPromptId st) (created_ms now) (updated_ms now).

(** Each action gives the next state and, when it calls
    [storage.saveChatSessions], the sessions it hands over. *)
Definition Outcome : Type := (State * option (list ChatSession))%type.

(** [saveSession()] *)
Definition saveSession (now : Z) (st : State) : Outcome :=
  match currentSessionId st with
  | Some (_ :: _) =>
      let updated :=
        map (fun s => if is_current (currentSessionId st) s
                      then mkSession (session_id s) (title s) (messages st)
                                     (selectedModel st) (selectedPromptId st)
                                     (createdAt s) now
                      else s) (sessions st) in
      (mkState (messages st) updated (currentSessionId st)
               (selectedModel st) (selectedPromptId st), Some updated)
  | _ => (st, None)
  end.

(** [createNewSession()] *)
Definition createNewSession (now : Clock) (st : State) : Outcome :=
  let newSession := new_session now st in
  let updatedSessions := newSession :: sessions st in
  (mkState [] updatedSessions (Some (session_id newSession))
           (selectedModel st) (selectedPromptId st), Some updatedSessions).

(** [loadSessions()], given what [storage.getChatSessions()] returns. *)
Definition loadSessions (now : Clock) (stored : list ChatSession) (st : State) : Outcome :=
  match stored with
  | last :: _ =>
      (mkState (session_messages last) stored (Some (session_id last))
               (model last) (promptId last), None)
  | [] => createNewSession now st
  end.

(** [switchSession(sessionId)] *)
Definition switchSession (sessionId : jsstring) (st : State) : State :=
  match find (fun s => str_eqb (session_id s) sessionId) (sessions st) with
  | None => st
  | Some session =>
      mkState (session_messages session) (sessions st) (Some sessionId)
              (model session) (promptId session)
  end.

(** [renameSession(sessionId, title)] *)
Definition renameSession (sessionId newTitle : jsstring) (st : State) : Outcome :=
  let updated :=
    map (fun s => if str_eqb (session_id s) sessionId
                  then mkSession (session_id s) newTitle (session_messages s)
                                 (model s) (promptId s) (createdAt s) (updatedAt s)
                  else s) (sessions st) in
  (mkState (messages st) updated (currentSessionId st)
           (selectedModel st) (selectedPromptId st), Some updated).

(** [clearCurrentChat()]; [confirmed] is the answer to the dialog. *)
Definition clearCurrentChat (now : Z) (confirmed : bool) (st : State) : Outcome :=
  match messages st with
  | [] => (st, None)
  | _ :: _ =>
      if confirmed then
        let updatedSessions :=
          map (fun s => if is_current (currentSessionId st) s
                        then mkSession (session_id s) (title s) [] (model s) (promptId s)
                                       (createdAt s) now
                        else s) (sessions st) in
        (mkState [] updatedSessions (currentSessionId st)
                 (selectedModel st) (selectedPromptId st), Some updatedSessions)
      else (st, None)
  end.

(** [deleteSession(sessionId)] *)
Definition deleteSession (now : Clock) (sessionId : jsstring) (st : State) : Outcome :=
  let updated := filter (fun s => negb (str_eqb (session_id s) sessionId)) (sessions st) in
  if match currentSessionId st with
     | Some c => str_eqb c sessionId
     | None => false
     end
  then
    match updated with
    | nextSession :: _ =>
        (mkState (session_messages nextSession) updated (Some (session_id nextSession))
                 (model nextSession) (promptId nextSession), Some updated)
    | [] =>
        let newSession := new_session now st in
        (mkState [] [newSession] (Some (session_id newSession))
                 (selectedModel st) (selectedPromptId st), Some [newSession])
    end
  else
    (mkState (messages st) updated (currentSessionId st)
             (selectedModel st) (selectedPromptId st), Some updated).

(** [clearAllSessions()]: the stored sessions are cleared, then
    [createNewSession] runs on the state as it is. *)
Definition clearAllSessions (now : Clock) (st : State) : Outcome :=
  createNewSession now st.

(** The session actions a user can trigger. *)
Inductive Action : Type :=
| Load (now : Clock) (stored : list ChatSession)
| Save (now : Z)
| New (now : Clock)
| Switch (sessionId : jsstring)
| Rename (sessionId newTitle : jsstring)
| Clear (now : Z) (confirmed : bool)
| Delete (now : Clock) (sessionId : jsstring)
| ClearAll (now : Clock).

Definition act (a : Action) (st : State) : Outcome :=
  match a with
  | Load now stored => loadSessions now stored st
  | Save now => saveSession now st
  | New now => createNewSession now st
  | Switch i => (switchSession i st, None)
  | Rename i t => renameSession i t st
  | Clear now c => clearCurrentChat now c st
  | Delete now i => deleteSession now i st
  | ClearAll now => clearAllSessions now st
  end.

Definition step (a : Action) (st : State) : State := fst (act a st).

Definition run (actions : list Action) (st : State) : State :=
  fold_left (fun s a => step a s) actions st.

(** The state the store starts in. *)
Definition initial : State :=
  mkState [] [] None (lit "granite4:micro-h") (lit "default").

(** The current session id names a session of the list. *)
Definition has_current (st : State) : Prop :=
  exists s, In s (sessions st) /\ currentSessionId st = Some (session_id s).

(** Actions after which a current session is set, whatever came before. *)
Definition opens (a : Action) : bool :=
  match a with
  | Load _ _ | New _ | ClearAll _ => true
  | _ => false
  end.

(** Actions that remove or replace sessions. *)
Definition removes (a : Action) : bool :=
  match a with
  | Load _ (_ :: _) | Delete _ _ => true
  | _ => false
  end.

End ChatStore.

(** ** Further concrete inputs *)

Module Cases.

(** The file holds the default prompt and nothing else. *)
Definition default_only : PromptsData.Store :=
  PromptsData.Stored [PromptsData.defaultPrompt Scenario.clock].

(** A call during which the default file can be created and the next
    write fails half way. *)
Definition disk_full : PromptsData.Tick :=
  PromptsData.mkTick 1700000000000 (lit "2023-11-14T22:13:20.000Z") (lit "k3j9x0a1b")
    (PromptsData.mkDisk None PromptsData.Written None None
       (PromptsData.WriteThrows (Error (lit "ENOSPC: no space left on device, write")) true)).

(** A call during which the file cannot be read. *)
Definition unreadable : PromptsData.Tick :=
  PromptsData.mkTick 1700000000000 (lit "2023-11-14T22:13:20.000Z") (lit "k3j9x0a1b")
    (PromptsData.mkDisk None PromptsData.Written
       (Some (Error (lit "EACCES: permission denied, open 'data/system-prompts.json'")))
       None PromptsData.Written).

Definition create_terse : PromptApi.Request :=
  PromptApi.Create
    (Some (Obj [fld "name" (Str (lit "Terse")); fld "content" (Str (lit "Be brief."))])).

(** The language model begins its answer and the connection breaks. *)
Definition chat_with_model_cut : ChatRoute.Env :=
  ChatRoute.mkEnv (lit "/app") Scenario.clock Scenario.empty_search
    (fun _ => ChatRoute.FetchResponse true (lit "OK")
                (Some (ChatRoute.mkBody [lit "We decided to cut the bud"]
                         (ChatRoute.ReadRejects (TypeError (lit "terminated")))))).

(** A chat turn that does not ask for retrieval. *)
Definition plain_chat_request : value := Obj [fld "message" (Str (lit "hi"))].

(** The speech server is up and answers every request with status 500. *)
Definition speech_server_failing : TtsService.Env :=
  TtsService.mkEnv 1700000000000 (fun _ => true) None true
    (fun _ => TtsService.FetchResponse false 500 None (lit "Internal Server Error") 0)
    None
    (fun _ => TypeError (lit "The paths[3] argument must be of type string"))%Z.

Definition speech_request : value := Obj [fld "text" (Str (lit "Good morning"))].

Definition speech_route_failing : TtsRoute.Env :=
  TtsRoute.mkEnv 1700000000000 (TtsService.generateSpeech speech_server_failing)
    (SyntaxError (lit "Unexpected end of JSON input")).

Definition session (i t : string) (ms : list Clients.Message) : ChatStore.ChatSession :=
  ChatStore.mkSession (lit i) (lit t) ms (lit "granite4:micro-h") (lit "default") 1 1.

Definition question : Clients.Message :=
  Clients.mkMessage (lit "user-1") Clients.user (lit "What is a monad?").

(** Two sessions; the first is current and holds a turn not saved yet. *)
Definition two_sessions : ChatStore.State :=
  ChatStore.mkState [question]
    [session "session-1" "New Chat" []; session "session-2" "Plans" []]
    (Some (lit "session-1")) (lit "llama3") (lit "default").

Definition noon : ChatStore.Clock := ChatStore.mkClock 1700000000000 1700000000000 1700000000001.

End Cases.

(* ===================================================================== *)
(** * Part II. Properties                                                 *)
(* ===================================================================== *)

(** ** Trimming *)

Section Trim.

Lemma trimStart_head_clean s : head_clean (trimStart s).
Proof.
  induction s as [|c r IH]; simpl; [exact I|].
  destruct (is_ws c) eqn:E; [exact IH | exact E].
Qed.

Lemma trimStart_fixed s : head_clean s -> trimStart s = s.
Proof. destruct s as [|c r]; simpl; [reflexivity|]. now intros ->. Qed.

Lemma trimStart_suffix s : exists w, s = w ++ trimStart s.
Proof.
  induction s as [|c r [w IH]]; simpl.
  - now exists [].
  - destruct (is_ws c).
    + exists (c :: w). simpl. now f_equal.
    + now exists [].
Qed.

Lemma trimEnd_prefix s : exists w, s = trimEnd s ++ w.
Proof.
  unfold trimEnd. destruct (trimStart_suffix (rev s)) as [w H].
  exists (rev w). rewrite <- rev_app_distr, <- H. now rewrite rev_involutive.
Qed.

Lemma trimEnd_last_clean s : head_clean (rev (trimEnd s)).
Proof. unfold trimEnd. rewrite rev_involutive. apply trimStart_head_clean. Qed.

Lemma trimEnd_head_clean s : head_clean s -> head_clean (trimEnd s).
Proof.
  intros H. destruct (trimEnd_prefix s) as [w E].
  destruct (trimEnd s) as [|c r]; [exact I|].
  rewrite E in H. exact H.
Qed.

Lemma trim_head_clean s : head_clean (trim s).
Proof. apply trimEnd_head_clean, trimStart_head_clean. Qed.

Lemma trim_last_clean s : head_clean (rev (trim s)).
Proof. apply trimEnd_last_clean. Qed.

Lemma trim_fixed s : head_clean s -> head_clean (rev s) -> trim s = s.
Proof.
  intros Hh Hl. unfold trim, trimEnd.
  rewrite (trimStart_fixed _ Hh), (trimStart_fixed _ Hl).
  apply rev_involutive.
Qed.

Lemma trim_idempotent s : trim (trim s) = trim s.
Proof. apply trim_fixed; [apply trim_head_clean | apply trim_last_clean]. Qed.

Lemma trimStart_incl s : incl (trimStart s) s.
Proof.
  destruct (trimStart_suffix s) as [w E]. rewrite E at 2. now apply incl_appr.
Qed.

Lemma trimEnd_incl s : incl (trimEnd s) s.
Proof.
  destruct (trimEnd_prefix s) as [w E]. rewrite E at 2. now apply incl_appl.
Qed.

Lemma trim_incl s : incl (trim s) s.
Proof.
  unfold trim. eapply incl_tran; [apply trimEnd_incl | apply trimStart_incl].
Qed.


End Trim.

(** ** [sanitizeUserInput] *)

Section SanitizationFacts.
Import Sanitization.

Lemma remove_class_incl cls s : incl (remove_class cls s) s.
Proof. intros c H. apply filter_In in H. tauto. Qed.

Lemma remove_class_clean cls s c : In c (remove_class cls s) -> cls c = false.
Proof.
  intros H. apply filter_In in H as [_ H]. now apply negb_true_iff in H.
Qed.

Lemma remove_class_fixed cls s :
  (forall c, In c s -> cls c = false) -> remove_class cls s = s.
Proof.
  induction s as [|c r IH]; simpl; intros H; [reflexivity|].
  rewrite (H c (or_introl eq_refl)). simpl. f_equal.
  apply IH. intros d Hd. apply H. now right.
Qed.

Lemma tag_end_None s : tag_end s = None <-> ~ In GT s.
Proof.
  induction s as [|c r IH]; simpl; [tauto|].
  destruct (N.eqb_spec c GT) as [->|Hne].
  - split; [discriminate | intros H; exfalso; apply H; now left].
  - rewrite IH. split; [intros H [E|E]; congruence | tauto].
Qed.

Lemma remove_tags_keep c r :
  tag_match (c :: r) = None -> remove_tags (c :: r) = c :: remove_tags r.
Proof.
  intros H. rewrite remove_tags_equation_2.
  destruct (inspect (tag_match (c :: r))) as [[rest|] E];
    [congruence | reflexivity].
Qed.

Lemma remove_tags_drop c r rest :
  tag_match (c :: r) = Some rest -> remove_tags (c :: r) = remove_tags rest.
Proof.
  intros H. rewrite remove_tags_equation_2.
  destruct (inspect (tag_match (c :: r))) as [[rest'|] E]; [|congruence].
  simpl. congruence.
Qed.

Lemma tag_end_incl s rest : tag_end s = Some rest -> incl rest s.
Proof.
  revert rest; induction s as [|c r IH]; simpl; intros rest H; [discriminate|].
  destruct (c =? GT)%N.
  - injection H as <-. apply incl_tl, incl_refl.
  - apply incl_tl. now apply IH.
Qed.

Lemma tag_match_incl s rest : tag_match s = Some rest -> incl rest s.
Proof.
  destruct s as [|c r]; simpl; [discriminate|].
  destruct (c =? LT)%N; [|discriminate].
  intros H. apply incl_tl. now apply tag_end_incl.
Qed.

Lemma remove_tags_incl s : incl (remove_tags s) s.
Proof.
  funelim (remove_tags s).
  - apply incl_refl.
  - eapply incl_tran; [eassumption | now apply tag_match_incl].
  - apply incl_cons; [now left | now apply incl_tl].
Qed.

Lemma tag_match_None_incl c r r' :
  incl r' r -> tag_match (c :: r) = None -> tag_match (c :: r') = None.
Proof.
  simpl. destruct (c =? LT)%N; [|reflexivity].
  rewrite !tag_end_None. intros Hi Hn Hin. apply Hn, Hi, Hin.
Qed.

Lemma remove_tags_tagfree s : tagfree (remove_tags s).
Proof.
  funelim (remove_tags s).
  - exact I.
  - assumption.
  - split; [|assumption].
    eapply tag_match_None_incl; [apply remove_tags_incl | exact E].
Qed.

Lemma tagfree_fixed s : tagfree s -> remove_tags s = s.
Proof.
  induction s as [|c r IH]; [reflexivity|].
  intros [Hm Hr]. rewrite (remove_tags_keep _ _ Hm). f_equal. now apply IH.
Qed.

Lemma remove_tags_idempotent s : remove_tags (remove_tags s) = remove_tags s.
Proof. apply tagfree_fixed, remove_tags_tagfree. Qed.

Lemma tagfree_app_r a b : tagfree (a ++ b) -> tagfree b.
Proof. induction a as [|c a IH]; simpl; [tauto|]. intros [_ H]. now apply IH. Qed.

Lemma tagfree_app_l a b : tagfree (a ++ b) -> tagfree a.
Proof.
  induction a as [|c a IH]; [intros _; exact I|].
  intros [Hm H]. split; [|now apply IH].
  eapply tag_match_None_incl; [|exact Hm]. now apply incl_appl.
Qed.

Lemma tagfree_trim s : tagfree s -> tagfree (trim s).
Proof.
  intros H. unfold trim.
  destruct (trimStart_suffix s) as [w Ew]. rewrite Ew in H.
  apply tagfree_app_r in H.
  destruct (trimEnd_prefix (trimStart s)) as [w' Ew']. rewrite Ew' in H.
  now apply tagfree_app_l in H.
Qed.

Lemma sanitize_string_incl s c :
  In c (sanitize_string s) -> is_nul c = false /\ is_control c = false.
Proof.
  unfold sanitize_string. intros H.
  apply trim_incl, remove_tags_incl in H. split.
  - apply remove_class_incl in H. now apply remove_class_clean in H.
  - now apply remove_class_clean in H.
Qed.

Lemma sanitize_string_idempotent s :
  sanitize_string (sanitize_string s) = sanitize_string s.
Proof.
  set (t := sanitize_string s).
  assert (Hc : forall c, In c t -> is_nul c = false /\ is_control c = false)
    by (intros c; apply sanitize_string_incl).
  unfold sanitize_string at 1.
  rewrite (remove_class_fixed is_nul) by (intros c Hin; now apply Hc).
  rewrite (remove_class_fixed is_control) by (intros c Hin; now apply Hc).
  rewrite tagfree_fixed by (apply tagfree_trim, remove_tags_tagfree).
  apply trim_idempotent.
Qed.

Lemma head_clean_cons (s : jsstring) c r : head_clean s -> s = c :: r -> is_ws c = false.
Proof. now intros H ->. Qed.

Lemma head_clean_snoc (s : jsstring) c r :
  head_clean (rev s) -> s = r ++ [c] -> is_ws c = false.
Proof. intros H ->. now rewrite rev_unit in H. Qed.

End SanitizationFacts.

(** C10.  [sanitizeUserInput] is a total function on every runtime value;
    applying it to its own result changes nothing; its result holds no
    null code unit and neither starts nor ends with whitespace; and every
    input that is not a string, or is the empty string, gives the empty
    string. *)
Theorem C10_sanitizeUserInput_idempotent_total :
  forall v : value,
    let out := Sanitization.sanitizeUserInput v in
    Sanitization.sanitizeUserInput (Str out) = out
    /\ ~ In Sanitization.NUL out
    /\ (forall c r, out = c :: r -> is_ws c = false)
    /\ (forall r c, out = r ++ [c] -> is_ws c = false)
    /\ (is_string v = false \/ v = Str [] -> out = []).
Proof.
  intros v out.
  assert (Hout : out = [] \/ exists s, out = Sanitization.sanitize_string s).
  { subst out. unfold Sanitization.sanitizeUserInput.
    destruct v as [| |b|n|s|l|f]; simpl; rewrite ?orb_true_r; try (now left).
    destruct s as [|c r]; [now left | right; now eexists]. }
  assert (Hempty : is_string v = false \/ v = Str [] -> out = []).
  { subst out. unfold Sanitization.sanitizeUserInput.
    intros [H | ->]; [|reflexivity].
    destruct v; simpl; rewrite ?orb_true_r; try reflexivity. discriminate. }
  clearbody out.
  repeat split; try exact Hempty.
  - destruct Hout as [-> | [s Hs]]; [reflexivity|].
    unfold Sanitization.sanitizeUserInput. simpl.
    destruct out as [|c r] eqn:E; [reflexivity|].
    rewrite Hs. apply sanitize_string_idempotent.
  - destruct Hout as [-> | [s ->]]; [tauto|].
    intros H. apply sanitize_string_incl in H as [H _]. discriminate.
  - destruct Hout as [-> | [s ->]]; [discriminate|].
    intros c r. apply head_clean_cons, trim_head_clean.
  - destruct Hout as [-> | [s ->]]; [intros [|] ? ?; discriminate|].
    intros r c. apply head_clean_snoc, trim_last_clean.
Qed.

(** The cases of the repository's own test suite that the function
    meets. *)
Example sanitize_removes_null_bytes :
  Sanitization.sanitizeUserInput (Str (lit "Hello" ++ [0%N] ++ lit "World"))
  = lit "HelloWorld".
Proof. vm_compute. reflexivity. Qed.

Example sanitize_removes_control_characters :
  Sanitization.sanitizeUserInput (Str (lit "Hello" ++ [1%N; 2%N; 3%N] ++ lit "World"))
  = lit "HelloWorld".
Proof. vm_compute. reflexivity. Qed.

Example sanitize_removes_tags :
  Sanitization.sanitizeUserInput (Str (lit "<script>alert(1)</script>Hello"))
  = lit "alert(1)Hello"
  /\ Sanitization.sanitizeUserInput (Str (lit "<b>Bold</b> text")) = lit "Bold text".
Proof. split; vm_compute; reflexivity. Qed.

Example sanitize_trims :
  Sanitization.sanitizeUserInput (Str (lit "  Hello World  ")) = lit "Hello World".
Proof. vm_compute. reflexivity. Qed.

Example sanitize_non_strings :
  Sanitization.sanitizeUserInput Null = []
  /\ Sanitization.sanitizeUserInput Undefined = []
  /\ Sanitization.sanitizeUserInput (Num (Int 123)) = []
  /\ Sanitization.sanitizeUserInput (Obj []) = [].
Proof. repeat split. Qed.

(** The theorem at the input ["  <b>Hi</b> <  "] with a null code unit
    appended: the result is ["Hi <"]. *)
Lemma C10_witness :
  Sanitization.sanitizeUserInput (Str (lit "  <b>Hi</b> <  " ++ [0%N]))
    = lit "Hi <"
  /\ Sanitization.sanitizeUserInput (Str []) = [].
Proof.
  split; [vm_compute; reflexivity|].
  apply (C10_sanitizeUserInput_idempotent_total (Str [])).
  right; reflexivity.
Defined.

(** ** The prompt store keeps its default prompt *)

Section PromptStoreFacts.
Import PromptsData PromptApi.

Lemma str_eqb_eq a b : str_eqb a b = true <-> a = b.
Proof. unfold str_eqb. destruct (list_eq_dec N.eq_dec a b); split; congruence. Qed.

Lemma str_eqb_neq a b : str_eqb a b = false <-> a <> b.
Proof. unfold str_eqb. destruct (list_eq_dec N.eq_dec a b); split; congruence. Qed.

Lemma readPrompts_quiet t st :
  quiet t = true ->
  readPrompts t st
  = match st with
    | NoDirectory | NoFile => ([defaultPrompt t], Stored [defaultPrompt t])
    | Stored prompts => (prompts, st)
    | Corrupt => ([], Corrupt)
    end.
Proof.
  unfold quiet, readPrompts. destruct (disk t) as [[e1|] [|e2 b2] [e3|] [e4|] [|e5 b5]]; try discriminate.
  intros _. destruct st; reflexivity.
Qed.

Lemma writePrompts_quiet t prompts st :
  quiet t = true -> writePrompts t prompts st = (Ok tt, Stored prompts).
Proof.
  unfold quiet, writePrompts.
  destruct (disk t) as [[e1|] [|e2 b2] [e3|] [e4|] [|e5 b5]]; try discriminate.
  intros _. destruct st; reflexivity.
Qed.

(** A store that keeps the default prompt: the file is missing, and will
    be created with it, or holds it. *)
Lemma serves_default_iff st :
  serves_default st <->
  match st with
  | NoDirectory | NoFile => True
  | Stored prompts => has_default prompts = true
  | Corrupt => False
  end.
Proof.
  unfold serves_default. split.
  - intros H. specialize (H (mkTick 0 [] [] steady) eq_refl).
    destruct st; simpl in *; try exact I; [exact H | discriminate].
  - intros H t Hq. rewrite (@readPrompts_quiet t st Hq).
    destruct st; simpl; try reflexivity; [exact H | contradiction].
Qed.

Lemma readPrompts_serves t st :
  quiet t = true ->
  serves_default st ->
  has_default (fst (readPrompts t st)) = true
  /\ serves_default (snd (readPrompts t st)).
Proof.
  intros Hq H. split; [now apply H|].
  apply serves_default_iff in H. apply serves_default_iff.
  rewrite (@readPrompts_quiet t st Hq).
  destruct st; simpl; try reflexivity; [exact H | contradiction].
Qed.

Lemma has_default_app l1 l2 :
  has_default l1 = true -> has_default (l1 ++ l2) = true.
Proof. unfold has_default. rewrite existsb_app. now intros ->. Qed.

Lemma has_default_update i f l u l' :
  (forall p, id (f p) = id p) ->
  update_at_id i f l = Some (u, l') ->
  has_default l = true -> has_default l' = true.
Proof.
  intros Hf. revert u l'.
  induction l as [|p rest IH]; simpl; intros u l' H; [discriminate|].
  destruct (str_eqb (id p) i).
  - injection H as <- <-. simpl. now rewrite Hf.
  - destruct (update_at_id i f rest) as [[u' rest']|]; [|discriminate].
    injection H as <- <-. simpl.
    intros Hd. apply orb_true_iff in Hd as [->|Hd]; [reflexivity|].
    rewrite (IH _ _ eq_refl Hd). apply orb_true_r.
Qed.

Lemma has_default_filter i l :
  i <> lit "default" ->
  has_default l = true ->
  has_default (filter (fun p => negb (str_eqb (id p) i)) l) = true.
Proof.
  intros Hi. unfold has_default. rewrite !existsb_exists.
  intros [p [Hin Hp]]. exists p. split; [|exact Hp].
  apply filter_In. split; [exact Hin|].
  apply negb_true_iff, str_eqb_neq. apply str_eqb_eq in Hp. congruence.
Qed.

(** The three writing functions when no file operation fails. *)
Lemma createPrompt_quiet t n c st :
  quiet t = true ->
  let newPrompt := mkPrompt (Z_to_string (now_ms t) ++ random36 t) n c (now_iso t) (now_iso t) in
  createPrompt t n c st
  = (Ok newPrompt, Stored (fst (readPrompts t st) ++ [newPrompt])).
Proof.
  intros Hq newPrompt. unfold createPrompt.
  destruct (readPrompts t st) as [prompts st1]. unfold seq.
  rewrite (@writePrompts_quiet t _ st1 Hq). reflexivity.
Qed.

Lemma updatePrompt_quiet t i n c st :
  quiet t = true ->
  updatePrompt t i n c st
  = match update_at_id i (fun p => mkPrompt (id p) n c (createdAt p) (now_iso t))
            (fst (readPrompts t st)) with
    | None => (Ok None, snd (readPrompts t st))
    | Some (u, prompts') => (Ok (Some u), Stored prompts')
    end.
Proof.
  intros Hq. unfold updatePrompt.
  destruct (readPrompts t st) as [prompts st1]. simpl.
  destruct (update_at_id i _ prompts) as [[u prompts']|]; [|reflexivity].
  unfold seq. rewrite (@writePrompts_quiet t _ st1 Hq). reflexivity.
Qed.

Lemma deletePrompt_quiet t i st :
  quiet t = true ->
  deletePrompt t i st
  = let prompts := fst (readPrompts t st) in
    let kept := filter (fun p => negb (str_eqb (id p) i)) prompts in
    if (List.length kept =? List.length prompts)%nat
    then (Ok false, snd (readPrompts t st))
    else (Ok true, Stored kept).
Proof.
  intros Hq. unfold deletePrompt.
  destruct (readPrompts t st) as [prompts st1]. simpl.
  destruct (_ =? _)%nat; [reflexivity|].
  unfold seq. rewrite (@writePrompts_quiet t _ st1 Hq). reflexivity.
Qed.

(** A read that fails, whatever the file holds, returns no prompt and
    leaves the file alone; a create then stores the new prompt alone. *)
Lemma readPrompts_unreadable t prompts e :
  read_file (disk t) = Some e ->
  readPrompts t (Stored prompts) = ([], Stored prompts).
Proof.
  intros H. unfold readPrompts, catch, seq. simpl.
  unfold read_and_parse. now rewrite H.
Qed.

Lemma createPrompt_unreadable t n c prompts e :
  read_file (disk t) = Some e ->
  write_file (disk t) = Written ->
  createPrompt t n c (Stored prompts)
  = (Ok (mkPrompt (Z_to_string (now_ms t) ++ random36 t) n c (now_iso t) (now_iso t)),
     Stored [mkPrompt (Z_to_string (now_ms t) ++ random36 t) n c (now_iso t) (now_iso t)]).
Proof.
  intros Hr Hw. unfold createPrompt.
  rewrite (@readPrompts_unreadable t prompts e Hr).
  unfold seq, writePrompts, seq, ensureDataDirectory, seq. simpl.
  unfold writeFileSync. rewrite Hw. reflexivity.
Qed.

Lemma createPrompt_serves t n c st :
  quiet t = true ->
  serves_default st -> serves_default (snd (createPrompt t n c st)).
Proof.
  intros Hq H. rewrite (@createPrompt_quiet t n c st Hq). simpl.
  apply serves_default_iff. apply has_default_app.
  now apply (@readPrompts_serves t st Hq H).
Qed.

Lemma updatePrompt_serves t i n c st :
  quiet t = true ->
  serves_default st -> serves_default (snd (updatePrompt t i n c st)).
Proof.
  intros Hq H. rewrite (@updatePrompt_quiet t i n c st Hq).
  destruct (@readPrompts_serves t st Hq H) as [Hd Hs].
  destruct (update_at_id i _ _) as [[u prompts']|] eqn:E; simpl; [|exact Hs].
  apply serves_default_iff.
  eapply has_default_update; [|exact E|exact Hd]. reflexivity.
Qed.

Lemma deletePrompt_serves t i st :
  quiet t = true ->
  i <> lit "default" ->
  serves_default st -> serves_default (snd (deletePrompt t i st)).
Proof.
  intros Hq Hi H. rewrite (@deletePrompt_quiet t i st Hq).
  destruct (@readPrompts_serves t st Hq H) as [Hd Hs]. cbv zeta.
  destruct (_ =? _)%nat; simpl; [exact Hs|].
  apply serves_default_iff. now apply has_default_filter.
Qed.

Lemma handle_serves r t st :
  quiet t = true ->
  serves_default st -> serves_default (snd (handle r t st)).
Proof.
  intros Hq H. destruct r as [|b|i|i b|i]; simpl.
  - unfold SystemPromptsRoute.GET.
    destruct (@readPrompts_serves t st Hq H) as [_ Hs].
    destruct (readPrompts t st). exact Hs.
  - unfold SystemPromptsRoute.POST.
    destruct (SystemPromptsRoute.read_name_content b) as [[r|[n c]]|e]; try exact H.
    pose proof (@createPrompt_serves t n c st Hq H) as Hc.
    destruct (createPrompt t n c st) as [[p|e] st']; exact Hc.
  - unfold SystemPromptsIdRoute.GET, getPromptById.
    destruct (@readPrompts_serves t st Hq H) as [_ Hs].
    destruct (readPrompts t st) as [prompts st'].
    destruct (find _ prompts); exact Hs.
  - unfold SystemPromptsIdRoute.PUT.
    destruct (SystemPromptsRoute.read_name_content b) as [[r|[n c]]|e]; try exact H.
    pose proof (@updatePrompt_serves t i n c st Hq H) as Hu.
    destruct (updatePrompt t i n c st) as [[[u|]|e] st']; exact Hu.
  - unfold SystemPromptsIdRoute.DELETE.
    destruct (str_eqb i (lit "default")) eqn:E; [exact H|].
    apply str_eqb_neq in E.
    pose proof (@deletePrompt_serves t i st Hq E H) as Hd.
    destruct (deletePrompt t i st) as [[[|]|e] st']; exact Hd.
Qed.

Lemma run_serves reqs st :
  all_quiet reqs -> serves_default st -> serves_default (run reqs st).
Proof.
  revert st. induction reqs as [|[r t] rest IH]; simpl; intros st Hq H; [exact H|].
  inversion Hq as [|x l Hx Hl]; subst. simpl in Hx.
  apply IH; [exact Hl|]. now apply handle_serves.
Qed.

End PromptStoreFacts.

(** C9, as the routes have it.  A DELETE request for the prompt id
    ['default'] is answered with status 400 and leaves the store
    untouched (no deletion is invoked), and the prompt manager's delete
    handler makes no call at all for that id.  From any store that
    keeps the default prompt, every sequence of list, create, read,
    update and delete requests during which no file operation fails
    leads to a store that still keeps a prompt with id ['default'].
    When the read of a create fails and its write succeeds, whatever
    the file held is replaced by the new prompt alone. *)
Theorem C9_default_prompt_never_deleted :
  forall st : PromptsData.Store,
    (forall t, SystemPromptsIdRoute.DELETE (lit "default") t st
               = (SystemPromptsRoute.error_json
                    "Cannot delete the default system prompt" 400, st))
    /\ (forall selected, Clients.deletePromptFromStore selected (lit "default") = [])
    /\ (PromptApi.serves_default st ->
        forall reqs, PromptApi.all_quiet reqs ->
                     PromptApi.serves_default (PromptApi.run reqs st))
    /\ (forall t n c prompts e,
          st = PromptsData.Stored prompts ->
          PromptsData.read_file (PromptsData.disk t) = Some e ->
          PromptsData.write_file (PromptsData.disk t) = PromptsData.Written ->
          exists p,
            PromptsData.createPrompt t n c st = (Ok p, PromptsData.Stored [p])
            /\ PromptsData.name p = n /\ PromptsData.content p = c).
Proof.
  intros st. split; [reflexivity|]. split; [reflexivity|]. split.
  - intros H reqs Hq. now apply run_serves.
  - intros t n c prompts e -> Hr Hw. eexists. split.
    + exact (@createPrompt_unreadable t n c prompts e Hr Hw).
    + split; reflexivity.
Qed.

(** The file holds the default prompt, and one prompt is created while
    the file cannot be read.  The request is answered with status 201,
    and the file then holds the new prompt alone: the default prompt is
    gone without any DELETE. *)
Lemma C9_counterexample :
  PromptApi.serves_default Cases.default_only
  /\ status (fst (PromptApi.handle Cases.create_terse Cases.unreadable Cases.default_only))
     = 201%Z
  /\ PromptApi.run [(Cases.create_terse, Cases.unreadable)] Cases.default_only
     = PromptsData.Stored
         [PromptsData.mkPrompt (lit "1700000000000k3j9x0a1b") (lit "Terse") (lit "Be brief.")
            (lit "2023-11-14T22:13:20.000Z") (lit "2023-11-14T22:13:20.000Z")]
  /\ ~ PromptApi.serves_default
         (PromptApi.run [(Cases.create_terse, Cases.unreadable)] Cases.default_only).
Proof.
  split; [|split; [|split]].
  - apply serves_default_iff. reflexivity.
  - reflexivity.
  - reflexivity.
  - intros H. apply serves_default_iff in H. vm_compute in H. discriminate.
Qed.

(** The theorem on a fresh installation: a prompt is created, DELETE is
    tried on ['default'], the default prompt is edited, and an unknown id
    is deleted. *)
Lemma C9_witness :
  PromptApi.serves_default
    (PromptApi.run
       [(PromptApi.Create
           (Some (Obj [fld "name" (Str (lit "Terse")); fld "content" (Str (lit "Be brief."))])),
         PromptsData.mkTick 1700000000000 (lit "2023-11-14T22:13:20.000Z") (lit "k3j9x0a1b")
           PromptsData.steady);
        (PromptApi.Delete (lit "default"),
         PromptsData.mkTick 1700000000500 (lit "2023-11-14T22:13:20.500Z") (lit "zz91m2c4d")
           PromptsData.steady);
        (PromptApi.Update (lit "default")
           (Some (Obj [fld "name" (Str (lit "Base")); fld "content" (Str (lit "You are helpful."))])),
         PromptsData.mkTick 1700000001000 (lit "2023-11-14T22:13:21.000Z") (lit "q8w7e6r5t")
           PromptsData.steady);
        (PromptApi.Delete (lit "missing"),
         PromptsData.mkTick 1700000001500 (lit "2023-11-14T22:13:21.500Z") (lit "a1s2d3f4g")
           PromptsData.steady)]
       PromptsData.NoDirectory).
Proof.
  apply (C9_default_prompt_never_deleted PromptsData.NoDirectory).
  - intros t Hq. now rewrite (@readPrompts_quiet t PromptsData.NoDirectory Hq).
  - repeat constructor.
Defined.

(** ** Context items and their character budget *)

Section ContextFacts.
Import Search.

Lemma substring_prefix (s : jsstring) (n : nat) :
  substring s 0 (Z.of_nat n) = firstn n s.
Proof.
  unfold substring, length_.
  replace (Z.to_nat (Z.min (Z.max 0 0) (Z.of_nat (List.length s)))) with 0%nat by lia.
  replace (Z.to_nat (Z.min (Z.max (Z.of_nat n) 0) (Z.of_nat (List.length s))))
    with (Nat.min n (List.length s)) by lia.
  rewrite Nat.min_0_l, Nat.max_0_l, Nat.sub_0_r. simpl.
  destruct (Nat.le_ge_cases n (List.length s)) as [H|H].
  - now rewrite Nat.min_l.
  - rewrite Nat.min_r by exact H.
    now rewrite !firstn_all2 by lia.
Qed.

Lemma shown_content_long c :
  (length_ c > budget)%Z -> shown_content c = firstn 400 c ++ marker.
Proof.
  intros H. unfold shown_content.
  change budget with (Z.of_nat 400) at 1. rewrite substring_prefix.
  destruct (Z.gtb_spec (length_ c) budget); [reflexivity | lia].
Qed.

Lemma shown_content_short c :
  (length_ c <= budget)%Z -> shown_content c = c.
Proof.
  intros H. unfold shown_content.
  change budget with (Z.of_nat 400) at 1. rewrite substring_prefix.
  destruct (Z.gtb_spec (length_ c) budget); [lia|].
  rewrite app_nil_r. apply firstn_all2.
  unfold length_, budget in H. lia.
Qed.

(** A response of the retrieval route is an error object or the object
    [{context?, query, limit}]. *)
Lemma graph_rag_response_shape body env :
  (exists msg st, GraphRagRoute.POST body env = GraphRagRoute.error_json msg st)
  \/ (exists c q l,
        GraphRagRoute.POST body env
        = json (Obj (GraphRagRoute.context_field c
                       ++ [fld "query" (Str q); fld "limit" l])) 200).
Proof.
  unfold GraphRagRoute.POST.
  destruct body as [b|]; [|solve [left; eauto]].
  destruct b as [| | | | | |fields]; simpl; try solve [left; eauto].
  destruct (lookup "query" fields) as [| | | |q| |]; try solve [left; eauto].
  destruct q as [|c q]; [solve [left; eauto]|].
  destruct (GraphRagRoute.runPythonScript _ _ _ _) as [res|e]; simpl; [|solve [left; eauto]].
  destruct (GraphRagRoute.error res) as [[|? ?]|]; simpl; try solve [left; eauto];
    right; eauto.
Qed.

End ContextFacts.

(** C5, as the routes have it.  A context item whose content is longer
    than the budget of 400 code units enters the prompt as its first 400
    code units followed by the marker ['...']; content within the budget
    enters unchanged and without marker.  Whatever the content, the item
    opens with the conversation title, verbatim, and everything around
    the content is the same.  The session id is kept unmodified in the
    metadata entry built beside the item, but the item itself is built
    without it, and the response of the retrieval route returns no
    metadata. *)
Theorem C5_truncation_keeps_title :
  forall r : Search.SearchResult,
    ((length_ (Search.content r) > Search.budget)%Z ->
       Search.shown_content (Search.content r)
       = firstn 400 (Search.content r) ++ Search.marker
       /\ List.length (Search.shown_content (Search.content r)) = 403%nat)
    /\ ((length_ (Search.content r) <= Search.budget)%Z ->
          Search.shown_content (Search.content r) = Search.content r)
    /\ (exists mid post, forall c,
          Search.formatted_context (Search.with_content r c)
          = (lit "From conversation " ++ dquote ++ Search.session_title r ++ dquote)
              ++ mid ++ Search.shown_content c ++ post)
    /\ (forall c,
          get (GraphRagRoute.metadata_entry (Search.with_content r c)) "session_id"
          = Str (Search.session_id r))
    /\ (forall i,
          Search.formatted_context (Search.with_session_id r i)
          = Search.formatted_context r)
    /\ (forall body env, field (GraphRagRoute.POST body env) "metadata" = Undefined).
Proof.
  intros r. split; [|split; [|split; [|split; [|split]]]].
  - intros H. split; [now apply shown_content_long|].
    rewrite shown_content_long by assumption.
    rewrite length_app, length_firstn.
    change (List.length Search.marker) with 3%nat.
    unfold length_, Search.budget in H. lia.
  - apply shown_content_short.
  - exists (lit ":" ++ nl ++ nl ++ lit "Role: " ++ Search.role r ++ nl ++ lit "Content: "),
           (nl ++ nl ++ lit "Relevance: " ++ Search.relevance_pct r ++ lit "%").
    intros c. unfold Search.formatted_context. simpl.
    now rewrite <- !app_assoc.
  - reflexivity.
  - reflexivity.
  - intros body env.
    destruct (graph_rag_response_shape body env) as [[msg [st ->]] | [c [q [l ->]]]];
      [reflexivity|].
    unfold field, json. simpl. now destruct c.
Qed.

(** The theorem at an item of 401 code units. *)
Lemma C5_witness :
  Search.shown_content (repeat 97%N 401) = repeat 97%N 400 ++ lit "...".
Proof.
  destruct (C5_truncation_keeps_title Scenario.long_hit) as [H _].
  apply H. vm_compute. reflexivity.
Defined.

(** A result with session id ['s-1'] and 401 code units of content is
    retrieved.  The response holds the truncated item under [context];
    the session id occurs nowhere in the item and the response has no
    metadata, so the response offers no document id to cite. *)
Lemma C5_counterexample :
  GraphRagRoute.POST (Some Scenario.search_request) Scenario.quick_search
  = json (Obj [fld "context" (Arr [Str (Search.formatted_context Scenario.long_hit)]);
               fld "query" (Str (lit "quarterly revenue"));
               fld "limit" (Num (Int 3))]) 200
  /\ includes (Search.session_id Scenario.long_hit)
              (Search.formatted_context Scenario.long_hit) = false
  /\ includes (lit "...") (Search.formatted_context Scenario.long_hit) = true.
Proof. repeat split; vm_compute; reflexivity. Qed.

(** ** The retrieval route and its timer *)

Section GraphRagFacts.
Import ChildProcess Search GraphRagRoute.

(** The route once the body is read: everything hangs on the script. *)
Lemma POST_with_query env b c q :
  get b "query" = Str (c :: q) ->
  POST (Some b) env =
  match runPythonScript env (script_path (cwd env)) (c :: q) (limit_of b) with
  | Ok res =>
      match error res with
      | Some (_ :: _) => error_json "Failed to retrieve chat context" 500
      | _ => json (Obj (context_field (context res)
                          ++ [fld "query" (Str (c :: q)); fld "limit" (limit_of b)])) 200
      end
  | Throw _ => error_json "Internal server error" 500
  end.
Proof.
  intros Hq. unfold POST.
  destruct b; simpl in Hq; try discriminate.
  unfold prop, get. cbn [bind]. rewrite Hq. cbv zeta.
  destruct (runPythonScript env (script_path (cwd env)) (c :: q) (limit_of (Obj fields)))
    as [res|e]; cbn [bind]; [|reflexivity].
  destruct (error res) as [[|? ?]|]; reflexivity.
Qed.

Lemma runPythonScript_timed_out env path q limit limit_text :
  toString limit = Ok limit_text ->
  timed_out (spawn env [path; lit "search"; q; limit_text]) = true ->
  runPythonScript env path q limit
  = Ok (failed (lit "Python script timed out after 30 seconds")).
Proof.
  intros Hl Ht. unfold runPythonScript. rewrite Hl. cbn [bind].
  destruct (spawn env _) as [e|at_ms e|]; simpl in Ht; try discriminate; [|reflexivity].
  now destruct (at_ms <? timeout_ms)%Z.
Qed.

End GraphRagFacts.

(** C2, as the route has it.  Retrieval is one subprocess under one timer
    of 30 seconds.  When the timer fires before the subprocess ends, the
    handler does not throw: it answers with status 500 and the fixed
    error object, without candidates.  When the subprocess closes in time
    with exit code 0 and parseable output, the handler answers with
    status 200 and one formatted context item per result. *)
Theorem C2_retrieval_timeout :
  forall (env : GraphRagRoute.Env) (b : value) (c : JS.codeunit) (q limit_text : jsstring),
    get b "query" = Str (c :: q) ->
    toString (GraphRagRoute.limit_of b) = Ok limit_text ->
    let run := GraphRagRoute.spawn env
                 [ChildProcess.script_path (GraphRagRoute.cwd env);
                  lit "search"; c :: q; limit_text] in
    GraphRagRoute.timeout_ms = 30000%Z
    /\ (GraphRagRoute.timed_out run = true ->
        GraphRagRoute.POST (Some b) env
        = GraphRagRoute.error_json "Failed to retrieve chat context" 500)
    /\ (forall at_ms out stderr results,
          run = ChildProcess.Ends at_ms
                  (ChildProcess.CloseEvent (Some 0%Z) out stderr) ->
          (at_ms < GraphRagRoute.timeout_ms)%Z ->
          Search.parsed out = Search.Results results ->
          GraphRagRoute.POST (Some b) env
          = json (Obj [fld "context" (Arr (map Str (map Search.formatted_context results)));
                       fld "query" (Str (c :: q));
                       fld "limit" (GraphRagRoute.limit_of b)]) 200).
Proof.
  intros env b c q limit_text Hq Hl run. split; [reflexivity|]. split.
  - intros Ht. rewrite (POST_with_query env b Hq).
    now rewrite (runPythonScript_timed_out env _ _ _ Hl Ht).
  - intros at_ms out stderr results Hrun Hat Hp.
    rewrite (POST_with_query env b Hq).
    unfold GraphRagRoute.runPythonScript. rewrite Hl. cbn [bind].
    change (GraphRagRoute.spawn env _) with run. rewrite Hrun.
    apply Z.ltb_lt in Hat. rewrite Hat.
    simpl. now rewrite Hp.
Qed.

(** The search script hangs.  The caller gets status 500 and no
    candidates, and the timer is not within 2 to 5 seconds. *)
Lemma C2_counterexample :
  status (GraphRagRoute.POST (Some Scenario.search_request) Scenario.hanging_search)
  = 500%Z
  /\ field (GraphRagRoute.POST (Some Scenario.search_request) Scenario.hanging_search)
           "context" = Undefined
  /\ field (GraphRagRoute.POST (Some Scenario.search_request) Scenario.hanging_search)
           "error" = Str (lit "Failed to retrieve chat context")
  /\ ~ (2000 <= GraphRagRoute.timeout_ms <= 5000)%Z.
Proof.
  repeat split. vm_compute. intros [_ H]. apply H. reflexivity.
Qed.

(** The theorem where the script closes after 31 seconds with three
    results in hand: the timer has fired and the results are lost. *)
Lemma C2_witness :
  GraphRagRoute.POST (Some Scenario.search_request) Scenario.late_search
  = GraphRagRoute.error_json "Failed to retrieve chat context" 500.
Proof.
  eapply (C2_retrieval_timeout Scenario.late_search Scenario.search_request
            (q := lit "uarterly revenue") (limit_text := lit "3")).
  - reflexivity.
  - reflexivity.
  - reflexivity.
Defined.

(** ** Ingestion: which sessions are kept, and what the report holds *)

Section IngestFacts.
Import ChildProcess IngestChatHistoryRoute.

Lemma POST_batch env l :
  POST (Some (batch l)) env =
  match validSessions l with
  | Ok valid => ingest env valid l
  | Throw e => error_json "Internal server error" (Some (Str (error_text e))) 500
  end.
Proof. unfold POST, batch. simpl. now destruct (validSessions l). Qed.

(** A session passed over by the loop leaves [validSessions] as it would
    be without it. *)
Lemma validSessions_skip pre s post :
  check_session s = Ok None ->
  validSessions (pre ++ s :: post) = validSessions (pre ++ post).
Proof.
  intros Hs. induction pre as [|p pre IH]; simpl.
  - rewrite Hs. simpl. now destruct (validSessions post).
  - now rewrite IH.
Qed.




Lemma lacks_field_skipped s : lacks_field s = true -> check_session s = Ok None.
Proof.
  destruct s as [| | | | | |fields]; simpl; try discriminate.
  unfold check_session, prop, get. cbn [bind].
  destruct (lookup "id" fields) eqn:Ei; [reflexivity|..];
    destruct (truthy _); simpl; try reflexivity;
    destruct (lookup "messages" fields); (reflexivity || discriminate).
Qed.

Lemma error_json_field msg d st k :
  ~ In k report_keys -> field (error_json msg d st) k = Undefined.
Proof.
  intros Hk. unfold field, error_json, json, fld. simpl.
  destruct (String.eqb_spec k "error") as [->|_]; [exfalso; apply Hk; simpl; tauto|].
  destruct d as [d|]; simpl; [|reflexivity].
  destruct (String.eqb_spec k "details") as [->|_]; [exfalso; apply Hk; simpl; tauto|].
  reflexivity.
Qed.

Lemma store_and_run_shape env valid r :
  store_and_run env valid = Ok (Some r) ->
  exists err, r = error_json "Failed to ingest chat history" (Some err) 500.
Proof.
  unfold store_and_run.
  destruct (writeFileSync _ _ _); [discriminate|].
  destruct (runPythonScript _ _ _ _ _) as [res|]; cbn [bind]; [|discriminate].
  destruct (if temp_exists env then _ else _); cbn [bind]; [|discriminate].
  destruct (prop res "error") as [err|]; cbn [bind]; [|discriminate].
  destruct (truthy err); [|discriminate].
  intros H. injection H as <-. now exists err.
Qed.

Lemma ingest_field env valid l k :
  ~ In k report_keys -> field (ingest env valid l) k = Undefined.
Proof.
  intros Hk.
  assert (Hrep : forall v, field (report v l) k = Undefined
                           /\ field (nothing_valid l) k = Undefined).
  { intros v. unfold field, report, nothing_valid, json, fld. simpl.
    repeat match goal with
           | |- context [String.eqb k ?x] =>
               destruct (String.eqb_spec k x) as [->|_];
               [exfalso; apply Hk; simpl; tauto|]
           end.
    now split. }
  unfold ingest. destruct valid as [|v valid]; [apply (Hrep [])|].
  destruct (negb (script_exists env)); [now apply error_json_field|].
  destruct (store_and_run env (v :: valid)) as [[r|]|e] eqn:E.
  - apply store_and_run_shape in E as [err ->]. now apply error_json_field.
  - apply Hrep.
  - now apply error_json_field.
Qed.

Lemma POST_batch_field env l k :
  ~ In k report_keys -> field (POST (Some (batch l)) env) k = Undefined.
Proof.
  intros Hk. rewrite POST_batch. destruct (validSessions l).
  - now apply ingest_field.
  - now apply error_json_field.
Qed.



Lemma POST_ok_report env l :
  status (POST (Some (batch l)) env) = 200%Z ->
  exists valid, validSessions l = Ok valid
                /\ POST (Some (batch l)) env = report valid l.
Proof.
  rewrite POST_batch. destruct (validSessions l) as [valid|e]; [|discriminate].
  intros H. exists valid. split; [reflexivity|].
  unfold ingest in *. destruct valid as [|v valid]; [discriminate|].
  destruct (negb (script_exists env)); [discriminate|].
  destruct (store_and_run env (v :: valid)) as [[r|]|e] eqn:E; try discriminate.
  - apply store_and_run_shape in E as [err ->]. discriminate.
  - reflexivity.
Qed.

End IngestFacts.


(** C4, as the route has it.  A response with status 200 is exactly the
    report [{success, message, processed_count, sessions_processed}],
    where [processed_count] counts the sessions kept and
    [sessions_processed] those sent.  A session object that has no [id]
    or no [messages] is passed over without raising an error and without
    being recorded: the sessions kept, and with them [processed_count],
    are what they would be had it not been sent; and no response has an
    [errors] field.  A message without [content] is dropped from its
    session in the same silent way. *)
Theorem C4_report_fields_and_missing_fields :
  forall (env : IngestChatHistoryRoute.Env) (pre post : list value) (s : value),
    let sent := pre ++ s :: post in
    (status (IngestChatHistoryRoute.POST (Some (IngestChatHistoryRoute.batch sent)) env)
       = 200%Z ->
     exists valid,
       IngestChatHistoryRoute.validSessions sent = Ok valid
       /\ IngestChatHistoryRoute.POST (Some (IngestChatHistoryRoute.batch sent)) env
          = IngestChatHistoryRoute.report valid sent)
    /\ (IngestChatHistoryRoute.lacks_field s = true ->
        IngestChatHistoryRoute.check_session s = Ok None
        /\ IngestChatHistoryRoute.validSessions sent
           = IngestChatHistoryRoute.validSessions (pre ++ post))
    /\ field (IngestChatHistoryRoute.POST (Some (IngestChatHistoryRoute.batch sent)) env)
             "errors" = Undefined
    /\ (forall fields, lookup "content" fields = Undefined ->
          IngestChatHistoryRoute.valid_message (Obj fields) = Ok false).
Proof.
  intros env pre post s sent. split; [apply POST_ok_report|]. split.
  - intros Hs. pose proof (lacks_field_skipped s Hs) as Hskip.
    split; [exact Hskip | now apply validSessions_skip].
  - split.
    + apply POST_batch_field. simpl. intuition discriminate.
    + intros fields Hc. unfold IngestChatHistoryRoute.valid_message, prop, get.
      cbn [bind]. rewrite Hc. now destruct (truthy _).
Qed.



(** Two sessions are sent, the second without an id: the call succeeds,
    the report has no [errors] (nor [processed] or [skipped]) field, and
    nothing records the session that was dropped. *)
Lemma C4_counterexample :
  IngestChatHistoryRoute.POST
    (Some (IngestChatHistoryRoute.batch [Scenario.good_session; Scenario.anonymous_session]))
    Scenario.working_ingest
  = json (Obj [fld "success" (Bool true);
               fld "message" (Str (lit "Chat history stored as JSON and embeddings generated successfully"));
               fld "processed_count" (Num (Int 1));
               fld "sessions_processed" (Num (Int 2))]) 200
  /\ ~ (exists entries,
          field (IngestChatHistoryRoute.POST
                   (Some (IngestChatHistoryRoute.batch
                            [Scenario.good_session; Scenario.anonymous_session]))
                   Scenario.working_ingest) "errors" = Arr entries)
  /\ field (IngestChatHistoryRoute.POST
              (Some (IngestChatHistoryRoute.batch
                       [Scenario.good_session; Scenario.anonymous_session]))
              Scenario.working_ingest) "processed" = Undefined.
Proof.
  split; [vm_compute; reflexivity|].
  split; [intros [entries H]; vm_compute in H; discriminate | vm_compute; reflexivity].
Qed.

(** The theorem at the same two sessions. *)
Lemma C4_witness :
  IngestChatHistoryRoute.check_session Scenario.anonymous_session = Ok None
  /\ IngestChatHistoryRoute.validSessions
       ([Scenario.good_session] ++ Scenario.anonymous_session :: [])
     = IngestChatHistoryRoute.validSessions ([Scenario.good_session] ++ [])
  /\ exists valid,
       IngestChatHistoryRoute.POST
         (Some (IngestChatHistoryRoute.batch
                  ([Scenario.good_session] ++ Scenario.anonymous_session :: [])))
         Scenario.working_ingest
       = IngestChatHistoryRoute.report valid
           ([Scenario.good_session] ++ Scenario.anonymous_session :: []).
Proof.
  destruct (C4_report_fields_and_missing_fields Scenario.working_ingest
              [Scenario.good_session] [] Scenario.anonymous_session)
    as [H1 [H2 _]].
  destruct (H2 eq_refl) as [Ha Hb].
  destruct (H1 eq_refl) as [valid [_ Hv]].
  split; [exact Ha|]. split; [exact Hb|]. exists valid. exact Hv.
Defined.

(** ** What a failing request is answered with *)

Section ErrorFacts.
Import ChildProcess.

Lemma graph_rag_errors_fixed body env :
  let r := GraphRagRoute.POST body env in
  status r = 200%Z
  \/ r = GraphRagRoute.error_json "Query is required and must be a string" 400
  \/ r = GraphRagRoute.error_json "Failed to retrieve chat context" 500
  \/ r = GraphRagRoute.error_json "Internal server error" 500.
Proof.
  unfold GraphRagRoute.POST.
  destruct body as [b|]; [|now right; right; right].
  destruct b as [| | | | | |fields]; simpl; try tauto.
  destruct (lookup "query" fields) as [| | | |q| |]; try tauto.
  destruct q as [|c q]; [tauto|].
  destruct (GraphRagRoute.runPythonScript _ _ _ _) as [res|e]; simpl; [|tauto].
  destruct (GraphRagRoute.error res) as [[|? ?]|]; simpl; tauto.
Qed.









Import TtsService.

(** Past the directory check, [generateSpeech] returns the file name
    whatever the synthesis does. *)
Lemma generateSpeech_hides_failure (env : TtsService.Env) (options : value) (name : jsstring) :
  get options "outputPath" = Str name -> name <> [] ->
  audio_dir_exists env name = true \/ mkdirSync env = None ->
  generateSpeech env options = Ok name.
Proof.
  intros Ho Hn Hd. unfold generateSpeech. rewrite Ho.
  destruct name as [|c r]; [congruence|]. simpl truthy. cbv iota.
  assert (Hs : forall text model, exists f,
             (synthesise env text model (c :: r) = Ok (c :: r))
             \/ synthesise env text model (c :: r) = Throw f).
  { intros text model. unfold synthesise.
    exists (match fetch_tts env text with
            | FetchRejects e => e
            | FetchResponse ok st ct txt size =>
                if negb ok then Error (lit "TTS server responded with status: " ++ Z_to_string st)
                else match ct with
                     | Some ((_ :: _) as ct') =>
                         if includes (lit "audio") ct' then
                           if (size =? 0)%Z then Error (lit "TTS server returned empty audio file")
                           else match writeFileSync env with Some e => e | None => Error [] end
                         else Error (lit "TTS server returned non-audio response: " ++ txt)
                     | _ => Error (lit "TTS server returned non-audio response: " ++ txt)
                     end
            end).
    destruct (negb (server_available env) || is_text model "browser-tts"); [now left|].
    destruct (fetch_tts env text) as [e|ok st ct txt size]; [now right|].
    destruct (negb ok); [now right|].
    destruct ct as [[|x ct']|]; try (now right).
    destruct (includes (lit "audio") (x :: ct')); [|now right].
    destruct (size =? 0)%Z; [now right|].
    destruct (writeFileSync env); [now right | now left]. }
  assert (Hdir : (if audio_dir_exists env (c :: r) then Ok tt
                  else match mkdirSync env with Some e => Throw e | None => Ok tt end)
                 = Ok tt).
  { destruct Hd as [-> | ->]; [reflexivity|]. now destruct (audio_dir_exists env (c :: r)). }
  rewrite Hdir. cbn [bind].
  destruct (Hs (get options "text")
               (match get options "model" with
                | Undefined => Str (lit "tts_models/en/ljspeech/tacotron2-DDC")
                | m => m
                end)) as [f [-> | ->]]; reflexivity.
Qed.


(** The speech route on top of [generateSpeech]: a failed synthesis is
    not seen by the route. *)
Lemma tts_hides_failure (svc : TtsService.Env) (now : Z) (err : JsError) (b : value)
  (name : jsstring) :
  truthy (get b "text") = true ->
  (get b "outputPath" = Str name /\ name <> [])
  \/ (truthy (get b "outputPath") = false
      /\ name = lit "tts_" ++ Z_to_string now ++ lit ".wav") ->
  TtsService.audio_dir_exists svc name = true \/ TtsService.mkdirSync svc = None ->
  TtsRoute.POST (Some b) (TtsRoute.mkEnv now (TtsService.generateSpeech svc) err)
  = json (Obj [fld "success" (Bool true);
               fld "audioUrl" (Str (lit "/audio/" ++ name));
               fld "message" (Str (lit "TTS audio generated successfully"))]) 200.
Proof.
  intros Ht Hname Hd.
  assert (Hn : name <> []).
  { destruct Hname as [[_ H] | [_ ->]]; [exact H | discriminate]. }
  assert (Ho : get (TtsRoute.speech_options b
                      (TtsRoute.mkEnv now (TtsService.generateSpeech svc) err))
                   "outputPath" = Str name).
  { unfold TtsRoute.speech_options. cbn [TtsRoute.now_ms].
    destruct Hname as [[Ho _] | [Ho ->]].
    - rewrite Ho. destruct name; [congruence|]. reflexivity.
    - rewrite Ho. reflexivity. }
  unfold TtsRoute.POST.
  destruct b; simpl in Ht; try discriminate.
  simpl destructure. cbn [bind]. unfold get in Ht |- *. rewrite Ht. simpl negb. cbv iota.
  cbn [TtsRoute.generateSpeech].
  now rewrite (@generateSpeech_hides_failure svc _ name Ho Hn Hd).
Qed.

End ErrorFacts.




(** ** The chat route *)

Section ChatFacts.
Import ChatRoute.

(** A subprocess that fails resolves the promise with an [error] and no
    [context]; only a throwing [spawn], or an argument that cannot be
    turned into text, rejects it. *)
Lemma graph_search_failure env last :
  retrieval_failed (graph_search env last) = true ->
  match graph_search env last with
  | Resolved graphResult => context graphResult = None
  | Rejected _ => True
  | Pending => False
  end.
Proof.
  unfold graph_search.
  destruct (String_ last) as [query|e0]; simpl; try exact (fun _ => I).
  destruct (spawn env _) as [e|at_ms [m|code out stderr]|]; simpl;
    try (intros _; exact I); try reflexivity; try discriminate.
  destruct (ChildProcess.exited_zero code); [|reflexivity].
  destruct (Search.parsed out); simpl; [reflexivity | discriminate].
Qed.

Lemma enhancedSystemPrompt_failed content env last :
  retrieval_failed (graph_search env last) = true ->
  exists note, (note = note_no_context \/ note = note_retrieval_failed)
               /\ enhancedSystemPrompt content (graph_search env last)
                  = Some (content ++ note).
Proof.
  intros H. pose proof (graph_search_failure env last H) as Hc.
  destruct (graph_search env last) as [[ctx err]|e|]; simpl in *.
  - subst ctx. exists note_no_context. split; [now left | reflexivity].
  - exists note_retrieval_failed. split; [now right | reflexivity].
  - contradiction.
Qed.

Lemma prepare_with_retrieval b env st conv p st' last :
  truthy (get b "graphRAG") = true ->
  conversationMessages (get b "message") (get b "messages") = Some conv ->
  getPromptById (tick env) (selectedPromptId b) st = (Some p, st') ->
  lastUserMessage conv = Ok last ->
  prepare (Some b) env st =
  match enhancedSystemPrompt (PromptsData.content p) (graph_search env last) with
  | None => (Stuck, st')
  | Some e =>
      (Request (ollamaRequestBody (get b "model")
                  (ollamaMessages (isConversationMode (get b "messages")) e conv last)),
       st')
  end.
Proof.
  intros Hg Hc Hp Hl.
  assert (Hgr : truthy (graphRAG b) = true).
  { unfold graphRAG. now destruct (get b "graphRAG"). }
  destruct b; try discriminate; unfold prepare; rewrite Hc, Hp, Hl, Hgr; reflexivity.
Qed.

End ChatFacts.

(** C1, as the route has it.  When retrieval is switched on and the
    search step fails (the subprocess reports an error or exits with a
    non-zero code, its output cannot be parsed, or [spawn] throws), the
    call does not fail on that account: the handler goes on to the
    language model with the stored system prompt followed by a
    parenthesised note and without any retrieved context, and answers
    with whatever that call yields.  The note goes to the language
    model; the response to the caller carries no mark of its own. *)
Theorem C1_retrieval_failure_degrades :
  forall (b : value) (env : ChatRoute.Env) (st st' : PromptsData.Store)
         (conv : list value) (p : PromptsData.SystemPrompt) (last : value),
    truthy (get b "graphRAG") = true ->
    ChatRoute.conversationMessages (get b "message") (get b "messages") = Some conv ->
    ChatRoute.getPromptById (ChatRoute.tick env) (ChatRoute.selectedPromptId b) st
      = (Some p, st') ->
    ChatRoute.lastUserMessage conv = Ok last ->
    ChatRoute.retrieval_failed (ChatRoute.graph_search env last) = true ->
    exists note,
      (note = ChatRoute.note_no_context \/ note = ChatRoute.note_retrieval_failed)
      /\ ChatRoute.prepare (Some b) env st
         = (ChatRoute.Request
              (ChatRoute.ollamaRequestBody (get b "model")
                 (ChatRoute.ollamaMessages (ChatRoute.isConversationMode (get b "messages"))
                    (PromptsData.content p ++ note) conv last)), st')
      /\ ChatRoute.POST (Some b) env st
         = option_map (fun r => (r, st'))
             (ChatRoute.respond
                (ChatRoute.fetch_ollama env
                   (ChatRoute.ollamaRequestBody (get b "model")
                      (ChatRoute.ollamaMessages
                         (ChatRoute.isConversationMode (get b "messages"))
                         (PromptsData.content p ++ note) conv last)))).
Proof.
  intros b env st st' conv p last Hg Hc Hp Hl Hf.
  destruct (enhancedSystemPrompt_failed (PromptsData.content p) env last Hf) as [note [Hn He]].
  exists note. split; [exact Hn|].
  pose proof (prepare_with_retrieval b env st Hg Hc Hp Hl) as Hprep.
  rewrite He in Hprep. split; [exact Hprep|].
  unfold ChatRoute.POST. rewrite Hprep.
  now destruct (ChatRoute.respond _).
Qed.

(** The search script exits with code 1 in one run and finds nothing in
    another.  The two requests to the language model are the same, and so
    are the two responses: a stream of the model's chunks with status 200
    and nothing that marks the failure. *)
Lemma C1_counterexample :
  ChatRoute.prepare (Some Scenario.chat_request) Scenario.chat_with_broken_search PromptsData.NoDirectory
  = ChatRoute.prepare (Some Scenario.chat_request) Scenario.chat_with_empty_search PromptsData.NoDirectory
  /\ ChatRoute.POST (Some Scenario.chat_request) Scenario.chat_with_broken_search PromptsData.NoDirectory
     = ChatRoute.POST (Some Scenario.chat_request) Scenario.chat_with_empty_search PromptsData.NoDirectory
  /\ option_map fst
       (ChatRoute.POST (Some Scenario.chat_request) Scenario.chat_with_broken_search PromptsData.NoDirectory)
     = Some (mkResponse 200
               (BStream [PromptsData.default_content ++ ChatRoute.note_no_context])).
Proof. repeat split; vm_compute; reflexivity. Qed.

(** The theorem at the run where the search script exits with code 1. *)
Lemma C1_witness :
  exists note,
    (note = ChatRoute.note_no_context \/ note = ChatRoute.note_retrieval_failed)
    /\ option_map fst
         (ChatRoute.POST (Some Scenario.chat_request) Scenario.chat_with_broken_search PromptsData.NoDirectory)
       = Some (mkResponse 200 (BStream [PromptsData.default_content ++ note])).
Proof.
  destruct (C1_retrieval_failure_degrades
              Scenario.chat_request Scenario.chat_with_broken_search PromptsData.NoDirectory
              (st' := PromptsData.Stored [PromptsData.defaultPrompt Scenario.clock])
              (conv := [Scenario.said "user" "What did we decide about the budget?"])
              (p := PromptsData.defaultPrompt Scenario.clock)
              (last := Str (lit "What did we decide about the budget?"))
              eq_refl eq_refl eq_refl eq_refl eq_refl)
    as [note [Hn [_ Hpost]]].
  exists note. split; [exact Hn|].
  rewrite Hpost. reflexivity.
Defined.

(** C6, as the route has it.  When the handler reaches the language
    model call and the call fails before an answer is begun (the request
    is rejected, or the response is not ok), the handler settles with
    status 500 and one of two fixed texts; nothing the model sent, and
    no made-up answer, is in the response.  When the call fails in the
    middle of the answer (the response is ok and reading its body is
    rejected after some chunks), the handler has already answered with
    status 200, and the caller receives the chunks read so far in a
    stream that then breaks: a partial answer. *)
Theorem C6_model_failure_is_an_error :
  forall (body : option value) (env : ChatRoute.Env) (st st' : PromptsData.Store)
         (requestBody : value),
    ChatRoute.prepare body env st = (ChatRoute.Request requestBody, st') ->
    (ChatRoute.fetch_failed (ChatRoute.fetch_ollama env requestBody) = true ->
     exists msg,
       (msg = "Internal server error"%string
        \/ msg = "Failed to get response from Ollama"%string)
       /\ ChatRoute.POST body env st = Some (ChatRoute.text_response msg 500, st'))
    /\ (forall statusText partial e,
          ChatRoute.fetch_ollama env requestBody
          = ChatRoute.FetchResponse true statusText
              (Some (ChatRoute.mkBody partial (ChatRoute.ReadRejects e))) ->
          ChatRoute.POST body env st
          = Some (mkResponse 200 (BStreamBroken partial), st')).
Proof.
  intros body env st st' requestBody Hprep. split.
  - intros Hfail. unfold ChatRoute.POST. rewrite Hprep.
    destruct (ChatRoute.fetch_ollama env requestBody) as [e| |ok statusText chunks];
      simpl in *; try discriminate.
    + exists "Internal server error"%string. split; [now left | reflexivity].
    + destruct ok; [discriminate|].
      exists "Failed to get response from Ollama"%string. split; [now right | reflexivity].
  - intros statusText partial e Hf.
    unfold ChatRoute.POST. rewrite Hprep, Hf. reflexivity.
Qed.

(** The model begins its answer and the connection to it breaks: the
    caller is answered with status 200 and reads the beginning of the
    answer. *)
Lemma C6_counterexample :
  (forall requestBody,
     ChatRoute.stream_failed (ChatRoute.fetch_ollama Cases.chat_with_model_cut requestBody)
     = true)
  /\ option_map fst
       (ChatRoute.POST (Some Scenario.chat_request) Cases.chat_with_model_cut
          PromptsData.NoDirectory)
     = Some (mkResponse 200 (BStreamBroken [lit "We decided to cut the bud"])).
Proof. split; [intros requestBody; reflexivity | vm_compute; reflexivity]. Qed.

(** The theorem where the model answers 503 with a partial body: the
    caller gets the fixed text, not the partial body. *)
Lemma C6_witness :
  option_map fst
    (ChatRoute.POST (Some Scenario.chat_request) Scenario.chat_with_model_down
       PromptsData.NoDirectory)
  = Some (mkResponse 500 (BText (lit "Failed to get response from Ollama"))).
Proof.
  destruct (C6_model_failure_is_an_error
              (Some Scenario.chat_request) Scenario.chat_with_model_down
              PromptsData.NoDirectory eq_refl)
    as [H _].
  destruct (H eq_refl) as [msg [[-> | ->] Hp]]; rewrite Hp.
  - vm_compute in Hp. discriminate.
  - reflexivity.
Defined.

(** ** How much history reaches the prompt *)

Section HistoryFacts.
Import Clients.

Lemma slice_last_length {A} n (l : list A) : List.length (slice_last n l) <= n.
Proof. unfold slice_last. rewrite length_skipn. lia. Qed.

Lemma slice_last_suffix {A} n (l : list A) :
  exists older, l = older ++ slice_last n l.
Proof.
  unfold slice_last. exists (firstn (List.length l - n) l).
  now rewrite firstn_skipn.
Qed.

Lemma slice_but_last_snoc {A} (l : list A) x : slice_but_last (l ++ [x]) = l.
Proof.
  unfold slice_but_last. rewrite length_app. simpl.
  replace (List.length l + 1 - 1) with (List.length l + 0) by lia.
  rewrite firstn_app_2. simpl. apply app_nil_r.
Qed.

Lemma handleSubmit_history messages input isLoading now posted :
  handleSubmit messages input isLoading now = Some posted ->
  chat_history posted = map turn (slice_last 4 messages).
Proof.
  unfold handleSubmit. destruct (trim input); [discriminate|].
  destruct isLoading; [discriminate|].
  intros H. injection H as <-. reflexivity.
Qed.

Lemma sendMessage_history messages input isLoading now posted :
  sendMessage messages input isLoading now = Some posted ->
  chat_history posted = map turn messages.
Proof.
  unfold sendMessage. destruct (trim input); [discriminate|].
  destruct isLoading; [discriminate|].
  intros H. injection H as <-.
  change (chat_history (request ?q ?h)) with h.
  rewrite map_app. cbn [map]. apply slice_but_last_snoc.
Qed.

End HistoryFacts.

(** C8, as the code has it.  Of the two chat clients, [handleSubmit]
    sends the four most recent messages at most, while [sendMessage]
    sends every earlier message of the conversation.  The chat route
    places no cap of its own: in conversation mode the prompt holds the
    system message followed by all the messages it was given, and in
    single-message mode it holds two messages. *)
Theorem C8_history_window :
  forall (messages : list Clients.Message) (input now : jsstring) (posted : value),
    (Clients.handleSubmit messages input false now = Some posted ->
       List.length (Clients.chat_history posted) <= 4
       /\ exists older,
            map Clients.turn messages = older ++ Clients.chat_history posted)
    /\ (Clients.sendMessage messages input false now = Some posted ->
          Clients.chat_history posted = map Clients.turn messages)
    /\ (forall enhanced conversation last,
          ChatRoute.ollamaMessages true enhanced conversation last
          = ChatRoute.message_of_role "system" (Str enhanced) :: conversation
          /\ List.length (ChatRoute.ollamaMessages false enhanced conversation last) = 2).
Proof.
  intros messages input now posted. split; [|split].
  - intros H. rewrite (handleSubmit_history _ _ _ _ H). split.
    + rewrite length_map. apply slice_last_length.
    + destruct (slice_last_suffix 4 messages) as [older E].
      exists (map Clients.turn older). rewrite <- map_app. now rewrite <- E.
  - apply sendMessage_history.
  - intros enhanced conversation last. split; reflexivity.
Qed.

(** No constant bounds the history in the prompt: a conversation of
    [K + 1] messages passes [sendMessage] whole and gives the route a
    prompt of [K + 2] messages. *)
Lemma C8_counterexample :
  ~ (exists K : nat,
       forall conversation,
         List.length (ChatRoute.ollamaMessages true [] conversation (Str [])) <= K)
  /\ ~ (exists K : nat,
          forall messages posted,
            Clients.sendMessage messages (lit "and then?") false (lit "1700000000000")
            = Some posted ->
            List.length (Clients.chat_history posted) <= K).
Proof.
  split.
  - intros [K H]. specialize (H (repeat Null (S K))).
    simpl in H. rewrite repeat_length in H. lia.
  - intros [K H].
    set (m := Clients.mkMessage [] Clients.user (lit "hello")).
    destruct (Clients.sendMessage (repeat m (S K)) (lit "and then?") false
                (lit "1700000000000")) as [posted|] eqn:E.
    + specialize (H _ _ E). rewrite (sendMessage_history _ _ _ _ E) in H.
      rewrite length_map, repeat_length in H. lia.
    + vm_compute in E. discriminate.
Qed.

(** The theorem at a conversation of six messages. *)
Lemma C8_witness :
  List.length
    (Clients.chat_history
       (Clients.request (lit "and then?")
          (map Clients.turn
             (Clients.slice_last 4
                (repeat (Clients.mkMessage (lit "m") Clients.user (lit "hello")) 6)))))
  <= 4.
Proof.
  destruct (C8_history_window
              (repeat (Clients.mkMessage (lit "m") Clients.user (lit "hello")) 6)
              (lit " and then? ") (lit "1700000000000")
              (Clients.request (lit "and then?")
                 (map Clients.turn
                    (Clients.slice_last 4
                       (repeat (Clients.mkMessage (lit "m") Clients.user (lit "hello")) 6)))))
    as [H _].
  apply H. reflexivity.
Defined.

(* ===================================================================== *)
(** * Part III. Further properties of the same code                       *)
(* ===================================================================== *)

(** ** What the sanitisers keep and what they remove *)

Section SanitizerFacts.
Import Sanitization MessageContent.

Lemma tag_end_split s rest :
  tag_end s = Some rest -> exists b, s = b ++ GT :: rest.
Proof.
  revert rest. induction s as [|c r IH]; simpl; intros rest H; [discriminate|].
  destruct (N.eqb_spec c GT) as [->|Hne].
  - injection H as <-. now exists [].
  - destruct (IH _ H) as [b ->]. now exists (c :: b).
Qed.

(** [tagfree] in plain words: the string cannot be cut as
    [a ++ '<' :: b ++ '>' :: c]. *)
Lemma tagfree_iff s :
  tagfree s <-> forall a b c, s <> a ++ LT :: b ++ GT :: c.
Proof.
  split.
  - intros H a b c ->. apply tagfree_app_r in H. destruct H as [Hm _].
    simpl in Hm. apply tag_end_None in Hm. apply Hm.
    apply in_or_app. right. now left.
  - induction s as [|x r IH]; intros H; [exact I|]. split.
    + simpl. destruct (N.eqb_spec x LT) as [->|_]; [|reflexivity].
      destruct (tag_end r) as [rest|] eqn:E; [|reflexivity].
      destruct (tag_end_split _ E) as [b ->].
      exfalso. now apply (H [] b rest).
    + apply IH. intros a b c ->. now apply (H (x :: a) b c).
Qed.

Lemma html_like_not_tagfree s : html_like s = true -> ~ tagfree s.
Proof.
  induction s as [|c r IH]; simpl; [discriminate|].
  intros H [Hm Hr]. apply orb_true_iff in H as [H|H]; [|now apply IH].
  apply andb_true_iff in H as [Hc H].
  destruct r as [|d r']; [discriminate|].
  apply andb_true_iff in H as [Hd Hg].
  rewrite Hc in Hm. simpl in Hm.
  destruct (N.eqb_spec d GT) as [->|_]; [discriminate|].
  apply tag_end_None in Hm. apply Hm.
  apply existsb_exists in Hg as [x [Hin Hx]].
  apply N.eqb_eq in Hx. now subst x.
Qed.

Lemma sanitizeUserInput_cases v :
  sanitizeUserInput v = []
  \/ exists s, v = Str s /\ sanitizeUserInput v = sanitize_string s.
Proof.
  unfold sanitizeUserInput.
  destruct v as [| |b|n|s|l|f]; simpl; rewrite ?orb_true_r; try (now left).
  destruct s as [|c r]; [now left | right; now eexists].
Qed.

Lemma sanitize_string_tagfree s : tagfree (sanitize_string s).
Proof. apply tagfree_trim, remove_tags_tagfree. Qed.

Lemma sanitize_string_fixed s :
  (forall c, In c s -> is_nul c = false /\ is_control c = false) ->
  tagfree s -> head_clean s -> head_clean (rev s) ->
  sanitize_string s = s.
Proof.
  intros Hc Ht Hh Hl. unfold sanitize_string.
  rewrite (remove_class_fixed is_nul) by (intros c Hin; now apply Hc).
  rewrite (remove_class_fixed is_control) by (intros c Hin; now apply Hc).
  rewrite (tagfree_fixed _ Ht). now apply trim_fixed.
Qed.

Lemma remove_class_idempotent cls s :
  remove_class cls (remove_class cls s) = remove_class cls s.
Proof. apply remove_class_fixed. intros c. apply remove_class_clean. Qed.

End SanitizerFacts.

(** X1.  Whatever it is given, [sanitizeUserInput] returns a text that
    holds none of the control code units of its character class and in
    which no '<' is followed, at any distance, by a '>': nothing that
    could be read as a tag is left. *)
Theorem X1_sanitizeUserInput_leaves_no_tag :
  forall v : value,
    (forall c, In c (Sanitization.sanitizeUserInput v) ->
               Sanitization.is_control c = false)
    /\ (forall a b c,
          Sanitization.sanitizeUserInput v
          <> a ++ Sanitization.LT :: b ++ Sanitization.GT :: c).
Proof.
  intros v. destruct (sanitizeUserInput_cases v) as [-> | [s [_ ->]]].
  - split; [intros c []|]. intros [|x a] b c; discriminate.
  - split.
    + intros c Hin. now apply sanitize_string_incl in Hin.
    + apply tagfree_iff, sanitize_string_tagfree.
Qed.

(** The check of X1 on a text that holds a tag and a control unit. *)
Lemma X1_witness :
  (forall c, In c (Sanitization.sanitizeUserInput (Str (lit "<b>bold</b> text"))) ->
             Sanitization.is_control c = false)
  /\ (forall a b c,
        Sanitization.sanitizeUserInput (Str (lit "<b>bold</b> text"))
        <> a ++ Sanitization.LT :: b ++ Sanitization.GT :: c).
Proof. exact (X1_sanitizeUserInput_leaves_no_tag (Str (lit "<b>bold</b> text"))). Defined.

(** X2.  A text that has nothing to remove comes back as it was: when it
    holds no null and no control code unit, no '<' followed by a '>', and
    no whitespace at either end, [sanitizeUserInput] returns it
    unchanged. *)
Theorem X2_sanitizeUserInput_keeps_clean_text :
  forall s : jsstring,
    (forall c, In c s -> Sanitization.is_nul c = false
                         /\ Sanitization.is_control c = false) ->
    (forall a b c, s <> a ++ Sanitization.LT :: b ++ Sanitization.GT :: c) ->
    head_clean s -> head_clean (rev s) ->
    Sanitization.sanitizeUserInput (Str s) = s.
Proof.
  intros s Hc Ht Hh Hl. unfold Sanitization.sanitizeUserInput.
  destruct s as [|c r]; [reflexivity|]. simpl.
  apply sanitize_string_fixed; try assumption. now apply tagfree_iff.
Qed.

(** The theorem at ["if a < b then stop"]. *)
Lemma X2_witness :
  Sanitization.sanitizeUserInput (Str (lit "if a < b then stop"))
  = lit "if a < b then stop".
Proof.
  apply X2_sanitizeUserInput_keeps_clean_text.
  - intros c Hin. vm_compute in Hin.
    repeat (destruct Hin as [<-|Hin]; [split; reflexivity|]). destruct Hin.
  - apply tagfree_iff. vm_compute. repeat split.
  - reflexivity.
  - reflexivity.
Defined.

(** X3.  [sanitizeMessageContent] never reaches its HTML branch: the text
    it tests has already lost every '<' that a '>' follows, so the test
    for HTML-like content fails and the result is that of
    [sanitizeUserInput], whatever the HTML sanitiser would do. *)
Theorem X3_sanitizeMessageContent_is_plain :
  forall (sanitizeHTML : jsstring -> jsstring) (content : value),
    MessageContent.html_like (Sanitization.sanitizeUserInput content) = false
    /\ MessageContent.sanitizeMessageContent sanitizeHTML content
       = Sanitization.sanitizeUserInput content.
Proof.
  intros sanitizeHTML content.
  assert (H : MessageContent.html_like (Sanitization.sanitizeUserInput content) = false).
  { destruct (MessageContent.html_like _) eqn:E; [|reflexivity].
    exfalso. apply html_like_not_tagfree in E. apply E.
    destruct (sanitizeUserInput_cases content) as [-> | [s [_ ->]]];
      [exact I | apply sanitize_string_tagfree]. }
  split; [exact H|].
  unfold MessageContent.sanitizeMessageContent. now rewrite H.
Qed.

(** X4.  [sanitizeUserInputTyping] removes null code units and nothing
    else: its result is the text with exactly the null code units left
    out, every other code unit kept in its place.  So the result holds
    no null code unit, a text without any comes back unchanged, and
    running [sanitizeUserInput] on the result gives what it gives on the
    text itself.  A value that is not a string gives the empty text. *)
Theorem X4_sanitizeUserInputTyping_only_nulls :
  forall s : jsstring,
    Sanitization.sanitizeUserInputTyping (Str s) = filter (fun c => negb (c =? 0)%N) s
    /\ ~ In Sanitization.NUL (Sanitization.sanitizeUserInputTyping (Str s))
    /\ (~ In Sanitization.NUL s ->
        Sanitization.sanitizeUserInputTyping (Str s) = s)
    /\ Sanitization.sanitizeUserInput (Str (Sanitization.sanitizeUserInputTyping (Str s)))
       = Sanitization.sanitizeUserInput (Str s)
    /\ (forall v, is_string v = false -> Sanitization.sanitizeUserInputTyping v = []).
Proof.
  intros s.
  assert (E : Sanitization.sanitizeUserInputTyping (Str s)
              = Sanitization.remove_class Sanitization.is_nul s).
  { unfold Sanitization.sanitizeUserInputTyping. now destruct s. }
  split; [rewrite E; reflexivity|].
  rewrite E. split; [|split; [|split]].
  - intros H. apply remove_class_clean in H. discriminate.
  - intros H. apply remove_class_fixed. intros c Hin.
    unfold Sanitization.is_nul. apply N.eqb_neq. intros ->. now apply H.
  - assert (Hs : forall t, Sanitization.sanitizeUserInput (Str t)
                           = Sanitization.sanitize_string t).
    { intros [|c t]; reflexivity. }
    rewrite !Hs. unfold Sanitization.sanitize_string.
    now rewrite remove_class_idempotent.
  - intros v Hv. unfold Sanitization.sanitizeUserInputTyping. rewrite Hv.
    now rewrite orb_true_r.
Qed.

(** The theorem at ["draft"], which holds no null code unit. *)
Lemma X4_witness :
  Sanitization.sanitizeUserInputTyping (Str (lit "draft")) = lit "draft".
Proof.
  destruct (X4_sanitizeUserInputTyping_only_nulls (lit "draft")) as [_ [_ [H _]]].
  apply H. vm_compute. intuition discriminate.
Defined.

(** ** The prompt store: what each operation leaves behind *)

Section PromptOperations.
Import PromptsData.

(** What a reader whose file operations succeed finds in a store. *)
Lemma read_stored t prompts :
  quiet t = true -> readPrompts t (Stored prompts) = (prompts, Stored prompts).
Proof. intros Hq. now rewrite (@readPrompts_quiet t _ Hq). Qed.

Lemma get_stored t i prompts :
  quiet t = true ->
  getPromptById t i (Stored prompts)
  = (find (fun p => str_eqb (id p) i) prompts, Stored prompts).
Proof. intros Hq. unfold getPromptById. now rewrite (@read_stored t prompts Hq). Qed.

Lemma find_id_app i l p :
  find (fun q => str_eqb (id q) i) (l ++ [p])
  = match find (fun q => str_eqb (id q) i) l with
    | Some q => Some q
    | None => if str_eqb (id p) i then Some p else None
    end.
Proof.
  induction l as [|q l IH]; simpl; [reflexivity|].
  now destruct (str_eqb (id q) i).
Qed.

Lemma find_id_none i l :
  find (fun q => str_eqb (id q) i) l = None <-> forall q, In q l -> id q <> i.
Proof.
  split.
  - intros H q Hin E. apply (find_none _ _ H) in Hin. simpl in Hin.
    apply str_eqb_neq in Hin. contradiction.
  - intros H. induction l as [|q l IH]; simpl; [reflexivity|].
    destruct (str_eqb (id q) i) eqn:E.
    + apply str_eqb_eq in E. exfalso. apply (H q); [now left | exact E].
    + apply IH. intros q' Hq'. apply H. now right.
Qed.

Lemma update_at_id_none i f l :
  update_at_id i f l = None <-> find (fun q => str_eqb (id q) i) l = None.
Proof.
  induction l as [|p l IH]; simpl; [tauto|].
  destruct (str_eqb (id p) i); [split; discriminate|].
  destruct (update_at_id i f l) as [[u l']|].
  - split; [discriminate|]. intros H. apply IH in H. discriminate.
  - split; [intros _; now apply IH | reflexivity].
Qed.

Lemma update_at_id_some i f l u l' :
  (forall p, id (f p) = id p) ->
  update_at_id i f l = Some (u, l') ->
  (exists p, find (fun q => str_eqb (id q) i) l = Some p /\ u = f p)
  /\ find (fun q => str_eqb (id q) i) l' = Some u
  /\ map id l' = map id l.
Proof.
  intros Hf. revert u l'.
  induction l as [|p l IH]; simpl; intros u l' H; [discriminate|].
  destruct (str_eqb (id p) i) eqn:E.
  - injection H as <- <-. split; [now exists p|]. simpl.
    rewrite Hf, E. split; reflexivity.
  - destruct (update_at_id i f l) as [[u0 l0]|]; [|discriminate].
    injection H as <- <-.
    destruct (IH _ _ eq_refl) as [Hp [Hfind Hids]].
    split; [exact Hp|]. simpl. rewrite E. split; [exact Hfind | now rewrite Hids].
Qed.

Lemma filter_same_length {A} (f : A -> bool) l :
  List.length (filter f l) = List.length l -> filter f l = l.
Proof.
  induction l as [|x l IH]; simpl; [reflexivity|].
  destruct (f x); simpl; intros H.
  - f_equal. apply IH. lia.
  - pose proof (filter_length_le f l). lia.
Qed.

Lemma filter_all {A} (f : A -> bool) l :
  (forall x, In x l -> f x = true) -> filter f l = l.
Proof.
  induction l as [|x l IH]; simpl; intros H; [reflexivity|].
  rewrite (H x (or_introl eq_refl)). f_equal. apply IH. intros y Hy. apply H. now right.
Qed.

Lemma find_id_filtered i l :
  find (fun q => str_eqb (id q) i) (filter (fun p => negb (str_eqb (id p) i)) l) = None.
Proof.
  apply find_id_none. intros q Hin E. apply filter_In in Hin as [_ Hq].
  apply negb_true_iff, str_eqb_neq in Hq. contradiction.
Qed.

End PromptOperations.

(** X5.  When no file operation of the call fails, [createPrompt]
    returns a prompt with the given name and content and stores the
    prompts it read followed by the new one; these are the prompts the
    file held, if it held any.  When no stored prompt already has the id
    it drew, a later [getPromptById] with that id returns the new
    prompt, and every other id is looked up as before.  When the read
    of the call fails and its write succeeds, the file afterwards holds
    the new prompt alone. *)
Theorem X5_createPrompt_then_get :
  forall (t : PromptsData.Tick) (n c : jsstring) (st : PromptsData.Store),
    let prompts := fst (PromptsData.readPrompts t st) in
    let p := PromptsData.mkPrompt (Z_to_string (PromptsData.now_ms t) ++ PromptsData.random36 t)
               n c (PromptsData.now_iso t) (PromptsData.now_iso t) in
    (PromptsData.quiet t = true ->
     PromptsData.createPrompt t n c st = (Ok p, PromptsData.Stored (prompts ++ [p]))
     /\ (forall l, st = PromptsData.Stored l -> prompts = l)
     /\ ((forall q, In q prompts -> PromptsData.id q <> PromptsData.id p) ->
         forall t', PromptsData.quiet t' = true ->
           fst (PromptsData.getPromptById t' (PromptsData.id p)
                  (PromptsData.Stored (prompts ++ [p]))) = Some p)
     /\ (forall i t', PromptsData.quiet t' = true -> i <> PromptsData.id p ->
           fst (PromptsData.getPromptById t' i (PromptsData.Stored (prompts ++ [p])))
           = fst (PromptsData.getPromptById t i st)))
    /\ (forall l e,
          st = PromptsData.Stored l ->
          PromptsData.read_file (PromptsData.disk t) = Some e ->
          PromptsData.write_file (PromptsData.disk t) = PromptsData.Written ->
          PromptsData.createPrompt t n c st = (Ok p, PromptsData.Stored [p])).
Proof.
  intros t n c st prompts p. split.
  - intros Hq. split; [exact (@createPrompt_quiet t n c st Hq)|].
    split.
    { intros l ->. subst prompts. now rewrite (@read_stored t l Hq). }
    split.
    + intros Hfresh t' Hq'. rewrite (@get_stored t' _ _ Hq'). cbn [fst].
      rewrite find_id_app. apply find_id_none in Hfresh. rewrite Hfresh.
      replace (str_eqb _ _) with true; [reflexivity|].
      symmetry. now apply str_eqb_eq.
    + intros i t' Hq' Hi. rewrite (@get_stored t' _ _ Hq'). cbn [fst].
      rewrite find_id_app. unfold PromptsData.getPromptById. subst prompts.
      destruct (PromptsData.readPrompts t st) as [l st1]. cbn [fst].
      destruct (find _ l); [reflexivity|].
      replace (str_eqb _ i) with false; [reflexivity|].
      symmetry. apply str_eqb_neq. congruence.
  - intros l e -> Hr Hw. exact (@createPrompt_unreadable t n c l e Hr Hw).
Qed.

(** The theorem on a fresh installation. *)
Lemma X5_witness :
  PromptsData.createPrompt Scenario.clock (lit "Terse") (lit "Be brief.") PromptsData.NoDirectory
  = (Ok (PromptsData.mkPrompt (lit "1700000000000k3j9x0a1b") (lit "Terse")
           (lit "Be brief.") (lit "2023-11-14T22:13:20.000Z")
           (lit "2023-11-14T22:13:20.000Z")),
     PromptsData.Stored
       [PromptsData.defaultPrompt Scenario.clock;
        PromptsData.mkPrompt (lit "1700000000000k3j9x0a1b") (lit "Terse")
          (lit "Be brief.") (lit "2023-11-14T22:13:20.000Z")
          (lit "2023-11-14T22:13:20.000Z")]).
Proof.
  destruct (X5_createPrompt_then_get Scenario.clock (lit "Terse") (lit "Be brief.")
              PromptsData.NoDirectory) as [H _].
  destruct (H eq_refl) as [Hc _]. exact Hc.
Defined.

(** X6.  When no file operation of the call fails, [updatePrompt] does
    not throw.  It answers null exactly when none of the prompts read
    has the id, and then leaves the store as the read left it.
    Otherwise the first prompt with that id gets the new name and
    content and the current time as [updatedAt], keeps its id and
    [createdAt], and is what a later [getPromptById] returns; the stored
    ids, and with them the number and order of prompts, stay as they
    were. *)
Theorem X6_updatePrompt_effect :
  forall (t : PromptsData.Tick) (i n c : jsstring) (st : PromptsData.Store),
    PromptsData.quiet t = true ->
    let prompts := fst (PromptsData.readPrompts t st) in
    match PromptsData.updatePrompt t i n c st with
    | (Ok None, st') =>
        (forall q, In q prompts -> PromptsData.id q <> i)
        /\ st' = snd (PromptsData.readPrompts t st)
    | (Ok (Some u), st') =>
        PromptsData.id u = i /\ PromptsData.name u = n /\ PromptsData.content u = c
        /\ PromptsData.updatedAt u = PromptsData.now_iso t
        /\ (exists p, find (fun q => str_eqb (PromptsData.id q) i) prompts = Some p
                      /\ PromptsData.createdAt u = PromptsData.createdAt p)
        /\ (forall t', PromptsData.quiet t' = true ->
                       fst (PromptsData.getPromptById t' i st') = Some u)
        /\ (forall t', PromptsData.quiet t' = true ->
                       map PromptsData.id (fst (PromptsData.readPrompts t' st'))
                       = map PromptsData.id prompts)
    | (Throw _, _) => False
    end.
Proof.
  intros t i n c st Hq prompts. subst prompts.
  rewrite (@updatePrompt_quiet t i n c st Hq).
  destruct (PromptsData.update_at_id i _ _) as [[u prompts']|] eqn:Eu.
  - apply update_at_id_some in Eu; [|reflexivity].
    destruct Eu as [[p [Hfind ->]] [Hfind' Hids]]. simpl.
    pose proof (find_some _ _ Hfind) as [_ Hid]. apply str_eqb_eq in Hid.
    split; [exact Hid|]. split; [reflexivity|]. split; [reflexivity|].
    split; [reflexivity|]. split; [now exists p|]. split.
    + intros t' Hq'. now rewrite (@get_stored t' _ _ Hq').
    + intros t' Hq'. now rewrite (@read_stored t' _ Hq').
  - apply update_at_id_none in Eu. split; [now apply find_id_none | reflexivity].
Qed.

(** X7.  When no file operation of the call fails, [deletePrompt] does
    not throw and answers true exactly when one of the prompts read has
    the id.  A reader of the store afterwards finds the prompts with
    other ids, in their order, and [getPromptById] finds nothing under
    the deleted id. *)
Theorem X7_deletePrompt_effect :
  forall (t : PromptsData.Tick) (i : jsstring) (st : PromptsData.Store),
    PromptsData.quiet t = true ->
    let prompts := fst (PromptsData.readPrompts t st) in
    exists deleted st',
      PromptsData.deletePrompt t i st = (Ok deleted, st')
      /\ (deleted = true <-> exists p, In p prompts /\ PromptsData.id p = i)
      /\ (forall t', PromptsData.quiet t' = true ->
                     fst (PromptsData.readPrompts t' st')
                     = filter (fun p => negb (str_eqb (PromptsData.id p) i)) prompts)
      /\ (forall t', PromptsData.quiet t' = true ->
                     fst (PromptsData.getPromptById t' i st') = None).
Proof.
  intros t i st Hq prompts.
  rewrite (@deletePrompt_quiet t i st Hq). cbv zeta. fold prompts.
  assert (Hst : forall t', PromptsData.quiet t' = true ->
              fst (PromptsData.readPrompts t' (snd (PromptsData.readPrompts t st))) = prompts).
  { intros t' Hq'. subst prompts.
    rewrite (@readPrompts_quiet t st Hq), (@readPrompts_quiet t' _ Hq').
    destruct st; reflexivity. }
  destruct (Nat.eqb_spec
              (List.length (filter (fun p => negb (str_eqb (PromptsData.id p) i)) prompts))
              (List.length prompts)) as [Hlen|Hlen].
  - apply filter_same_length in Hlen.
    assert (Hnone : forall q, In q prompts -> PromptsData.id q <> i).
    { intros q Hin. rewrite <- Hlen in Hin. apply filter_In in Hin as [_ Hq0].
      now apply negb_true_iff, str_eqb_neq in Hq0. }
    exists false, (snd (PromptsData.readPrompts t st)).
    split; [reflexivity|]. split; [|split].
    + split; [discriminate|]. intros [p [Hin Hp]]. now apply Hnone in Hin.
    + intros t' Hq'. now rewrite (Hst t' Hq'), Hlen.
    + intros t' Hq'. unfold PromptsData.getPromptById.
      specialize (Hst t' Hq').
      destruct (PromptsData.readPrompts t' _) as [l st2]. simpl in *. subst l.
      now apply find_id_none.
  - exists true, (PromptsData.Stored
                    (filter (fun p => negb (str_eqb (PromptsData.id p) i)) prompts)).
    split; [reflexivity|]. split; [|split].
    + split; [|reflexivity]. intros _.
      destruct (find (fun q => str_eqb (PromptsData.id q) i) prompts) as [p|] eqn:Ef.
      * apply find_some in Ef as [Hin Hp]. apply str_eqb_eq in Hp. now exists p.
      * exfalso. apply Hlen. f_equal. apply filter_all.
        intros q Hin. apply negb_true_iff, str_eqb_neq.
        eapply find_id_none; eassumption.
    + intros t' Hq'. now rewrite (@read_stored t' _ Hq').
    + intros t' Hq'. rewrite (@get_stored t' _ _ Hq'). apply find_id_filtered.
Qed.

(** The theorem on a fresh installation, where the default prompt is
    edited. *)
Lemma X6_witness :
  fst (PromptsData.getPromptById Scenario.clock (lit "default")
         (snd (PromptsData.updatePrompt Scenario.clock (lit "default")
                 (lit "Base") (lit "You are helpful.") PromptsData.NoDirectory)))
  = Some (PromptsData.mkPrompt (lit "default") (lit "Base") (lit "You are helpful.")
            (lit "2023-11-14T22:13:20.000Z") (lit "2023-11-14T22:13:20.000Z")).
Proof.
  pose proof (@X6_updatePrompt_effect Scenario.clock (lit "default")
                (lit "Base") (lit "You are helpful.") PromptsData.NoDirectory eq_refl) as H.
  cbv zeta in H.
  destruct (PromptsData.updatePrompt Scenario.clock (lit "default")
              (lit "Base") (lit "You are helpful.") PromptsData.NoDirectory)
    as [[[u|]|e] st'] eqn:E;
    [|vm_compute in E; discriminate|contradiction].
  destruct H as [_ [_ [_ [_ [_ [Hget _]]]]]].
  simpl snd. rewrite (Hget Scenario.clock eq_refl).
  vm_compute in E. injection E as <- _. reflexivity.
Defined.

(** The theorem where the library function is asked to delete the
    default prompt of a fresh installation. *)
Lemma X7_witness :
  exists st',
    PromptsData.deletePrompt Scenario.clock (lit "default") PromptsData.NoDirectory
    = (Ok true, st').
Proof.
  destruct (@X7_deletePrompt_effect Scenario.clock (lit "default")
              PromptsData.NoDirectory eq_refl)
    as [deleted [st' [Hd [[_ H] _]]]].
  exists st'. rewrite Hd. f_equal. f_equal. apply H.
  exists (PromptsData.defaultPrompt Scenario.clock).
  split; [now left | reflexivity].
Defined.

(** ** The prompt routes *)

Section PromptRouteFacts.
Import PromptsData.

Lemma read_name_content_rejects b r :
  SystemPromptsRoute.read_name_content b = Ok (inl r) -> status r = 400%Z.
Proof.
  unfold SystemPromptsRoute.read_name_content.
  destruct b as [b|]; [|discriminate].
  destruct (prop b "name") as [n|]; cbn [bind]; [|discriminate].
  destruct (prop b "content") as [c|]; cbn [bind]; [|discriminate].
  destruct n as [| | | |[|? ?]| |]; destruct c as [| | | |[|? ?]| |];
    intros H; try discriminate; injection H as <-; reflexivity.
Qed.

(** [writePrompts] either stores what it is given or throws. *)
Lemma writePrompts_cases t prompts st :
  (exists e st', writePrompts t prompts st = (Throw e, st'))
  \/ writePrompts t prompts st = (Ok tt, Stored prompts).
Proof.
  unfold writePrompts, seq, ensureDataDirectory, seq, dir_exists, mkdirSync, writeFileSync, ret.
  destruct st; simpl;
    destruct (mkdir_writing (disk t)); destruct (write_file (disk t)); simpl; eauto.
Qed.

(** After an update that succeeded, the file holds the updated prompt
    under its id. *)
Lemma updatePrompt_stored t i n c st u st' :
  updatePrompt t i n c st = (Ok (Some u), st') ->
  exists prompts', st' = Stored prompts'
                   /\ find (fun q => str_eqb (id q) i) prompts' = Some u.
Proof.
  unfold updatePrompt.
  destruct (readPrompts t st) as [prompts st1].
  destruct (update_at_id i _ prompts) as [[u0 prompts']|] eqn:Eu; [|discriminate].
  apply update_at_id_some in Eu; [|reflexivity].
  destruct Eu as [_ [Hfind _]].
  unfold seq.
  destruct (writePrompts_cases t prompts' st1) as [[e [st2 ->]] | ->]; [discriminate|].
  simpl. intros H. injection H as <- <-. eauto.
Qed.

(** [writePrompts] stores what it is given when its two calls succeed. *)
Lemma writePrompts_succeeds t prompts st :
  mkdir_writing (disk t) = None ->
  write_file (disk t) = Written ->
  writePrompts t prompts st = (Ok tt, Stored prompts).
Proof.
  intros Hm Hw.
  unfold writePrompts, seq, ensureDataDirectory, seq, dir_exists, mkdirSync, writeFileSync, ret.
  rewrite Hm, Hw. now destruct st.
Qed.

End PromptRouteFacts.

(** X8.  What a successful PUT answers is what a GET for the same id
    answers next, when no file operation of the GET fails: the same
    status 200 and the same prompt, and the GET leaves the store as the
    PUT left it. *)
Theorem X8_put_then_get :
  forall (i : jsstring) (b : option value) (t t' : PromptsData.Tick)
         (st : PromptsData.Store),
    status (fst (SystemPromptsIdRoute.PUT i b t st)) = 200%Z ->
    PromptsData.quiet t' = true ->
    SystemPromptsIdRoute.GET i t' (snd (SystemPromptsIdRoute.PUT i b t st))
    = SystemPromptsIdRoute.PUT i b t st.
Proof.
  intros i b t t' st. unfold SystemPromptsIdRoute.PUT.
  destruct (SystemPromptsRoute.read_name_content b) as [[r|[n c]]|e] eqn:Eb;
    simpl; try discriminate.
  - intros H. apply read_name_content_rejects in Eb. congruence.
  - destruct (PromptsData.updatePrompt t i n c st) as [[[u|]|e] st'] eqn:Eu;
      simpl; try discriminate.
    intros _ Hq'. apply updatePrompt_stored in Eu as [prompts' [-> Hfind]].
    unfold SystemPromptsIdRoute.GET.
    rewrite (@get_stored t' _ _ Hq'), Hfind. reflexivity.
Qed.

(** The theorem on a fresh installation whose default prompt is edited. *)
Lemma X8_witness :
  SystemPromptsIdRoute.GET (lit "default") Scenario.clock
    (snd (SystemPromptsIdRoute.PUT (lit "default")
            (Some (Obj [fld "name" (Str (lit "Base"));
                        fld "content" (Str (lit "You are helpful."))]))
            Scenario.clock PromptsData.NoDirectory))
  = SystemPromptsIdRoute.PUT (lit "default")
      (Some (Obj [fld "name" (Str (lit "Base"));
                  fld "content" (Str (lit "You are helpful."))]))
      Scenario.clock PromptsData.NoDirectory.
Proof. apply X8_put_then_get; reflexivity. Defined.

(** X9.  A prompt request that is answered with status 400 (a missing or
    empty name or content, a DELETE for ['default']) leaves the store
    exactly as it was: validation comes before the first read of the
    file.  So does a request answered with status 500, unless a call
    inside [writePrompts] threw: a body that is not JSON is refused
    before the file is touched.  A write that throws is answered with
    status 500 as well, and may leave the file cut short. *)
Theorem X9_rejected_prompt_request_writes_nothing :
  (forall (r : PromptApi.Request) (t : PromptsData.Tick) (st : PromptsData.Store),
     (status (fst (PromptApi.handle r t st)) = 400%Z ->
      snd (PromptApi.handle r t st) = st)
     /\ (status (fst (PromptApi.handle r t st)) = 500%Z ->
         PromptsData.mkdir_writing (PromptsData.disk t) = None ->
         PromptsData.write_file (PromptsData.disk t) = PromptsData.Written ->
         snd (PromptApi.handle r t st) = st))
  /\ status (fst (PromptApi.handle Cases.create_terse Cases.disk_full PromptsData.NoFile))
     = 500%Z
  /\ snd (PromptApi.handle Cases.create_terse Cases.disk_full PromptsData.NoFile)
     = PromptsData.Corrupt.
Proof.
  split; [|split; reflexivity].
  intros r t st. destruct r as [|b|i|i b|i]; simpl.
  - unfold SystemPromptsRoute.GET.
    destruct (PromptsData.readPrompts t st). simpl. split; discriminate.
  - unfold SystemPromptsRoute.POST.
    destruct (SystemPromptsRoute.read_name_content b) as [[r|[n c]]|e];
      try (split; reflexivity).
    split.
    + destruct (PromptsData.createPrompt t n c st) as [[p|e] st']; simpl; discriminate.
    + intros H Hm Hw. unfold PromptsData.createPrompt in H.
      destruct (PromptsData.readPrompts t st) as [prompts st1].
      unfold PromptsData.seq in H.
      rewrite (@writePrompts_succeeds t _ st1 Hm Hw) in H. discriminate.
  - unfold SystemPromptsIdRoute.GET.
    destruct (PromptsData.getPromptById t i st) as [[p|] st'];
      simpl; split; discriminate.
  - unfold SystemPromptsIdRoute.PUT.
    destruct (SystemPromptsRoute.read_name_content b) as [[r|[n c]]|e];
      try (split; reflexivity).
    split.
    + destruct (PromptsData.updatePrompt t i n c st) as [[[u|]|e] st']; simpl; discriminate.
    + intros H Hm Hw. unfold PromptsData.updatePrompt in H.
      destruct (PromptsData.readPrompts t st) as [prompts st1].
      destruct (PromptsData.update_at_id i _ prompts) as [[u prompts']|];
        [|discriminate].
      unfold PromptsData.seq in H.
      rewrite (@writePrompts_succeeds t _ st1 Hm Hw) in H. discriminate.
  - unfold SystemPromptsIdRoute.DELETE.
    destruct (str_eqb i (lit "default")); [split; reflexivity|].
    split.
    + destruct (PromptsData.deletePrompt t i st) as [[[|]|e] st']; simpl; discriminate.
    + intros H Hm Hw. unfold PromptsData.deletePrompt in H.
      destruct (PromptsData.readPrompts t st) as [prompts st1].
      destruct (_ =? _)%nat; [discriminate|].
      unfold PromptsData.seq in H.
      rewrite (@writePrompts_succeeds t _ st1 Hm Hw) in H. discriminate.
Qed.

(** The theorem at a create request without content. *)
Lemma X9_witness :
  snd (PromptApi.handle
         (PromptApi.Create (Some (Obj [fld "name" (Str (lit "Terse"))])))
         Scenario.clock PromptsData.NoDirectory)
  = PromptsData.NoDirectory.
Proof.
  apply (proj1 (proj1 X9_rejected_prompt_request_writes_nothing
                  (PromptApi.Create (Some (Obj [fld "name" (Str (lit "Terse"))])))
                  Scenario.clock PromptsData.NoDirectory)).
  reflexivity.
Defined.

(** ** The chat route, beyond a failed retrieval *)

Section ChatRouteFacts.
Import ChatRoute.

Lemma graphRAG_truthy b : truthy (graphRAG b) = truthy (get b "graphRAG").
Proof. unfold graphRAG. now destruct (get b "graphRAG"). Qed.

(** With retrieval switched off, [prepare] does not look at [spawn]. *)
Lemma prepare_without_retrieval b cwd tick sp sp' fetch st :
  truthy (get b "graphRAG") = false ->
  prepare (Some b) (mkEnv cwd tick sp fetch) st
  = prepare (Some b) (mkEnv cwd tick sp' fetch) st.
Proof.
  intros Hg. rewrite <- graphRAG_truthy in Hg.
  unfold prepare. destruct b; try reflexivity; rewrite Hg; reflexivity.
Qed.

Lemma find_user_skip l rest :
  Forall (fun x => exists r, prop x "role" = Ok r /\ is_text r "user" = false) l ->
  find_user (l ++ rest) = find_user rest.
Proof.
  induction 1 as [|x l [r [Hr Hu]] _ IH]; simpl; [reflexivity|].
  rewrite Hr. cbn [bind]. now rewrite Hu.
Qed.

Lemma numbered_nth i ctxs k ctx :
  nth_error ctxs k = Some ctx ->
  nth_error (numbered i ctxs) k
  = Some (lit "[" ++ Z_to_string (i + Z.of_nat k + 1) ++ lit "] " ++ ctx).
Proof.
  revert i k. induction ctxs as [|c rest IH]; intros i [|k] H; simpl in *;
    try discriminate.
  - injection H as <-. now rewrite Z.add_0_r.
  - rewrite (IH (i + 1)%Z k H). do 4 f_equal. lia.
Qed.

Lemma join_nth sep items k x :
  nth_error items k = Some x ->
  exists pre post, join sep items = pre ++ x ++ post.
Proof.
  revert k. induction items as [|y rest IH]; intros [|k] H; simpl in *;
    try discriminate.
  - injection H as <-. exists []. destruct rest; [exists [] | eexists]; simpl;
      [now rewrite app_nil_r | reflexivity].
  - destruct (IH k H) as [pre [post E]].
    destruct rest as [|z rest']; [destruct k; discriminate|].
    rewrite E. exists (y ++ sep ++ pre), post. now rewrite <- !app_assoc.
Qed.

Lemma has_default_find prompts :
  PromptApi.has_default prompts = true ->
  exists p, find (fun q => str_eqb (PromptsData.id q) (lit "default")) prompts = Some p.
Proof.
  unfold PromptApi.has_default. induction prompts as [|q l IH]; simpl; [discriminate|].
  destruct (str_eqb (PromptsData.id q) (lit "default")); [eauto | exact IH].
Qed.

End ChatRouteFacts.

(** X10.  With [graphRAG] absent or falsy the chat handler never runs
    the search script: its answer is the same whatever the script would
    do, and the system message sent to the language model is the stored
    prompt, letter for letter. *)
Theorem X10_no_retrieval_no_search :
  forall (b : value) (cwd : jsstring) (tick : PromptsData.Tick)
         (sp sp' : list jsstring -> ChildProcess.Run Search.Stdout)
         (fetch : value -> ChatRoute.Fetch) (st : PromptsData.Store),
    truthy (get b "graphRAG") = false ->
    ChatRoute.POST (Some b) (ChatRoute.mkEnv cwd tick sp fetch) st
    = ChatRoute.POST (Some b) (ChatRoute.mkEnv cwd tick sp' fetch) st
    /\ (forall conv p st' last,
          ChatRoute.conversationMessages (get b "message") (get b "messages") = Some conv ->
          ChatRoute.getPromptById tick (ChatRoute.selectedPromptId b) st = (Some p, st') ->
          ChatRoute.lastUserMessage conv = Ok last ->
          ChatRoute.prepare (Some b) (ChatRoute.mkEnv cwd tick sp fetch) st
          = (ChatRoute.Request
               (ChatRoute.ollamaRequestBody (get b "model")
                  (ChatRoute.ollamaMessages (ChatRoute.isConversationMode (get b "messages"))
                     (PromptsData.content p) conv last)), st')).
Proof.
  intros b cwd tick sp sp' fetch st Hg. split.
  - unfold ChatRoute.POST.
    now rewrite (prepare_without_retrieval b cwd tick sp sp' fetch st Hg).
  - intros conv p st' last Hc Hp Hl.
    rewrite <- graphRAG_truthy in Hg.
    unfold ChatRoute.prepare. simpl ChatRoute.tick.
    destruct b; simpl in Hc |- *; try discriminate; rewrite ?Hc, Hp, Hl, Hg; reflexivity.
Qed.

(** The check of X10 on a request without [graphRAG]: a failing and an
    empty search give the same answer. *)
Lemma X10_witness :
  truthy (get Cases.plain_chat_request "graphRAG") = false
  /\ ChatRoute.POST (Some Cases.plain_chat_request) Scenario.chat_with_broken_search
       PromptsData.NoDirectory
     = ChatRoute.POST (Some Cases.plain_chat_request) Scenario.chat_with_empty_search
         PromptsData.NoDirectory.
Proof.
  split; [reflexivity|].
  apply (X10_no_retrieval_no_search Cases.plain_chat_request (lit "/app") Scenario.clock
           Scenario.broken_search Scenario.empty_search Scenario.echo_model
           PromptsData.NoDirectory).
  reflexivity.
Defined.

(** X11.  [lastUserMessage] is the content of the last message whose
    role is ['user'] (the empty text when that content is falsy).  Only
    the messages after it are inspected, so a malformed entry earlier in
    the conversation does no harm. *)
Theorem X11_lastUserMessage_is_last_user_turn :
  forall (before after : list value) (m : value),
    is_text (get m "role") "user" = true ->
    Forall (fun x => exists r, prop x "role" = Ok r /\ is_text r "user" = false) after ->
    ChatRoute.lastUserMessage (before ++ m :: after)
    = Ok (if truthy (get m "content") then get m "content" else Str []).
Proof.
  intros before after m Hm Hafter.
  unfold ChatRoute.lastUserMessage.
  rewrite rev_app_distr. simpl. rewrite <- app_assoc. simpl.
  rewrite find_user_skip by (now apply Forall_rev).
  simpl. destruct m; simpl in Hm; try discriminate.
  unfold prop. cbn [bind]. unfold get in *. now rewrite Hm.
Qed.

(** The theorem at a conversation that starts with a null entry and ends
    with an assistant turn. *)
Lemma X11_witness :
  ChatRoute.lastUserMessage
    ([Null; Scenario.said "user" "first"]
       ++ Scenario.said "user" "second" :: [Scenario.said "assistant" "reply"])
  = Ok (Str (lit "second")).
Proof.
  apply (X11_lastUserMessage_is_last_user_turn
           [Null; Scenario.said "user" "first"] (Scenario.said "user" "second")).
  - reflexivity.
  - repeat constructor. exists (Str (lit "assistant")). split; reflexivity.
Defined.

(** X12.  The chat handler sets no timer on the search script.  When
    retrieval is on and the script never ends, the handler never
    answers. *)
Theorem X12_hanging_search_blocks_chat :
  forall (b : value) (env : ChatRoute.Env) (st st' : PromptsData.Store)
         (conv : list value) (p : PromptsData.SystemPrompt) (q : jsstring),
    truthy (get b "graphRAG") = true ->
    ChatRoute.conversationMessages (get b "message") (get b "messages") = Some conv ->
    ChatRoute.getPromptById (ChatRoute.tick env) (ChatRoute.selectedPromptId b) st
      = (Some p, st') ->
    ChatRoute.lastUserMessage conv = Ok (Str q) ->
    ChatRoute.spawn env
      [ChildProcess.script_path (ChatRoute.cwd env); lit "search"; q; lit "3"]
      = ChildProcess.Hangs ->
    ChatRoute.POST (Some b) env st = None.
Proof.
  intros b env st st' conv p q Hg Hc Hp Hl Hs.
  unfold ChatRoute.POST.
  rewrite (prepare_with_retrieval b env st Hg Hc Hp Hl).
  unfold ChatRoute.graph_search. cbn [String_].
  change (list codeunit) with jsstring in *.
  now rewrite Hs.
Qed.

(** The theorem where the search script never ends. *)
Lemma X12_witness :
  ChatRoute.POST (Some Scenario.chat_request)
    (ChatRoute.mkEnv (lit "/app") Scenario.clock (fun _ => ChildProcess.Hangs)
       Scenario.echo_model)
    PromptsData.NoDirectory
  = None.
Proof.
  eapply (X12_hanging_search_blocks_chat Scenario.chat_request
            (ChatRoute.mkEnv (lit "/app") Scenario.clock (fun _ => ChildProcess.Hangs)
               Scenario.echo_model) PromptsData.NoDirectory).
  - reflexivity.
  - reflexivity.
  - reflexivity.
  - reflexivity.
  - reflexivity.
Defined.

(** X13.  When the search script closes with exit code 0 and results,
    every result reaches the system prompt: after the stored prompt, the
    prompt holds each formatted item in full, labelled with its position
    counted from 1. *)
Theorem X13_every_result_is_in_the_prompt :
  forall (env : ChatRoute.Env) (content q stderr : jsstring) (at_ms : Z)
         (out : Search.Stdout) (results : list Search.SearchResult)
         (k : nat) (r : Search.SearchResult),
    ChatRoute.spawn env
      [ChildProcess.script_path (ChatRoute.cwd env); lit "search"; q; lit "3"]
      = ChildProcess.Ends at_ms (ChildProcess.CloseEvent (Some 0%Z) out stderr) ->
    Search.parsed out = Search.Results results ->
    nth_error results k = Some r ->
    exists mid post,
      ChatRoute.enhancedSystemPrompt content (ChatRoute.graph_search env (Str q))
      = Some (content ++ mid
                ++ (lit "[" ++ Z_to_string (Z.of_nat k + 1) ++ lit "] "
                      ++ Search.formatted_context r)
                ++ post).
Proof.
  intros env content q stderr at_ms out results k r Hs Hp Hk.
  unfold ChatRoute.graph_search. cbn [String_].
  change (list codeunit) with jsstring in *.
  rewrite Hs. simpl. rewrite Hp.
  assert (Hn : nth_error (map Search.formatted_context results) k
               = Some (Search.formatted_context r)) by (now apply map_nth_error).
  destruct results as [|r0 rest]; [destruct k; discriminate|].
  cbn [map ChatRoute.enhancedSystemPrompt ChatRoute.context].
  change (Search.formatted_context r0 :: map Search.formatted_context rest)
    with (map Search.formatted_context (r0 :: rest)).
  pose proof (numbered_nth 0 _ _ Hn) as Hl. rewrite Z.add_0_l in Hl.
  destruct (join_nth (nl ++ nl) _ _ Hl) as [pre [post E]].
  unfold ChatRoute.with_context. rewrite E.
  eexists (nl ++ nl ++ lit "You have access to relevant context from previous conversations:"
             ++ nl ++ nl ++ pre), _.
  f_equal. rewrite <- !app_assoc. reflexivity.
Qed.

(** The theorem at the second of three results. *)
Lemma X13_witness :
  exists mid post,
    ChatRoute.enhancedSystemPrompt (lit "Be brief.")
      (ChatRoute.graph_search
         (ChatRoute.mkEnv (lit "/app") Scenario.clock
            (fun _ => ChildProcess.Ends 100
                        (ChildProcess.CloseEvent (Some 0%Z)
                           (Search.mkStdout (lit "[...]") (Search.Results Scenario.three_hits))
                           []))
            Scenario.echo_model)
         (Str (lit "budget")))
    = Some (lit "Be brief." ++ mid
              ++ (lit "[" ++ Z_to_string (Z.of_nat 1 + 1) ++ lit "] "
                    ++ Search.formatted_context
                         (Scenario.hit "s-2" "Hiring" "two" "80.0" "0.8"))
              ++ post).
Proof.
  eapply X13_every_result_is_in_the_prompt.
  - reflexivity.
  - reflexivity.
  - reflexivity.
Defined.

(** X14.  As long as the prompt store keeps its default prompt, which
    every sequence of prompt requests preserves while no file operation
    fails, a chat request that names no prompt and whose own read of the
    file succeeds is never answered with ['System prompt not found']. *)
Theorem X14_default_prompt_is_always_found :
  forall (st0 : PromptsData.Store) (reqs : list (PromptApi.Request * PromptsData.Tick))
         (b : value) (env : ChatRoute.Env) (r : Response) (st' : PromptsData.Store),
    PromptApi.serves_default st0 ->
    PromptApi.all_quiet reqs ->
    PromptsData.quiet (ChatRoute.tick env) = true ->
    truthy (get b "promptId") = false ->
    ChatRoute.POST (Some b) env (PromptApi.run reqs st0) = Some (r, st') ->
    r <> ChatRoute.text_response "System prompt not found" 500.
Proof.
  intros st0 reqs b env r st' H0 Hquiet Hq Hp.
  pose proof (@run_serves reqs st0 Hquiet H0) as Hserve.
  set (st := PromptApi.run reqs st0) in *. clearbody st.
  assert (Hfound : exists p st1,
             ChatRoute.getPromptById (ChatRoute.tick env) (ChatRoute.selectedPromptId b) st
             = (Some p, st1)).
  { unfold ChatRoute.selectedPromptId. rewrite Hp. simpl.
    unfold PromptsData.getPromptById.
    specialize (Hserve (ChatRoute.tick env) Hq).
    destruct (PromptsData.readPrompts (ChatRoute.tick env) st) as [prompts st1].
    simpl in Hserve. destruct (has_default_find _ Hserve) as [p ->]. eauto. }
  destruct Hfound as [p [st1 Hfound]].
  unfold ChatRoute.POST, ChatRoute.prepare.
  destruct b;
    try (intros H; injection H as <- _; intros E; vm_compute in E; discriminate);
    (destruct (ChatRoute.conversationMessages _ _) as [conv|];
     [|intros H; injection H as <- _; intros E; vm_compute in E; discriminate]);
    rewrite Hfound;
    (destruct (ChatRoute.lastUserMessage conv) as [last|e];
     [|intros H; injection H as <- _; intros E; vm_compute in E; discriminate]);
    (destruct (if truthy _ then _ else _) as [enh|]; [|discriminate]);
    (destruct (ChatRoute.fetch_ollama env _) as [e| |[|] statusText [[chunks [|e0|]]|]];
     simpl; try discriminate;
     intros H; injection H as <- _; intros E; vm_compute in E; discriminate).
Qed.

(** The theorem after a refused DELETE of the default prompt on a fresh
    installation. *)
Lemma X14_witness :
  mkResponse 200 (BStream [PromptsData.default_content ++ ChatRoute.note_no_context])
  <> ChatRoute.text_response "System prompt not found" 500.
Proof.
  eapply X14_default_prompt_is_always_found
    with (st0 := PromptsData.NoDirectory)
         (reqs := [(PromptApi.Delete (lit "default"), Scenario.clock)])
         (b := Scenario.chat_request) (env := Scenario.chat_with_empty_search).
  - intros t Hq. now rewrite (@readPrompts_quiet t PromptsData.NoDirectory Hq).
  - repeat constructor.
  - reflexivity.
  - reflexivity.
  - vm_compute. reflexivity.
Defined.

(** ** The retrieval route, beyond its timer *)

Section RetrievalRouteFacts.
Import Search.

Lemma shown_content_length c : List.length (shown_content c) <= 403.
Proof.
  destruct (Z.le_gt_cases (length_ c) budget) as [H|H].
  - rewrite shown_content_short by exact H. unfold length_, budget in H. lia.
  - rewrite shown_content_long by lia.
    rewrite length_app, length_firstn.
    change (List.length marker) with 3. lia.
Qed.

Lemma shown_content_idempotent c : shown_content (shown_content c) = shown_content c.
Proof.
  destruct (Z.le_gt_cases (length_ c) budget) as [H|H].
  - now rewrite !shown_content_short by (rewrite ?shown_content_short; exact H).
  - assert (Hl : (length_ c > budget)%Z) by lia.
    rewrite (shown_content_long c Hl).
    assert (Hlen : List.length (firstn 400 c) = 400).
    { rewrite length_firstn. unfold length_, budget in H. lia. }
    rewrite shown_content_long.
    + rewrite firstn_app, Hlen, firstn_all2 by lia.
      simpl. now rewrite app_nil_r.
    + unfold length_, budget. rewrite length_app, Hlen.
      change (List.length marker) with 3. lia.
Qed.

End RetrievalRouteFacts.

(** X15.  The content part of a context item never exceeds 403 code
    units, whatever the content, and formatting a formatted part again
    changes nothing.  The metadata preview is cut at 100 code units and
    always ends in ['...'], also when nothing was cut. *)
Theorem X15_context_item_is_bounded :
  forall r : Search.SearchResult,
    List.length (Search.shown_content (Search.content r)) <= 403
    /\ Search.shown_content (Search.shown_content (Search.content r))
       = Search.shown_content (Search.content r)
    /\ get (GraphRagRoute.metadata_entry r) "content_preview"
       = Str (firstn 100 (Search.content r) ++ lit "...").
Proof.
  intros r. split; [apply shown_content_length|].
  split; [apply shown_content_idempotent|].
  unfold GraphRagRoute.metadata_entry. simpl.
  change 100%Z with (Z.of_nat 100). now rewrite substring_prefix.
Qed.

(** X16.  The retrieval route answers 400 exactly when the body was read
    and its [query] is missing, empty or not a string; in that case the
    search script is not run, so the answer is the same in every
    environment. *)
Theorem X16_bad_query_is_the_only_400 :
  forall (body : option value) (env : GraphRagRoute.Env),
    (status (GraphRagRoute.POST body env) = 400%Z
     <-> exists b, body = Some b /\ b <> Null /\ b <> Undefined
                   /\ (forall c q, get b "query" <> Str (c :: q)))
    /\ (status (GraphRagRoute.POST body env) = 400%Z ->
        GraphRagRoute.POST body env
        = GraphRagRoute.error_json "Query is required and must be a string" 400).
Proof.
  intros body env. split; [split|].
  - unfold GraphRagRoute.POST.
    destruct body as [b|]; [|discriminate].
    destruct b as [| | | | | |fields]; simpl; try discriminate;
      try (intros _; eexists; repeat split; try discriminate; fail).
    destruct (lookup "query" fields) as [| | | |q| |] eqn:E;
      try (intros _; eexists; split; [reflexivity|]; repeat split; try discriminate;
           intros c q'; simpl; rewrite E; discriminate).
    destruct q as [|c q].
    + intros _. eexists; split; [reflexivity|]. repeat split; try discriminate.
      intros c q'; simpl; rewrite E; discriminate.
    + destruct (GraphRagRoute.runPythonScript _ _ _ _) as [res|e]; simpl;
        [|discriminate].
      destruct (GraphRagRoute.error res) as [[|? ?]|]; discriminate.
  - intros [b [-> [Hn [Hu Hq]]]]. unfold GraphRagRoute.POST.
    destruct b as [| | | | | |fields]; try congruence; try reflexivity.
    simpl in *. destruct (lookup "query" fields) as [| | | |[|c q]| |]; try reflexivity.
    exfalso. now apply (Hq c q).
  - intros H.
    destruct (graph_rag_errors_fixed body env) as [E|[E|[E|E]]];
      [congruence | exact E | rewrite E in H; discriminate | rewrite E in H; discriminate].
Qed.

(** The theorem at a body whose query is a number. *)
Lemma X16_witness :
  GraphRagRoute.POST (Some (Obj [fld "query" (Num (Int 7))])) Scenario.quick_search
  = GraphRagRoute.error_json "Query is required and must be a string" 400.
Proof.
  destruct (X16_bad_query_is_the_only_400
              (Some (Obj [fld "query" (Num (Int 7))])) Scenario.quick_search)
    as [[_ H] H'].
  apply H', H. exists (Obj [fld "query" (Num (Int 7))]).
  repeat split; try discriminate.
Defined.

(** ** Ingestion, beyond blank and incomplete sessions *)

Section IngestMoreFacts.
Import ChildProcess IngestChatHistoryRoute.

Lemma filter_messages_kept ms vm :
  filter_messages ms = Ok vm ->
  Forall (fun m => valid_message m = Ok true) vm
  /\ incl vm ms /\ List.length vm <= List.length ms.
Proof.
  revert vm. induction ms as [|m ms IH]; simpl; intros vm H.
  - injection H as <-. split; [constructor | split; [apply incl_refl | simpl; lia]].
  - destruct (valid_message m) as [keep|] eqn:Em; cbn [bind] in H; [|discriminate].
    destruct (filter_messages ms) as [rest|]; cbn [bind] in H; [|discriminate].
    destruct (IH _ eq_refl) as [Hall [Hincl Hlen]].
    injection H as <-. destruct keep.
    + split; [now constructor | split; [|simpl; lia]].
      apply incl_cons; [now left | now apply incl_tl].
    + split; [assumption | split; [now apply incl_tl | simpl; lia]].
Qed.

Lemma filter_messages_fixed vm :
  Forall (fun m => valid_message m = Ok true) vm -> filter_messages vm = Ok vm.
Proof.
  induction 1 as [|m vm Hm _ IH]; simpl; [reflexivity|].
  now rewrite Hm, IH.
Qed.

Lemma lookup_set_field_same k v fields : lookup k (set_field k v fields) = v.
Proof.
  induction fields as [|[k' v'] rest IH]; simpl.
  - now rewrite String.eqb_refl.
  - destruct (String.eqb k k') eqn:E; simpl; rewrite ?String.eqb_refl, ?E; auto.
Qed.

Lemma lookup_set_field_other k k0 v fields :
  k0 <> k -> lookup k0 (set_field k v fields) = lookup k0 fields.
Proof.
  intros Hne. induction fields as [|[k' v'] rest IH]; simpl.
  - destruct (String.eqb_spec k0 k); [contradiction | reflexivity].
  - destruct (String.eqb_spec k k') as [->|Hk]; simpl.
    + destruct (String.eqb_spec k0 k'); [contradiction | reflexivity].
    + now rewrite IH.
Qed.

Lemma set_field_idempotent k v fields :
  set_field k v (set_field k v fields) = set_field k v fields.
Proof.
  induction fields as [|[k' v'] rest IH]; simpl.
  - now rewrite String.eqb_refl.
  - destruct (String.eqb k k') eqn:E; simpl; rewrite ?String.eqb_refl, ?E; [reflexivity|].
    now rewrite IH.
Qed.

(** What it takes for the loop to keep a session. *)
Lemma check_session_kept s s' :
  check_session s = Ok (Some s') ->
  exists fields ms vm,
    s = Obj fields
    /\ truthy (lookup "id" fields) = true
    /\ lookup "messages" fields = Arr ms
    /\ filter_messages ms = Ok vm
    /\ vm <> []
    /\ s' = Obj (set_field "messages" (Arr vm) fields).
Proof.
  unfold check_session, prop, get.
  destruct s as [| | | | | |fields]; cbn [bind]; try discriminate;
    try (simpl; discriminate).
  destruct (truthy (lookup "id" fields)) eqn:Eid; simpl; [|discriminate].
  destruct (lookup "messages" fields) as [| | | | |ms|] eqn:Em; try discriminate.
  destruct ms as [|m ms]; [discriminate|].
  destruct (filter_messages (m :: ms)) as [vm|] eqn:Ef; cbn [bind]; [|discriminate].
  destruct vm as [|v vm]; [discriminate|].
  intros H. injection H as <-.
  exists fields, (m :: ms), (v :: vm).
  split; [reflexivity|]. split; [exact Eid|]. split; [exact Em|].
  split; [exact Ef|]. split; [discriminate | reflexivity].
Qed.

Lemma check_session_again s s' :
  check_session s = Ok (Some s') -> check_session s' = Ok (Some s').
Proof.
  intros H. destruct (check_session_kept _ H) as (fields & ms & vm & -> & Hid & Hm & Hf & Hne & ->).
  unfold check_session, prop, get. cbn [bind].
  rewrite lookup_set_field_other by discriminate. rewrite Hid. simpl.
  rewrite lookup_set_field_same.
  destruct (filter_messages_kept _ Hf) as [Hall _].
  destruct vm as [|v vm]; [congruence|].
  rewrite (filter_messages_fixed Hall). cbn [bind].
  unfold with_messages. now rewrite set_field_idempotent.
Qed.

Lemma validSessions_kept l v :
  validSessions l = Ok v ->
  Forall (fun s' => exists s, In s l /\ check_session s = Ok (Some s')) v
  /\ List.length v <= List.length l.
Proof.
  revert v. induction l as [|s l IH]; simpl; intros v H.
  - injection H as <-. split; [constructor | simpl; lia].
  - destruct (check_session s) as [kept|] eqn:Es; cbn [bind] in H; [|discriminate].
    destruct (validSessions l) as [rest|]; cbn [bind] in H; [|discriminate].
    destruct (IH _ eq_refl) as [Hall Hlen].
    assert (Hall' : Forall (fun s' => exists s0, In s0 (s :: l)
                                                 /\ check_session s0 = Ok (Some s')) rest).
    { eapply Forall_impl; [|exact Hall]. intros a [s0 [Hin Hc]]. exists s0.
      split; [now right | exact Hc]. }
    injection H as <-. destruct kept as [s'|].
    + split; [|simpl; lia]. constructor; [|exact Hall'].
      exists s. split; [now left | exact Es].
    + split; [exact Hall' | simpl; lia].
Qed.

Lemma validSessions_fixed v :
  Forall (fun s' => check_session s' = Ok (Some s')) v -> validSessions v = Ok v.
Proof.
  induction 1 as [|s v Hs _ IH]; simpl; [reflexivity|].
  now rewrite Hs, IH.
Qed.

Lemma validSessions_null pre post vp :
  validSessions pre = Ok vp ->
  validSessions (pre ++ Null :: post)
  = Throw (TypeError (lit "Cannot read properties of null (reading 'id')")).
Proof.
  revert vp. induction pre as [|s pre IH]; simpl; intros vp H; [reflexivity|].
  destruct (check_session s) as [kept|]; cbn [bind] in *; [|discriminate].
  destruct (validSessions pre) as [rest|]; cbn [bind] in *; [|discriminate].
  now rewrite (IH _ eq_refl).
Qed.

End IngestMoreFacts.

(** X17.  The sessions the ingestion loop keeps would all be kept again,
    unchanged, if they were sent again, and there are no more of them
    than were sent.  Each kept session is one of the sessions sent, with
    a truthy id, in which only [messages] was replaced: it now holds the
    messages that passed the filter, at least one, each with a role and
    non-blank text; every other field is as it was. *)
Theorem X17_kept_sessions_are_stable :
  forall (l v : list value),
    IngestChatHistoryRoute.validSessions l = Ok v ->
    IngestChatHistoryRoute.validSessions v = Ok v
    /\ List.length v <= List.length l
    /\ (forall s', In s' v ->
          exists s ms vm,
            In s l
            /\ truthy (get s "id") = true
            /\ get s "messages" = Arr ms
            /\ IngestChatHistoryRoute.filter_messages ms = Ok vm
            /\ vm <> []
            /\ Forall (fun m => IngestChatHistoryRoute.valid_message m = Ok true) vm
            /\ get s' "messages" = Arr vm
            /\ (forall k, k <> "messages"%string -> get s' k = get s k)).
Proof.
  intros l v H. destruct (validSessions_kept _ H) as [Hall Hlen].
  split; [|split; [exact Hlen|]].
  - apply validSessions_fixed. eapply Forall_impl; [|exact Hall].
    intros s' [s [_ Hc]]. now apply check_session_again in Hc.
  - intros s' Hin. rewrite Forall_forall in Hall.
    destruct (Hall _ Hin) as [s [Hs Hc]].
    destruct (check_session_kept _ Hc) as (fields & ms & vm & -> & Hid & Hm & Hf & Hne & ->).
    exists (Obj fields), ms, vm. simpl.
    destruct (filter_messages_kept _ Hf) as [Hvalid _].
    split; [exact Hs|]. split; [exact Hid|]. split; [exact Hm|].
    split; [exact Hf|]. split; [exact Hne|]. split; [exact Hvalid|].
    split; [apply lookup_set_field_same|].
    intros k Hk. now apply lookup_set_field_other.
Qed.

(** The theorem at one good session followed by one blank session. *)
Lemma X17_witness :
  IngestChatHistoryRoute.validSessions [Scenario.good_session]
  = Ok [Scenario.good_session].
Proof.
  destruct (X17_kept_sessions_are_stable
              [Scenario.good_session; Scenario.blank_session]
              (v := [Scenario.good_session]) eq_refl) as [H _].
  exact H.
Defined.

(** X18.  One null entry in [chatSessions] fails the whole request: when
    the sessions before it raise no error, the handler answers 500 with
    the text of the TypeError in [details], whatever the other sessions
    hold and whatever the environment. *)
Theorem X18_null_session_aborts_the_batch :
  forall (env : IngestChatHistoryRoute.Env) (pre post vp : list value),
    IngestChatHistoryRoute.validSessions pre = Ok vp ->
    IngestChatHistoryRoute.POST
      (Some (IngestChatHistoryRoute.batch (pre ++ Null :: post))) env
    = IngestChatHistoryRoute.error_json "Internal server error"
        (Some (Str (lit "TypeError: Cannot read properties of null (reading 'id')")))
        500.
Proof.
  intros env pre post vp H.
  rewrite POST_batch, (validSessions_null pre post H). reflexivity.
Qed.

(** The theorem at a good session followed by null. *)
Lemma X18_witness :
  status (IngestChatHistoryRoute.POST
            (Some (IngestChatHistoryRoute.batch
                     ([Scenario.good_session] ++ Null :: [Scenario.good_session])))
            Scenario.working_ingest)
  = 500%Z.
Proof.
  rewrite (X18_null_session_aborts_the_batch Scenario.working_ingest
             [Scenario.good_session] [Scenario.good_session]
             (vp := [Scenario.good_session]) eq_refl).
  reflexivity.
Defined.

Section IngestScriptFacts.
Import ChildProcess IngestChatHistoryRoute IngestScript.

Lemma runPythonScript_ingest env file :
  runPythonScript env (script_path (cwd env)) (lit "ingest") (IngestScript.temp_path env) file
  = match spawn env (IngestScript.ingest_args env) file with
    | SpawnThrows e => Throw e
    | Hangs => Ok timed_out
    | Ends at_ms e => if (at_ms <? timeout_ms)%Z then Ok (on_exit e) else Ok timed_out
    end.
Proof.
  unfold runPythonScript, ingest_args.
  assert (H : temp_path env <> []).
  { unfold temp_path. destruct (cwd env); discriminate. }
  destruct (IngestScript.temp_path env) as [|c rest] eqn:E; [congruence|]. reflexivity.
Qed.

(** The handler once the sessions are filtered, the script is there and
    the temporary file can be written and removed: the answer hangs on
    what the script run resolves with. *)
Lemma POST_after_run env l valid res :
  validSessions l = Ok valid ->
  valid <> [] ->
  script_exists env = true ->
  writeFileSync env (IngestScript.temp_path env) (Arr valid) = None ->
  (temp_exists env = true -> unlinkSync env (IngestScript.temp_path env) = None) ->
  runPythonScript env (script_path (cwd env)) (lit "ingest") (IngestScript.temp_path env) (Arr valid)
    = Ok res ->
  POST (Some (batch l)) env
  = match prop res "error" with
    | Throw fsError =>
        error_json "Failed to process chat sessions" (Some (Str (error_text fsError))) 500
    | Ok err =>
        if truthy err
        then error_json "Failed to ingest chat history" (Some err) 500
        else report valid l
    end.
Proof.
  intros Hv Hne Hex Hw Hu Hrun.
  rewrite POST_batch, Hv. unfold ingest.
  destruct valid as [|v valid]; [congruence|].
  rewrite Hex. simpl negb. cbv iota.
  unfold store_and_run. fold (IngestScript.temp_path env). rewrite Hw, Hrun. cbn [bind].
  destruct (temp_exists env); [rewrite (Hu eq_refl)|]; cbn [bind];
    destruct (prop res "error") as [err|e]; cbn [bind]; try reflexivity;
    now destruct (truthy err).
Qed.

End IngestScriptFacts.

(** X19.  The ingest script runs under a timer of 60 seconds.  When the
    script has not ended by then (or never ends), the handler answers
    500 with ['Failed to ingest chat history'] and the time-out text in
    [details]. *)
Theorem X19_ingest_timeout :
  forall (env : IngestChatHistoryRoute.Env) (l valid : list value),
    IngestChatHistoryRoute.validSessions l = Ok valid ->
    valid <> [] ->
    IngestChatHistoryRoute.script_exists env = true ->
    IngestChatHistoryRoute.writeFileSync env (IngestScript.temp_path env) (Arr valid) = None ->
    (IngestChatHistoryRoute.temp_exists env = true ->
     IngestChatHistoryRoute.unlinkSync env (IngestScript.temp_path env) = None) ->
    (IngestChatHistoryRoute.spawn env (IngestScript.ingest_args env) (Arr valid) = ChildProcess.Hangs
     \/ exists at_ms e,
          IngestChatHistoryRoute.spawn env (IngestScript.ingest_args env) (Arr valid)
          = ChildProcess.Ends at_ms e
          /\ (60000 <= at_ms)%Z) ->
    IngestChatHistoryRoute.POST (Some (IngestChatHistoryRoute.batch l)) env
    = IngestChatHistoryRoute.error_json "Failed to ingest chat history"
        (Some (Str (lit "Python script timed out after 60 seconds"))) 500.
Proof.
  intros env l valid Hv Hne Hex Hw Hu Hrun.
  rewrite POST_after_run with (valid := valid) (res := IngestChatHistoryRoute.timed_out);
    try assumption; [reflexivity|].
  rewrite runPythonScript_ingest.
  destruct Hrun as [-> | [at_ms [e [-> Hat]]]]; [reflexivity|].
  unfold IngestChatHistoryRoute.timeout_ms.
  destruct (Z.ltb_spec at_ms 60000); [lia | reflexivity].
Qed.

(** The theorem where the script closes cleanly, but after 61 seconds. *)
Lemma X19_witness :
  IngestChatHistoryRoute.POST
    (Some (IngestChatHistoryRoute.batch [Scenario.good_session]))
    (IngestChatHistoryRoute.mkEnv (lit "/app") true (fun _ _ => None)
       (fun _ _ => ChildProcess.Ends 61000
                     (ChildProcess.CloseEvent (Some 0%Z)
                        (IngestChatHistoryRoute.mkStdout (lit "stored") None None) []))
       true (fun _ => None) (SyntaxError (lit "Unexpected end of JSON input")))
  = IngestChatHistoryRoute.error_json "Failed to ingest chat history"
      (Some (Str (lit "Python script timed out after 60 seconds"))) 500.
Proof.
  eapply X19_ingest_timeout with (valid := [Scenario.good_session]).
  - reflexivity.
  - discriminate.
  - reflexivity.
  - reflexivity.
  - reflexivity.
  - right. eexists _, _. split; [reflexivity | lia].
Defined.

(** X20.  When the ingest script closes in time with exit code 0 and its
    output is empty or is not JSON, the handler takes the run for a
    success, whatever the output or the standard error say: it answers
    200 with the report, counting the sessions kept and the sessions
    sent. *)
Theorem X20_plain_output_counts_as_success :
  forall (env : IngestChatHistoryRoute.Env) (l valid : list value) (at_ms : Z)
         (out : IngestChatHistoryRoute.Stdout) (stderr : jsstring),
    IngestChatHistoryRoute.validSessions l = Ok valid ->
    valid <> [] ->
    IngestChatHistoryRoute.script_exists env = true ->
    IngestChatHistoryRoute.writeFileSync env (IngestScript.temp_path env) (Arr valid) = None ->
    (IngestChatHistoryRoute.temp_exists env = true ->
     IngestChatHistoryRoute.unlinkSync env (IngestScript.temp_path env) = None) ->
    IngestChatHistoryRoute.spawn env (IngestScript.ingest_args env) (Arr valid)
    = ChildProcess.Ends at_ms (ChildProcess.CloseEvent (Some 0%Z) out stderr) ->
    (at_ms < 60000)%Z ->
    trim (IngestChatHistoryRoute.raw out) = []
    \/ IngestChatHistoryRoute.json_parse out = None ->
    IngestChatHistoryRoute.POST (Some (IngestChatHistoryRoute.batch l)) env
    = IngestChatHistoryRoute.report valid l
    /\ field (IngestChatHistoryRoute.POST (Some (IngestChatHistoryRoute.batch l)) env)
             "processed_count" = Num (Int (Z.of_nat (List.length valid)))
    /\ field (IngestChatHistoryRoute.POST (Some (IngestChatHistoryRoute.batch l)) env)
             "sessions_processed" = Num (Int (Z.of_nat (List.length l))).
Proof.
  intros env l valid at_ms out stderr Hv Hne Hex Hw Hu Hrun Hat Hout.
  assert (E : IngestChatHistoryRoute.POST (Some (IngestChatHistoryRoute.batch l)) env
              = IngestChatHistoryRoute.report valid l).
  { assert (Hres : exists res,
               IngestChatHistoryRoute.runPythonScript env
                 (ChildProcess.script_path (IngestChatHistoryRoute.cwd env))
                 (lit "ingest") (IngestScript.temp_path env) (Arr valid) = Ok res
               /\ prop res "error" = Ok Undefined).
    { rewrite runPythonScript_ingest, Hrun.
      apply Z.ltb_lt in Hat. unfold IngestChatHistoryRoute.timeout_ms. rewrite Hat.
      eexists. split; [reflexivity|]. simpl.
      destruct (trim (IngestChatHistoryRoute.raw out)) as [|c rest]; [reflexivity|].
      destruct Hout as [Hout|Hout]; [discriminate|]. now rewrite Hout. }
    destruct Hres as [res [Hres Herr]].
    rewrite POST_after_run with (valid := valid) (res := res); try assumption.
    now rewrite Herr. }
  rewrite E. repeat split.
Qed.

(** The theorem where the script prints ['stored'] and complains on its
    standard error. *)
Lemma X20_witness :
  IngestChatHistoryRoute.POST
    (Some (IngestChatHistoryRoute.batch [Scenario.good_session; Scenario.blank_session]))
    (IngestChatHistoryRoute.mkEnv (lit "/app") true (fun _ _ => None)
       (fun _ _ => ChildProcess.Ends 1200
                     (ChildProcess.CloseEvent (Some 0%Z)
                        (IngestChatHistoryRoute.mkStdout (lit "stored") None None)
                        (lit "UserWarning: embedding model not cached")))
       true (fun _ => None) (SyntaxError (lit "Unexpected end of JSON input")))
  = IngestChatHistoryRoute.report [Scenario.good_session]
      [Scenario.good_session; Scenario.blank_session].
Proof.
  eapply X20_plain_output_counts_as_success.
  - reflexivity.
  - discriminate.
  - reflexivity.
  - reflexivity.
  - reflexivity.
  - reflexivity.
  - reflexivity.
  - right. reflexivity.
Defined.

(** X21.  The speech route cannot tell a failed synthesis from a
    successful one.  For a request with a text, once the audio directory
    is there (it exists, or creating it succeeds), the route answers 200
    with [success: true] and the audio URL of the file name, whether or
    not the speech server is reachable, whatever it answers, and whether
    or not the file is written. *)
Theorem X21_speech_failure_is_hidden :
  forall (svc : TtsService.Env) (now : Z) (err : JsError) (b : value) (name : jsstring),
    truthy (get b "text") = true ->
    (get b "outputPath" = Str name /\ name <> [])
    \/ (truthy (get b "outputPath") = false
        /\ name = lit "tts_" ++ Z_to_string now ++ lit ".wav") ->
    TtsService.audio_dir_exists svc name = true \/ TtsService.mkdirSync svc = None ->
    TtsRoute.POST (Some b) (TtsRoute.mkEnv now (TtsService.generateSpeech svc) err)
    = json (Obj [fld "success" (Bool true);
                 fld "audioUrl" (Str (lit "/audio/" ++ name));
                 fld "message" (Str (lit "TTS audio generated successfully"))]) 200.
Proof. exact tts_hides_failure. Qed.

(** The check of X21 with a speech server that answers 500. *)
Lemma X21_witness :
  TtsRoute.POST (Some Cases.speech_request) Cases.speech_route_failing
  = json (Obj [fld "success" (Bool true);
               fld "audioUrl" (Str (lit "/audio/tts_1700000000000.wav"));
               fld "message" (Str (lit "TTS audio generated successfully"))]) 200.
Proof.
  apply (@X21_speech_failure_is_hidden Cases.speech_server_failing 1700000000000
           (SyntaxError (lit "Unexpected end of JSON input"))
           Cases.speech_request (lit "tts_1700000000000.wav")).
  - reflexivity.
  - right. split; reflexivity.
  - left. reflexivity.
Defined.

(** X22.  Both chat clients guard their requests the same way: nothing is
    posted exactly when the input is blank after trimming or a request is
    still pending, and what is posted as the query is the trimmed input,
    never an empty text. *)
Theorem X22_blank_or_busy_sends_nothing :
  forall (messages : list Clients.Message) (input : jsstring) (isLoading : bool)
         (now : jsstring),
    (Clients.handleSubmit messages input isLoading now = None
     <-> trim input = [] \/ isLoading = true)
    /\ (Clients.sendMessage messages input isLoading now = None
        <-> trim input = [] \/ isLoading = true)
    /\ (forall posted,
          Clients.handleSubmit messages input isLoading now = Some posted
          \/ Clients.sendMessage messages input isLoading now = Some posted ->
          get posted "query" = Str (trim input) /\ trim input <> []).
Proof.
  intros messages input isLoading now.
  unfold Clients.handleSubmit, Clients.sendMessage.
  destruct (trim input) as [|c r] eqn:E.
  - split; [|split].
    + split; [now left | reflexivity].
    + split; [now left | reflexivity].
    + intros posted [H|H]; discriminate.
  - destruct isLoading.
    + split; [|split].
      * split; [now right | reflexivity].
      * split; [now right | reflexivity].
      * intros posted [H|H]; discriminate.
    + split; [|split].
      * split; [discriminate | intros [H|H]; discriminate].
      * split; [discriminate | intros [H|H]; discriminate].
      * intros posted [H|H]; inversion H; subst; split; try reflexivity; discriminate.
Qed.

(** The check of X22 on an input with blanks around it. *)
Lemma X22_witness :
  get (Clients.request (lit "hello") []) "query" = Str (trim (lit "  hello "))
  /\ trim (lit "  hello ") <> [].
Proof.
  apply (X22_blank_or_busy_sends_nothing [] (lit "  hello ") false (lit "1")).
  left. reflexivity.
Defined.

Section TruncateFacts.
Import PromptManager.

Lemma truncateContent_short content maxLength :
  (length_ content <= maxLength)%Z -> truncateContent content maxLength = content.
Proof.
  intros H. unfold truncateContent.
  destruct (Z.leb_spec (length_ content) maxLength); [reflexivity | lia].
Qed.

Lemma truncateContent_long content (n : nat) :
  (Z.of_nat n < length_ content)%Z ->
  truncateContent content (Z.of_nat n) = firstn n content ++ lit "...".
Proof.
  intros H. unfold truncateContent.
  destruct (Z.leb_spec (length_ content) (Z.of_nat n)); [lia|].
  now rewrite substring_prefix.
Qed.

End TruncateFacts.

(** X23.  For a limit that is not negative, [truncateContent] returns at
    most [maxLength + 3] code units: a text within the limit unchanged,
    a longer one cut to its first [maxLength] units followed by three
    dots, so that only a tail is ever replaced.  Truncating the result
    again with the same limit changes nothing. *)
Theorem X23_truncateContent_bounds :
  forall (content : jsstring) (maxLength : Z),
    (0 <= maxLength)%Z ->
    (length_ (PromptManager.truncateContent content maxLength) <= maxLength + 3)%Z
    /\ (exists kept dropped,
          content = kept ++ dropped
          /\ PromptManager.truncateContent content maxLength
             = kept ++ (match dropped with [] => [] | _ :: _ => lit "..." end)
          /\ (dropped <> [] -> length_ kept = maxLength))
    /\ PromptManager.truncateContent (PromptManager.truncateContent content maxLength) maxLength
       = PromptManager.truncateContent content maxLength.
Proof.
  intros content maxLength H0.
  rewrite <- (Z2Nat.id maxLength H0). set (n := Z.to_nat maxLength).
  destruct (Z.le_gt_cases (length_ content) (Z.of_nat n)) as [H|H].
  - rewrite !truncateContent_short by (rewrite ?truncateContent_short; exact H).
    split; [lia|]. split; [|reflexivity].
    exists content, []. rewrite !app_nil_r. repeat split. congruence.
  - assert (Hlen : List.length (firstn n content) = n).
    { rewrite length_firstn. unfold length_ in H. lia. }
    rewrite (truncateContent_long content n H).
    split; [|split].
    + unfold length_. rewrite length_app, Hlen. simpl List.length. lia.
    + exists (firstn n content), (skipn n content).
      split; [symmetry; apply firstn_skipn|].
      destruct (skipn n content) eqn:E.
      * exfalso. apply (f_equal (@List.length _)) in E.
        rewrite length_skipn in E. unfold length_ in H. simpl in E. lia.
      * split; [reflexivity|]. intros _. unfold length_. now rewrite Hlen.
    + rewrite truncateContent_long.
      * rewrite firstn_app, Hlen, firstn_all2 by lia.
        rewrite Nat.sub_diag. simpl firstn. now rewrite app_nil_r.
      * unfold length_. rewrite length_app, Hlen. simpl List.length. lia.
Qed.

(** The check of X23 with a limit of five. *)
Lemma X23_witness :
  (length_ (PromptManager.truncateContent (lit "You are a helpful assistant") 5) <= 5 + 3)%Z.
Proof.
  apply (X23_truncateContent_bounds (lit "You are a helpful assistant") (maxLength := 5)). lia.
Defined.

Ltac case_if :=
  match goal with |- context [if ?b then _ else _] => destruct b end.

Section SessionFacts.
Import ChatStore.

Lemma in_map_same_id (f : ChatSession -> ChatSession) l s :
  (forall x, session_id (f x) = session_id x) ->
  In s l -> exists s', In s' (map f l) /\ session_id s' = session_id s.
Proof. intros Hf Hin. exists (f s). split; [now apply in_map | apply Hf]. Qed.

Lemma has_current_map (f : ChatSession -> ChatSession) ms l cur m p :
  (forall x, session_id (f x) = session_id x) ->
  has_current (mkState ms l cur m p) ->
  forall ms' m' p', has_current (mkState ms' (map f l) cur m' p').
Proof.
  intros Hf [s [Hin Hc]] ms' m' p'. simpl in *.
  exists (f s). simpl. split; [now apply in_map | now rewrite Hf].
Qed.

Lemma find_session_id i l s :
  find (fun x => str_eqb (session_id x) i) l = Some s -> In s l /\ session_id s = i.
Proof.
  intros H. apply find_some in H. destruct H as [Hin He].
  split; [exact Hin | now apply str_eqb_eq].
Qed.

Lemma createNewSession_has_current now st : has_current (fst (createNewSession now st)).
Proof. exists (new_session now st). simpl. split; [now left | reflexivity]. Qed.

Lemma opens_has_current a st : opens a = true -> has_current (step a st).
Proof.
  destruct a; try discriminate; intros _; unfold step, act.
  - destruct stored as [|last rest]; simpl loadSessions.
    + apply createNewSession_has_current.
    + exists last. simpl. split; [now left | reflexivity].
  - apply createNewSession_has_current.
  - apply createNewSession_has_current.
Qed.

Lemma step_has_current a st : has_current st -> has_current (step a st).
Proof.
  intros H. destruct a; try (apply opens_has_current; reflexivity); unfold step, act.
  - (* saveSession *)
    unfold saveSession. destruct st as [ms l cur m p]. simpl.
    destruct cur as [[|c r]|]; try exact H.
    simpl fst. apply has_current_map with (ms := ms) (m := m) (p := p); [|exact H].
    intros ?. case_if; auto.
  - (* switchSession *)
    simpl fst. unfold switchSession.
    destruct (find _ (sessions st)) as [s|] eqn:E; [|exact H].
    apply find_session_id in E. destruct E as [Hin Hid].
    exists s. simpl. split; [exact Hin | now rewrite Hid].
  - (* renameSession *)
    unfold renameSession. destruct st as [ms l cur m p]. simpl.
    apply has_current_map with (ms := ms) (m := m) (p := p); [|exact H].
    intros ?. case_if; auto.
  - (* clearCurrentChat *)
    unfold clearCurrentChat. destruct st as [ms l cur m p]. simpl.
    destruct ms as [|x ms]; [exact H|]. destruct confirmed; [|exact H].
    simpl fst. apply has_current_map with (ms := x :: ms) (m := m) (p := p); [|exact H].
    intros ?. case_if; auto.
  - (* deleteSession *)
    unfold deleteSession. destruct H as [s [Hin Hc]]. rewrite Hc.
    destruct (str_eqb (session_id s) sessionId) eqn:E.
    + destruct (filter _ (sessions st)) as [|next rest] eqn:F.
      * exists (new_session now st). simpl. split; [now left | reflexivity].
      * exists next. simpl. split; [now left | reflexivity].
    + exists s. simpl. split; [|reflexivity].
      apply filter_In. split; [exact Hin | now rewrite E].
Qed.

Lemma run_has_current actions st : has_current st -> has_current (run actions st).
Proof.
  revert st. induction actions as [|a rest IH]; intros st H; [exact H|].
  simpl. apply IH, step_has_current, H.
Qed.

Lemma switchSession_sessions i st : sessions (switchSession i st) = sessions st.
Proof. unfold switchSession. now destruct (find _ (sessions st)). Qed.

Lemma find_saved now ms m p c l s :
  In s l -> session_id s = c ->
  exists s',
    find (fun x => str_eqb (session_id x) c)
         (map (fun x => if is_current (Some c) x
                        then mkSession (session_id x) (title x) ms m p (createdAt x) now
                        else x) l) = Some s'
    /\ session_messages s' = ms /\ model s' = m /\ promptId s' = p.
Proof.
  induction l as [|x l IH]; [intros []|].
  intros Hin Hid. simpl.
  destruct (str_eqb (session_id x) c) eqn:E.
  - simpl. rewrite E. eexists. split; [reflexivity|]. now simpl.
  - rewrite E. destruct Hin as [-> | Hin].
    + apply str_eqb_neq in E. contradiction.
    + now apply IH.
Qed.

Lemma switchSession_found c st s :
  find (fun x => str_eqb (session_id x) c) (sessions st) = Some s ->
  forall other,
    switchSession c (switchSession other st)
    = mkState (session_messages s) (sessions st) (Some c) (model s) (promptId s).
Proof.
  intros H other. unfold switchSession at 1.
  rewrite switchSession_sessions, H. reflexivity.
Qed.

End SessionFacts.

(** X24.  Once a session is current, the session actions keep one
    current: after any sequence of loading, saving, creating, switching,
    renaming, clearing and deleting, [currentSessionId] is the id of a
    session in the list.  Loading, creating a session and clearing all
    sessions establish this from any state. *)
Theorem X24_current_session_is_listed :
  forall (a : ChatStore.Action) (actions : list ChatStore.Action) (st : ChatStore.State),
    ChatStore.has_current st \/ ChatStore.opens a = true ->
    ChatStore.has_current (ChatStore.run (a :: actions) st).
Proof.
  intros a actions st H. simpl. apply run_has_current.
  destruct H as [H|H]; [now apply step_has_current | now apply opens_has_current].
Qed.

(** The check of X24 from the initial state: load an empty storage, then
    delete the session just created. *)
Lemma X24_witness :
  ChatStore.has_current
    (ChatStore.run [ChatStore.Load Cases.noon [];
                    ChatStore.Delete Cases.noon (lit "session-1700000000000")]
       ChatStore.initial).
Proof.
  apply X24_current_session_is_listed. right. reflexivity.
Defined.

(** X25.  Saving makes the current chat survive a change of session:
    after [saveSession], switching to any session and back to the saved
    one restores the messages, the model and the prompt that were
    current when it was saved. *)
Theorem X25_saved_session_comes_back :
  forall (now : Z) (st : ChatStore.State) (c other : jsstring),
    ChatStore.currentSessionId st = Some c -> c <> [] ->
    (exists s, In s (ChatStore.sessions st) /\ ChatStore.session_id s = c) ->
    let back := ChatStore.step (ChatStore.Switch c)
                  (ChatStore.step (ChatStore.Switch other)
                     (ChatStore.step (ChatStore.Save now) st)) in
    ChatStore.messages back = ChatStore.messages st
    /\ ChatStore.selectedModel back = ChatStore.selectedModel st
    /\ ChatStore.selectedPromptId back = ChatStore.selectedPromptId st
    /\ ChatStore.currentSessionId back = Some c.
Proof.
  intros now st c other Hc Hn [s [Hin Hid]].
  unfold ChatStore.step, ChatStore.act. simpl fst.
  unfold ChatStore.saveSession. rewrite Hc.
  destruct c as [|x r]; [congruence|]. simpl fst.
  destruct (@find_saved now (ChatStore.messages st) (ChatStore.selectedModel st)
              (ChatStore.selectedPromptId st) _ _ _ Hin Hid)
    as [s' [Hf [Hm [Hmo Hp]]]].
  match goal with
  | |- context [ChatStore.switchSession _ (ChatStore.switchSession _ ?t)] =>
      rewrite (@switchSession_found (x :: r) t s' Hf)
  end. simpl.
  split; [exact Hm|]. split; [exact Hmo|]. split; [exact Hp | reflexivity].
Qed.

(** The check of X25: the unsaved turn of the first session is there
    again after a visit to the second. *)
Lemma X25_witness :
  ChatStore.messages
    (ChatStore.step (ChatStore.Switch (lit "session-1"))
       (ChatStore.step (ChatStore.Switch (lit "session-2"))
          (ChatStore.step (ChatStore.Save 5) Cases.two_sessions)))
  = [Cases.question].
Proof.
  apply (@X25_saved_session_comes_back 5 Cases.two_sessions (lit "session-1")
           (lit "session-2")).
  - reflexivity.
  - discriminate.
  - eexists. split; [left; reflexivity | reflexivity].
Defined.

(** X26.  Only deleting a session, or loading stored ones, takes a
    session out of the list.  Every other action, [clearAllSessions]
    included, leaves each session in the list under its id and creation
    time.  [deleteSession] keeps every session with another id as it is,
    and a session with the deleted id that is found afterwards is the
    fresh one made because none was left. *)
Theorem X26_sessions_are_only_removed_by_delete :
  forall (st : ChatStore.State) (s : ChatStore.ChatSession),
    In s (ChatStore.sessions st) ->
    (forall a, ChatStore.removes a = false ->
       exists s', In s' (ChatStore.sessions (ChatStore.step a st))
                  /\ ChatStore.session_id s' = ChatStore.session_id s
                  /\ ChatStore.createdAt s' = ChatStore.createdAt s)
    /\ (forall now i,
          ChatStore.session_id s <> i ->
          In s (ChatStore.sessions (ChatStore.step (ChatStore.Delete now i) st)))
    /\ (forall now i s',
          In s' (ChatStore.sessions (ChatStore.step (ChatStore.Delete now i) st)) ->
          ChatStore.session_id s' = i -> s' = ChatStore.new_session now st).
Proof.
  intros st s Hin. split; [|split].
  - intros a Ha.
    assert (Hmap : forall f : ChatStore.ChatSession -> ChatStore.ChatSession,
               (forall x, ChatStore.session_id (f x) = ChatStore.session_id x
                          /\ ChatStore.createdAt (f x) = ChatStore.createdAt x) ->
               exists s', In s' (map f (ChatStore.sessions st))
                          /\ ChatStore.session_id s' = ChatStore.session_id s
                          /\ ChatStore.createdAt s' = ChatStore.createdAt s).
    { intros f Hf. exists (f s). split; [now apply in_map | apply Hf]. }
    assert (Hsame : exists s', In s' (ChatStore.sessions st)
                          /\ ChatStore.session_id s' = ChatStore.session_id s
                          /\ ChatStore.createdAt s' = ChatStore.createdAt s).
    { exists s. auto. }
    assert (Hnew : forall now, exists s',
               In s' (ChatStore.sessions (fst (ChatStore.createNewSession now st)))
               /\ ChatStore.session_id s' = ChatStore.session_id s
               /\ ChatStore.createdAt s' = ChatStore.createdAt s).
    { intros now. exists s. simpl. auto. }
    destruct a; try discriminate; unfold ChatStore.step, ChatStore.act.
    + destruct stored; [apply Hnew | discriminate].
    + unfold ChatStore.saveSession.
      destruct (ChatStore.currentSessionId st) as [[|c r]|]; try exact Hsame.
      simpl. apply Hmap. intros ?. case_if; auto.
    + apply Hnew.
    + simpl fst. now rewrite switchSession_sessions.
    + simpl. apply Hmap. intros ?. case_if; auto.
    + unfold ChatStore.clearCurrentChat.
      destruct (ChatStore.messages st); [exact Hsame|].
      destruct confirmed; [|exact Hsame].
      simpl. apply Hmap. intros ?. case_if; auto.
    + apply Hnew.
  - intros now i Hne. unfold ChatStore.step, ChatStore.act, ChatStore.deleteSession.
    assert (Hf : In s (filter (fun x => negb (str_eqb (ChatStore.session_id x) i))
                          (ChatStore.sessions st))).
    { apply filter_In. split; [exact Hin|]. now apply negb_true_iff, str_eqb_neq. }
    destruct (match ChatStore.currentSessionId st with
              | Some c => str_eqb c i | None => false end).
    + destruct (filter _ (ChatStore.sessions st)) as [|n r]; [destruct Hf | exact Hf].
    + exact Hf.
  - intros now i s' Hin' Hid.
    unfold ChatStore.step, ChatStore.act, ChatStore.deleteSession in Hin'.
    assert (Hf : ~ In s' (filter (fun x => negb (str_eqb (ChatStore.session_id x) i))
                            (ChatStore.sessions st))).
    { intros H. apply filter_In in H. destruct H as [_ H].
      apply negb_true_iff, str_eqb_neq in H. contradiction. }
    destruct (match ChatStore.currentSessionId st with
              | Some c => str_eqb c i | None => false end).
    + destruct (filter _ (ChatStore.sessions st)) as [|n r] eqn:F.
      * simpl in Hin'. destruct Hin' as [<- | []]. reflexivity.
      * contradiction.
    + contradiction.
Qed.

(** The check of X26: after [clearAllSessions] the second session is
    still listed. *)
Lemma X26_witness :
  exists s', In s' (ChatStore.sessions
                      (ChatStore.step (ChatStore.ClearAll Cases.noon) Cases.two_sessions))
             /\ ChatStore.session_id s' = lit "session-2"
             /\ ChatStore.createdAt s' = 1%Z.
Proof.
  refine (proj1 (@X26_sessions_are_only_removed_by_delete Cases.two_sessions
                   (Cases.session "session-2" "Plans" []) _)
                (ChatStore.ClearAll Cases.noon) _).
  - right. left. reflexivity.
  - reflexivity.
Defined.
